(** * cityscale: the emissions and forecast engine

    A shallow embedding of [modules/utils.py], [modules/emissions_engine.py],
    [modules/urban_form.py] and [modules/scenario.py].

    Numbers are IEEE binary64 values (Rocq's primitive [float]), which is what
    a Python [float] and a pandas [float64] column hold; [+], [-], [*], [/]
    and the comparisons are the kernel's.  A DataFrame is the list of its
    rows, a record per row with one field per column the code reads.
    Exceptions are values of [exn] carried by the [result] monad.

    Four library routines have no counterpart among the primitive float
    operations and are taken as parameters of the sections that use them:
    the row order chosen by [DataFrame.sort_values], [Series.sum],
    [float.__pow__] and [math.log1p]. *)

From Stdlib Require Import ZArith List Ascii String Floats Permutation Sorted Lia Bool.
From stdpp Require Import gmap strings.
Import ListNotations.

Set Warnings "-inexact-float".
#[local] Open Scope string_scope.

(** ** Exceptions and the result monad *)

Inductive value_error : Type :=
| MissingEmissionFactors (missing_sectors : list string)
    (* "Missing emission factors for sectors: [...]" *)
| EndYearBeforeStart
    (* "end_year must be >= start_year" *)
| MathDomainError.
    (* "math domain error" *)

Inductive exn : Type :=
| ValueError (what : value_error)
| KeyError (key : string)
| OverflowError.

Inductive result (A : Type) : Type :=
| Ok (value : A)
| Raise (e : exn).
Arguments Ok {A} value.
Arguments Raise {A} e.

#[global] Instance result_ret : MRet result := @Ok.
#[global] Instance result_bind : MBind result :=
  λ A B f m, match m with Ok x => f x | Raise e => Raise e end.

#[global] Instance result_fmap : FMap result :=
  λ A B f m, match m with Ok x => Ok (f x) | Raise e => Raise e end.

(** [for x in xs: ys.append(f(x))], stopping at the first exception. *)
Fixpoint for_each {A B : Type} (f : A → result B) (xs : list A) : result (list B) :=
  match xs with
  | [] => Ok []
  | x :: xs' => y ← f x; ys ← for_each f xs'; Ok (y :: ys)
  end.

(** ** modules/utils.py *)

Module utils.
#[local] Open Scope float_scope.

Definition DEFAULT_GWP : gmap string float :=
  {[ "CO2" := 1.0; "CH4" := 28.0; "N2O" := 265.0 ]}.

(** Python's two-argument [max] and [min] keep the first argument unless
    the second compares strictly greater (smaller). *)
Definition py_max (a b : float) : float := if a <? b then b else a.
Definition py_min (a b : float) : float := if b <? a then b else a.

Definition clamp (value minimum maximum : float) : float :=
  py_max minimum (py_min maximum value).

(** [clamp(value)] with the default bounds. *)
Definition clamp01 (value : float) : float := clamp value 0.0 1.0.

Definition safe_divide (numerator denominator : float) : float :=
  if denominator =? 0 then 0.0 else numerator / denominator.

(** [list(range(start_year, end_year + 1))] *)
Definition py_range (lo hi : Z) : list Z :=
  (λ i, (lo + Z.of_nat i)%Z) <$> seq 0 (Z.to_nat (hi - lo)).

Definition year_range (start_year end_year : Z) : result (list Z) :=
  if (end_year <? start_year)%Z then Raise (ValueError EndYearBeforeStart)
  else Ok (py_range start_year (end_year + 1)).

(** [d[key]] on a dict. *)
Definition getitem (d : gmap string float) (key : string) : result float :=
  match d !! key with
  | Some v => Ok v
  | None => Raise (KeyError key)
  end.
End utils.
Export utils.

(** ** Tables *)

Record ActivityRow : Type := { sector : string; activity : float }.

Record FactorRow : Type :=
  { f_sector : string; co2_factor : float; ch4_factor : float; n2o_factor : float }.

(** A row of [activity_df.merge(factor_df, how="left", on="sector")]. *)
Record MergedRow : Type :=
  { m_sector : string; m_activity : float;
    m_co2_factor : float; m_ch4_factor : float; m_n2o_factor : float }.

(** A row of the frame [compute_sector_emissions] returns. *)
Record EmissionRow : Type :=
  { e_sector : string; e_activity : float;
    co2 : float; ch4 : float; n2o : float; co2e : float }.

Record CitySummary : Type :=
  { total_co2e : float; per_capita_co2e : float; per_gdp_co2e : float }.

(** ** modules/emissions_engine.py *)

Module emissions_engine.
#[local] Open Scope float_scope.

Definition joined (a : ActivityRow) (f : FactorRow) : MergedRow :=
  {| m_sector := sector a; m_activity := activity a;
     m_co2_factor := co2_factor f; m_ch4_factor := ch4_factor f;
     m_n2o_factor := n2o_factor f |}.

Definition unmatched (a : ActivityRow) : MergedRow :=
  {| m_sector := sector a; m_activity := activity a;
     m_co2_factor := nan; m_ch4_factor := nan; m_n2o_factor := nan |}.

Definition matches (a : ActivityRow) (factor_df : list FactorRow) : list FactorRow :=
  List.filter (λ f, String.eqb (f_sector f) (sector a)) factor_df.

(** The left join keeps the order of the left frame; a left row is paired
    with every right row of its key, in the right frame's order, and with
    NaN in the right columns when its key has none. *)
Definition merge_left (activity_df : list ActivityRow) (factor_df : list FactorRow)
  : list MergedRow :=
  flat_map (λ a, match matches a factor_df with
                 | [] => [unmatched a]
                 | hits => joined a <$> hits
                 end) activity_df.

Definition any_factor_isna (m : MergedRow) : bool :=
  is_nan (m_co2_factor m) || is_nan (m_ch4_factor m) || is_nan (m_n2o_factor m).

Definition emission_row (gwp_ch4 gwp_n2o : float) (m : MergedRow) : EmissionRow :=
  let co2 := m_activity m * m_co2_factor m in
  let ch4 := m_activity m * m_ch4_factor m in
  let n2o := m_activity m * m_n2o_factor m in
  {| e_sector := m_sector m; e_activity := m_activity m;
     co2 := co2; ch4 := ch4; n2o := n2o;
     co2e := co2 + (ch4 * gwp_ch4) + (n2o * gwp_n2o) |}.

Section Engine.
(** [sort_indexer keys] is the row order [sort_values(..., ascending=False)]
    picks for a key column: the positions of the rows, in output order. *)
Variable sort_indexer : list float → list nat.
(** [Series.sum()] of a [float64] column. *)
Variable series_sum : list float → float.

Definition sort_values_desc {A : Type} (key : A → float) (rows : list A) : list A :=
  omap (λ i, rows !! i) (sort_indexer (key <$> rows)).

Definition compute_sector_emissions
    (activity_df : list ActivityRow) (factor_df : list FactorRow)
    (gwp : option (gmap string float)) : result (list EmissionRow) :=
  let gwp_values := default ∅ gwp ∪ DEFAULT_GWP in
  let merged := merge_left activity_df factor_df in
  if existsb any_factor_isna merged then
    let missing_sectors :=
      m_sector <$> List.filter (λ m, is_nan (m_co2_factor m)) merged in
    Raise (ValueError (MissingEmissionFactors missing_sectors))
  else
    gwp_ch4 ← getitem gwp_values "CH4";
    gwp_n2o ← getitem gwp_values "N2O";
    Ok (sort_values_desc co2e (emission_row gwp_ch4 gwp_n2o <$> merged)).

Definition aggregate_emissions
    (sector_emissions : list EmissionRow) (population gdp : float) : CitySummary :=
  let total := series_sum (co2e <$> sector_emissions) in
  {| total_co2e := total;
     per_capita_co2e := safe_divide total population;
     per_gdp_co2e := safe_divide total gdp |}.
End Engine.
End emissions_engine.
Export emissions_engine.

(** ** modules/urban_form.py *)

Record UrbanFormParameters : Type :=
  { density_per_km2 : float; compactness_index : float; transit_access_index : float }.

Module urban_form.
#[local] Open Scope float_scope.

(** [df.loc[mask, "activity"] = df.loc[mask, "activity"] * mult] *)
Definition scale_where (mask : ActivityRow → bool) (mult : float)
    (df : list ActivityRow) : list ActivityRow :=
  (λ r, if mask r then {| sector := sector r; activity := activity r * mult |}
        else r) <$> df.

(** One turn of the loop over a [{sector: multiplier}] dict: the rows of
    that sector are scaled when there is at least one. *)
Definition scale_sector (df : list ActivityRow) (item : string * float) : list ActivityRow :=
  let mask := λ r, String.eqb (sector r) item.1 in
  if existsb mask df then scale_where mask item.2 df else df.

Definition apply_urban_form_modifiers
    (activity_df : list ActivityRow) (modifiers : list (string * float))
  : list ActivityRow :=
  fold_left scale_sector modifiers activity_df.

Section UrbanForm.
(** [math.log1p]; it raises [ValueError] outside its domain. *)
Variable log1p : float → result float.

Definition calculate_urban_modifiers (params : UrbanFormParameters)
  : result (list (string * float)) :=
  l ← log1p (py_max (density_per_km2 params) 1.0 / 1000.0);
  let density_effect := clamp (1.0 - 0.08 * l) 0.65 1.05 in
  let compactness_effect := clamp (1.0 - 0.2 * compactness_index params) 0.75 1.05 in
  let transit_effect := clamp (1.0 - 0.25 * transit_access_index params) 0.7 1.05 in
  let transport_modifier :=
    clamp (density_effect * compactness_effect * transit_effect) 0.45 1.1 in
  let building_modifier := clamp (1.0 - 0.1 * compactness_index params) 0.8 1.05 in
  Ok [ ("transport", transport_modifier);
       ("residential", building_modifier);
       ("energy", building_modifier) ].
End UrbanForm.
End urban_form.
Export urban_form.

(** ** modules/scenario.py *)

Record Scenario : Type :=
  { name : string;
    energy_efficiency : float;
    renewable_share : float;
    modal_shift : float;
    industry_efficiency : float;
    waste_reduction : float }.

(** A record appended to [records] in the forecast loop. *)
Record ForecastRecord : Type :=
  { year : Z; scenario : string;
    rec_total_co2e : float; rec_per_capita_co2e : float; rec_per_gdp_co2e : float;
    population : float; gdp : float }.

(** A row of the frame [forecast_scenarios] returns. *)
Record ForecastRow : Type :=
  { cell : ForecastRecord; baseline_total : float; change_vs_baseline_pct : float }.

Module scenario_py.
#[local] Open Scope float_scope.

Definition normalized (self : Scenario) : Scenario :=
  {| name := name self;
     energy_efficiency := clamp01 (energy_efficiency self);
     renewable_share := clamp01 (renewable_share self);
     modal_shift := clamp01 (modal_shift self);
     industry_efficiency := clamp01 (industry_efficiency self);
     waste_reduction := clamp01 (waste_reduction self) |}.

Definition scale_factors (mult : float) (f : FactorRow) : FactorRow :=
  {| f_sector := f_sector f;
     co2_factor := co2_factor f * mult;
     ch4_factor := ch4_factor f * mult;
     n2o_factor := n2o_factor f * mult |}.

Definition apply_scenario
    (activity_df : list ActivityRow) (factor_df : list FactorRow) (scenario : Scenario)
  : list ActivityRow * list FactorRow :=
  let scn := normalized scenario in
  let adjustments :=
    [ ("residential", 1 - energy_efficiency scn);
      ("energy", 1 - energy_efficiency scn);
      ("transport", 1 - modal_shift scn);
      ("industry", 1 - industry_efficiency scn);
      ("waste", 1 - waste_reduction scn) ] in
  let adjusted_activity := fold_left scale_sector adjustments activity_df in
  let is_energy := λ f, String.eqb (f_sector f) "energy" in
  let adjusted_factors :=
    if existsb is_energy factor_df then
      (λ f, if is_energy f then scale_factors (1 - renewable_share scn) f else f)
        <$> factor_df
    else factor_df in
  (adjusted_activity, adjusted_factors).

(** [str.lower].  Only the ASCII capitals are mapped; no character outside
    ASCII lowers to a single letter of "baseline", so the comparison with
    that word is unaffected. *)
Definition lower_ascii (c : ascii) : ascii :=
  let n := Ascii.nat_of_ascii c in
  if (65 <=? n)%nat && (n <=? 90)%nat then Ascii.ascii_of_nat (n + 32) else c.

Fixpoint lower (s : string) : string :=
  match s with
  | EmptyString => EmptyString
  | String c s' => String (lower_ascii c) (lower s')
  end.

Definition is_baseline (scenario_name : string) : bool :=
  String.eqb (lower scenario_name) "baseline".

Definition isin (values : list string) (r : ActivityRow) : bool :=
  existsb (String.eqb (sector r)) values.

(** [df.merge(baseline, on="year", how="left")] followed by the two
    assignments to [change_vs_baseline_pct]. *)
Definition with_change (r : ForecastRecord) (baseline_total : float) : ForecastRow :=
  {| cell := r; baseline_total := baseline_total;
     change_vs_baseline_pct :=
       if is_baseline (scenario r) then 0.0
       else ((rec_total_co2e r - baseline_total) / baseline_total) * 100 |}.

Definition join_baseline (df : list ForecastRecord) : list ForecastRow :=
  let baseline := List.filter (λ b, is_baseline (scenario b)) df in
  flat_map (λ r, match List.filter (λ b, (year b =? year r)%Z) baseline with
                 | [] => [with_change r nan]
                 | hits => (λ b, with_change r (rec_total_co2e b)) <$> hits
                 end) df.

Section Forecast.
Variable sort_indexer : list float → list nat.
Variable series_sum : list float → float.
(** [x ** t] for a float [x] and an int [t]; it raises [OverflowError]
    when the result is out of range. *)
Variable float_pow : float → Z → result float.

Definition scale_for_growth (pop_scale gdp_scale : float) (base_activity_df : list ActivityRow)
  : list ActivityRow :=
  let scaled := scale_where (isin ["residential"; "transport"; "waste"]) pop_scale
                            base_activity_df in
  scale_where (isin ["industry"; "energy"]) ((pop_scale + gdp_scale) / 2) scaled.

(** The body of the inner loop: the record of one (scenario, year) cell. *)
Definition forecast_cell
    (base_activity_df : list ActivityRow) (factor_df : list FactorRow)
    (population_base population_growth gdp_per_capita_base gdp_growth : float)
    (start_year : Z) (urban_modifiers : option (list (string * float)))
    (scenario : Scenario) (year : Z) : result ForecastRecord :=
  let t := (year - start_year)%Z in
  pg ← float_pow (1 + population_growth) t;
  let population := population_base * pg in
  gg ← float_pow (1 + gdp_growth) t;
  let gdp_per_capita := gdp_per_capita_base * gg in
  let gdp := population * gdp_per_capita in
  pop_scale ← float_pow (1 + population_growth) t;
  gdp_scale ← float_pow (1 + gdp_growth) t;
  let scaled := scale_for_growth pop_scale gdp_scale base_activity_df in
  let scaled :=
    match urban_modifiers with
    | Some ((_ :: _) as modifiers) => apply_urban_form_modifiers scaled modifiers
    | _ => scaled
    end in
  let '(adj_activity, adj_factors) := apply_scenario scaled factor_df scenario in
  sector ← compute_sector_emissions sort_indexer adj_activity adj_factors None;
  let summary := aggregate_emissions series_sum sector population gdp in
  Ok {| year := year; scenario := name scenario;
        rec_total_co2e := total_co2e summary;
        rec_per_capita_co2e := per_capita_co2e summary;
        rec_per_gdp_co2e := per_gdp_co2e summary;
        population := population; gdp := gdp |}.

Definition forecast_records
    (base_activity_df : list ActivityRow) (factor_df : list FactorRow)
    (population_base population_growth gdp_per_capita_base gdp_growth : float)
    (start_year end_year : Z) (scenarios : list Scenario)
    (urban_modifiers : option (list (string * float)))
  : result (list ForecastRecord) :=
  per_scenario ← for_each (λ scenario,
      years ← year_range start_year end_year;
      for_each (forecast_cell base_activity_df factor_df population_base
                  population_growth gdp_per_capita_base gdp_growth start_year
                  urban_modifiers scenario) years) scenarios;
  Ok (concat per_scenario).

(** [pd.DataFrame([])] has no columns, so [df["scenario"]] raises
    [KeyError] when no record was appended. *)
Definition forecast_scenarios
    (base_activity_df : list ActivityRow) (factor_df : list FactorRow)
    (population_base population_growth gdp_per_capita_base gdp_growth : float)
    (start_year end_year : Z) (scenarios : list Scenario)
    (urban_modifiers : option (list (string * float)))
  : result (list ForecastRow) :=
  records ← forecast_records base_activity_df factor_df population_base
              population_growth gdp_per_capita_base gdp_growth start_year end_year
              scenarios urban_modifiers;
  match records with
  | [] => Raise (KeyError "scenario")
  | _ :: _ => Ok (join_baseline records)
  end.
End Forecast.
End scenario_py.
Export scenario_py.

(** ** Reference instances of the library routines

    Executable stand-ins for the four parameters, used to evaluate the
    model on concrete tables. *)

Module reference.
#[local] Open Scope float_scope.

(** [x] may stand directly before [y] in a column sorted in descending
    order with NaN last. *)
Definition key_before (x y : float) : bool :=
  is_nan y || (negb (is_nan x) && (y <=? x)).

Fixpoint descending (keys : list float) : bool :=
  match keys with
  | [] => true
  | x :: rest =>
      match rest with
      | [] => true
      | y :: _ => key_before x y && descending rest
      end
  end.

(** Insertion sort of (position, key) pairs; [goes_first new old] decides
    whether the pair being inserted is put in front of [old]. *)
Fixpoint insert_pair (goes_first : float → float → bool) (p : nat * float)
    (sorted : list (nat * float)) : list (nat * float) :=
  match sorted with
  | [] => [p]
  | q :: rest =>
      if goes_first p.2 q.2 then p :: q :: rest
      else q :: insert_pair goes_first p rest
  end.

Definition argsort_with (goes_first : float → float → bool) (keys : list float) : list nat :=
  (foldr (insert_pair goes_first) [] (zip (seq 0 (length keys)) keys)).*1.

(** Ties keep their original order. *)
Definition stable_argsort : list float → list nat := argsort_with key_before.

(** The sort [sort_values] runs when [kind] is left out, as the call in
    [compute_sector_emissions] leaves it: pandas' [nargsort] over numpy's
    default [argsort].

    For a descending sort [nargsort] reverses the non-NaN keys, takes
    their ascending [argsort], reads the positions off the reversed
    position list, reverses the outcome and puts the NaN positions last.

    numpy's default [argsort] sorts a float64 column of at most four keys
    in one vector register, the free lanes holding +inf, by three
    compare-exchange steps: a lane takes the smaller or the larger of its
    own key and its partner's, and keeps its own position number exactly
    when its key is left as it was.  Longer columns are sorted here by
    insertion. *)
Definition lane_min (own other : float) : float := if other <? own then other else own.
Definition lane_max (own other : float) : float := if own <? other then other else own.

Definition compare_exchange (partner : nat → nat) (takes_max : nat → bool)
    (lanes : list (float * nat)) : list (float * nat) :=
  imap (λ l own,
          match lanes !! partner l with
          | Some other =>
              let key := if takes_max l then lane_max own.1 other.1
                         else lane_min own.1 other.1 in
              (key, if key =? own.1 then own.2 else other.2)
          | None => own
          end) lanes.

Definition neighbour (l : nat) : nat := if Nat.even l then S l else pred l.

Definition vector_argsort (keys : list float) : list nat :=
  let lanes := zip (keys ++ replicate (4 - length keys) infinity)%list (seq 0 4) in
  let lanes := compare_exchange neighbour Nat.odd lanes in
  let lanes := compare_exchange (λ l, 3 - l)%nat (λ l, 2 <=? l)%nat lanes in
  let lanes := compare_exchange neighbour Nat.odd lanes in
  take (length keys) lanes.*2.

Definition default_argsort (keys : list float) : list nat :=
  if (length keys <=? 4)%nat then vector_argsort keys
  else argsort_with (λ x y, x <=? y) keys.

Definition nargsort_descending (keys : list float) : list nat :=
  let items := zip (seq 0 (length keys)) keys in
  let non_nan := rev (List.filter (λ item, negb (is_nan item.2)) items) in
  let nan_idx := (List.filter (λ item, is_nan item.2) items).*1 in
  (rev (omap (λ j, non_nan.*1 !! j) (default_argsort non_nan.*2)) ++ nan_idx)%list.

(** Summation from the left, skipping NaN. *)
Definition sum_skipna (xs : list float) : float :=
  fold_left (λ acc x, if is_nan x then acc else acc + x) xs 0.

(** Repeated multiplication for a non-negative exponent; an infinite
    product of a finite base is reported as [OverflowError]. *)
Fixpoint pow_nat (x : float) (n : nat) : float :=
  match n with
  | O => 1
  | S n' => x * pow_nat x n'
  end.

Definition pow_repeated (x : float) (t : Z) : result float :=
  let y := if (t <? 0)%Z then 1 / pow_nat x (Z.abs_nat t) else pow_nat x (Z.to_nat t) in
  if is_infinity y && negb (is_infinity x) then Raise OverflowError else Ok y.

(** [log1p x = 2 atanh (x / (2 + x))], by the first terms of the series. *)
Fixpoint atanh_terms (z2 power k : float) (n : nat) : float :=
  match n with
  | O => 0
  | S n' => power / k + atanh_terms z2 (power * z2) (k + 2) n'
  end.

Definition log1p_series (x : float) : result float :=
  if x <=? -1 then Raise (ValueError MathDomainError)
  else
    let z := x / (2 + x) in
    Ok (2 * atanh_terms (z * z) z 1 200).
End reference.
Export reference.

(** ** What the callers may rely on

    The library routines are used through these contracts: sorting returns
    every row position once, in an order that is descending on the key
    with NaN last, and [math.log1p] is defined unless its argument is at
    most -1. *)

Module contracts.
#[local] Open Scope float_scope.

Definition permutes (sort_indexer : list float → list nat) : Prop :=
  ∀ keys, sort_indexer keys ≡ₚ seq 0 (length keys).

Definition sorts_descending (sort_indexer : list float → list nat) : Prop :=
  ∀ keys, descending (omap (λ i, keys !! i) (sort_indexer keys)) = true.

Definition log1p_defined (log1p : float → result float) : Prop :=
  ∀ x, (x <=? -1) = false → ∃ y, log1p x = Ok y.
End contracts.
Export contracts.

(** ** The specification's formulas

    What the specification says of a row, in its own terms; the theorems
    compare the functions above with these. *)

Module spec.
#[local] Open Scope float_scope.

(** A factor row with a NaN in one of its three factors. *)
Definition factor_isna (f : FactorRow) : bool :=
  is_nan (co2_factor f) || is_nan (ch4_factor f) || is_nan (n2o_factor f).

(** The effective GWP of a gas: the default, unless [gwp] has the key. *)
Definition effective_gwp (gwp : option (gmap string float)) (gas : string)
    (default_value : float) : float :=
  match gwp ≫= (λ d, d !! gas) with
  | Some v => v
  | None => default_value
  end.

(** The factor rows of a sector, in table order. *)
Definition factor_rows_of (factor_df : list FactorRow) (sector_name : string)
  : list FactorRow :=
  List.filter (λ f, String.eqb (f_sector f) sector_name) factor_df.

(** The formulas of a result row, for the activity row [a] it comes from. *)
Definition emission_formula (gwp : option (gmap string float)) (factor_df : list FactorRow)
    (a : ActivityRow) (e : EmissionRow) : Prop :=
  ∃ f, f ∈ factor_df ∧ f_sector f = sector a ∧
       e_sector e = sector a ∧ e_activity e = activity a ∧
       co2 e = activity a * co2_factor f ∧
       ch4 e = activity a * ch4_factor f ∧
       n2o e = activity a * n2o_factor f ∧
       co2e e = co2 e + ch4 e * effective_gwp gwp "CH4" 28.0
                      + n2o e * effective_gwp gwp "N2O" 265.0.

(** [x] held between [lo] and [hi]: [x] itself when it lies strictly
    between them, [lo] when it is at most [lo], and [hi] in every other
    case, NaN included. *)
Definition held_between (lo hi x : float) : float :=
  if x <? hi then (if lo <? x then x else lo) else hi.

(** The larger of two numbers, the first one when they do not compare. *)
Definition larger (x y : float) : float := if x <? y then y else x.

(** A scenario after normalizing: every intensity held between 0 and 1. *)
Definition in_unit_range (scn : Scenario) : Scenario :=
  {| name := name scn;
     energy_efficiency := held_between 0 1 (energy_efficiency scn);
     renewable_share := held_between 0 1 (renewable_share scn);
     modal_shift := held_between 0 1 (modal_shift scn);
     industry_efficiency := held_between 0 1 (industry_efficiency scn);
     waste_reduction := held_between 0 1 (waste_reduction scn) |}.

(** A factor row with each of its three factors multiplied by [m]. *)
Definition with_factor_multiplier (m : float) (f : FactorRow) : FactorRow :=
  {| f_sector := f_sector f;
     co2_factor := co2_factor f * m;
     ch4_factor := ch4_factor f * m;
     n2o_factor := n2o_factor f * m |}.

(** The sectors whose activity a scenario adjusts. *)
Definition adjusted_sectors : list string :=
  ["residential"; "energy"; "transport"; "industry"; "waste"].

Definition with_multiplier (multiplier : option float) (r : ActivityRow) : ActivityRow :=
  match multiplier with
  | Some m => {| sector := sector r; activity := activity r * m |}
  | None => r
  end.

(** The activity multiplier a (normalized) scenario gives a sector, if any. *)
Definition activity_multiplier (scn : Scenario) (sector_name : string) : option float :=
  if String.eqb sector_name "residential" then Some (1 - energy_efficiency scn)
  else if String.eqb sector_name "energy" then Some (1 - energy_efficiency scn)
  else if String.eqb sector_name "transport" then Some (1 - modal_shift scn)
  else if String.eqb sector_name "industry" then Some (1 - industry_efficiency scn)
  else if String.eqb sector_name "waste" then Some (1 - waste_reduction scn)
  else None.

(** The growth multiplier of a sector in a forecast year, if any. *)
Definition growth_multiplier (pop_scale gdp_scale : float) (sector_name : string)
  : option float :=
  if String.eqb sector_name "residential" || String.eqb sector_name "transport"
     || String.eqb sector_name "waste"
  then Some pop_scale
  else if String.eqb sector_name "industry" || String.eqb sector_name "energy"
  then Some ((pop_scale + gdp_scale) / 2)
  else None.

(** The activity table of a forecast cell before the scenario is applied:
    the base rows under their growth multipliers, then the urban modifiers
    when a non-empty dict of them is given. *)
Definition cell_activity (base_activity_df : list ActivityRow)
    (urban_modifiers : option (list (string * float)))
    (pop_scale gdp_scale : float) : list ActivityRow :=
  let scaled :=
    (λ r, with_multiplier (growth_multiplier pop_scale gdp_scale (sector r)) r)
      <$> base_activity_df in
  match urban_modifiers with
  | Some ((_ :: _) as modifiers) => apply_urban_form_modifiers scaled modifiers
  | _ => scaled
  end.

(** How many scenarios are named "baseline", whatever the case. *)
Definition baseline_count (scenarios : list Scenario) : nat :=
  length (List.filter (λ scn, is_baseline (name scn)) scenarios).
End spec.
Export spec.

(** ** Concrete tables *)

Module examples.
#[local] Open Scope float_scope.

(** The tables of [tests/test_emissions_engine.py]. *)
Definition residential_100 : ActivityRow :=
  {| sector := "residential"; activity := 100.0 |}.

Definition residential_factors : FactorRow :=
  {| f_sector := "residential"; co2_factor := 1.0; ch4_factor := 0.1; n2o_factor := 0.01 |}.

(** A second factor row for the residential sector. *)
Definition residential_factors_again : FactorRow :=
  {| f_sector := "residential"; co2_factor := 2.0; ch4_factor := 0.0; n2o_factor := 0.0 |}.

(** The tables of [tests/test_scenario.py]. *)
Definition base_activity : list ActivityRow :=
  [ {| sector := "residential"; activity := 1000.0 |};
    {| sector := "transport"; activity := 2000.0 |};
    {| sector := "industry"; activity := 500.0 |};
    {| sector := "waste"; activity := 200.0 |};
    {| sector := "energy"; activity := 800.0 |} ].

Definition unit_co2_factors (sector_name : string) : FactorRow :=
  {| f_sector := sector_name; co2_factor := 1.0; ch4_factor := 0.0; n2o_factor := 0.0 |}.

Definition base_factors : list FactorRow :=
  unit_co2_factors <$> ["residential"; "transport"; "industry"; "waste"; "energy"].

(** An activity row whose sector has no factor row in [base_factors]. *)
Definition aviation_50 : ActivityRow :=
  {| sector := "aviation"; activity := 50.0 |}.

(** Two sectors with the same activity, hence the same co2e. *)
Definition tied_activity : list ActivityRow :=
  [ {| sector := "residential"; activity := 100.0 |};
    {| sector := "transport"; activity := 100.0 |} ].

(** Four sectors, tied in pairs, the smaller pair first. *)
Definition paired_activity : list ActivityRow :=
  [ {| sector := "residential"; activity := 100.0 |};
    {| sector := "transport"; activity := 100.0 |};
    {| sector := "industry"; activity := 200.0 |};
    {| sector := "energy"; activity := 200.0 |} ].

(** Two activity rows, their factor rows in another order, a factor row
    with a NaN for a sector without activity, and a GWP override. *)
Definition transport_50 : ActivityRow :=
  {| sector := "transport"; activity := 50.0 |}.

Definition transport_factors : FactorRow :=
  {| f_sector := "transport"; co2_factor := 2.0; ch4_factor := 0.5; n2o_factor := 0.1 |}.

Definition rail_factors_nan : FactorRow :=
  {| f_sector := "rail"; co2_factor := nan; ch4_factor := 0.0; n2o_factor := 0.0 |}.

Definition methane_30 : gmap string float := {[ "CH4" := 30.0 ]}.

(** The result row of a sector under [base_factors]. *)
Definition emission_of (sector_name : string) (x : float) : EmissionRow :=
  {| e_sector := sector_name; e_activity := x;
     co2 := x; ch4 := 0.0; n2o := 0.0; co2e := x |}.

(** The parameters of [test_urban_modifiers_stay_in_reasonable_range]. *)
Definition urban_example : UrbanFormParameters :=
  {| density_per_km2 := 8000.0; compactness_index := 0.7; transit_access_index := 0.8 |}.

(** The scenario of [test_apply_scenario_reduces_targeted_sectors]. *)
Definition mitigation_example : Scenario :=
  {| name := "mit"; energy_efficiency := 0.1; renewable_share := 0.3;
     modal_shift := 0.2; industry_efficiency := 0.0; waste_reduction := 0.0 |}.

(** A scenario with intensities outside [0, 1], and factor rows with all
    three factors set. *)
Definition out_of_range_example : Scenario :=
  {| name := "wide"; energy_efficiency := 1.5; renewable_share := 0.5;
     modal_shift := -0.5; industry_efficiency := 0.25; waste_reduction := 0.5 |}.

Definition energy_factors : FactorRow :=
  {| f_sector := "energy"; co2_factor := 1.0; ch4_factor := 0.5; n2o_factor := 0.25 |}.

(** Parameters that drive the modifiers to their lower and to their upper
    bounds, and the default parameters. *)
Definition default_urban : UrbanFormParameters :=
  {| density_per_km2 := 4000.0; compactness_index := 0.5; transit_access_index := 0.5 |}.

Definition compact_urban : UrbanFormParameters :=
  {| density_per_km2 := 10000.0; compactness_index := 5.0; transit_access_index := 5.0 |}.

Definition sparse_urban : UrbanFormParameters :=
  {| density_per_km2 := 20.0; compactness_index := -1.0; transit_access_index := -1.0 |}.

(** The scenarios of [test_forecast_scenarios_contains_baseline_comparison]. *)
Definition no_change (scenario_name : string) : Scenario :=
  {| name := scenario_name; energy_efficiency := 0.0; renewable_share := 0.0;
     modal_shift := 0.0; industry_efficiency := 0.0; waste_reduction := 0.0 |}.

Definition mitigation_20 : Scenario :=
  {| name := "Mitigation"; energy_efficiency := 0.2; renewable_share := 0.0;
     modal_shift := 0.0; industry_efficiency := 0.0; waste_reduction := 0.0 |}.

(** Rows of the forecast of that test: 2025 to 2026, no growth. *)
Definition forecast_row (y : Z) (scenario_name : string) (total change : float)
  : ForecastRow :=
  {| cell := {| year := y; scenario := scenario_name;
                rec_total_co2e := total;
                rec_per_capita_co2e := total / 1000.0;
                rec_per_gdp_co2e := total / 100000.0;
                population := 1000.0; gdp := 100000.0 |};
     baseline_total := 4500.0; change_vs_baseline_pct := change |}.

Definition test_forecast : list ForecastRow :=
  [ forecast_row 2025 "Baseline" 4500.0 0.0; forecast_row 2026 "Baseline" 4500.0 0.0;
    forecast_row 2025 "Mitigation" 4140.0 (-8.0);
    forecast_row 2026 "Mitigation" 4140.0 (-8.0) ].

(** The forecast of the same tables for 2025 to 2026 when the population
    doubles and the gdp per capita grows by half each year. *)
Definition growth_row (y : Z) (scenario_name : string)
    (total per_capita per_gdp people product baseline change : float) : ForecastRow :=
  {| cell := {| year := y; scenario := scenario_name;
                rec_total_co2e := total;
                rec_per_capita_co2e := per_capita;
                rec_per_gdp_co2e := per_gdp;
                population := people; gdp := product |};
     baseline_total := baseline; change_vs_baseline_pct := change |}.

Definition growth_forecast : list ForecastRow :=
  [ growth_row 2025 "Baseline" 4500.0 4.5 0.045 1000.0 100000.0 4500.0 0.0;
    growth_row 2026 "Baseline" 8675.0 4.3375 0.028916666666666667
               2000.0 300000.0 8675.0 0.0;
    growth_row 2025 "Mitigation" 4140.0 4.14 0.0414 1000.0 100000.0 4500.0 (-8.0);
    growth_row 2026 "Mitigation" 7995.0 3.9975 0.02665
               2000.0 300000.0 8675.0 (-7.838616714697406) ].

(** The same forecast under urban modifiers. *)
Definition halved_transport : list (string * float) :=
  [("transport", 0.5); ("residential", 0.75); ("energy", 0.75)].

Definition urban_growth_forecast : list ForecastRow :=
  [ growth_row 2025 "Baseline" 3050.0 3.05 0.0305 1000.0 100000.0 3050.0 0.0;
    growth_row 2026 "Baseline" 5825.0 2.9125 0.019416666666666665
               2000.0 300000.0 5825.0 0.0;
    growth_row 2025 "Mitigation" 2780.0 2.78 0.0278 1000.0 100000.0 3050.0
               (-8.852459016393443);
    growth_row 2026 "Mitigation" 5315.0 2.6575 0.017716666666666665
               2000.0 300000.0 5825.0 (-8.755364806866952) ].
End examples.
Export examples.

(** ** More of modules/utils.py *)

Module utils_more.
#[local] Open Scope float_scope.

(** [values.get(field)]: [None] for a missing key and for a key bound to
    [None]. *)
Definition dict_get (values : gmap string (option float)) (field : string) : option float :=
  mjoin (values !! field).

(** One turn of the loop of [ensure_positive_fields]. *)
Definition check_field (values : gmap string (option float)) (errors : list string)
    (field : string) : list string :=
  match dict_get values field with
  | None => (errors ++ ["Missing value: " +:+ field])%list
  | Some val =>
      if val <? 0 then (errors ++ ["Negative value is not allowed: " +:+ field])%list
      else errors
  end.

Definition ensure_positive_fields (values : gmap string (option float))
    (fields : list string) : list string :=
  fold_left (check_field values) fields [].

(** The errors one field adds. *)
Definition field_errors (values : gmap string (option float)) (field : string) : list string :=
  check_field values [] field.
End utils_more.
Export utils_more.

(** ** modules/io_handlers.py: validation *)

(** A frame as the validators see it: a column may be absent, a sector
    cell may be missing, a number cell may be NaN. *)
Record ActivityFrame : Type :=
  { af_sector : option (list (option string));
    af_activity : option (list float) }.

Record FactorFrame : Type :=
  { ff_sector : option (list (option string));
    ff_co2_factor : option (list float);
    ff_ch4_factor : option (list float);
    ff_n2o_factor : option (list float) }.

Module io_handlers.
#[local] Open Scope float_scope.

(** [repr] of a list of column names, as an f-string prints it (names
    without quotes or escapes, as the required column names are). *)
Fixpoint repr_items (items : list string) : string :=
  match items with
  | [] => ""
  | [c] => "'" +:+ c +:+ "'"
  | c :: rest => "'" +:+ c +:+ "', " +:+ repr_items rest
  end.

Definition repr_list (items : list string) : string := "[" +:+ repr_items items +:+ "]".

(** [[c for c in REQUIRED if c not in df.columns]] *)
Definition absent {A : Type} (column_name : string) (column : option A) : list string :=
  match column with
  | Some _ => []
  | None => [column_name]
  end.

(** [series.duplicated()]: a cell is marked when an equal cell precedes it. *)
Fixpoint duplicated_after (seen cells : list (option string)) : list bool :=
  match cells with
  | [] => []
  | c :: rest => bool_decide (c ∈ seen) :: duplicated_after (c :: seen) rest
  end.

Definition duplicated (cells : list (option string)) : list bool :=
  duplicated_after [] cells.

(** [series.any()] of a boolean series. *)
Definition any (mask : list bool) : bool := existsb id mask.

Definition append_if (condition : bool) (message : string) (messages : list string)
  : list string :=
  if condition then (messages ++ [message])%list else messages.

Definition is_missing (cell : option string) : bool :=
  match cell with
  | None => true
  | Some _ => false
  end.

Definition validate_activity_data (df : ActivityFrame) : list string * list string :=
  let missing := (absent "sector" (af_sector df) ++ absent "activity" (af_activity df))%list in
  match af_sector df, af_activity df with
  | Some sector_cells, Some activity_cells =>
      let errors := [] in
      let errors := append_if (any (is_missing <$> sector_cells))
                      "Sector values cannot be empty" errors in
      let errors := append_if (any (is_nan <$> activity_cells))
                      "Activity values cannot be empty" errors in
      let errors := append_if (any ((λ x, x <? 0) <$> activity_cells))
                      "Activity values must be non-negative" errors in
      let warnings := append_if (any ((λ x, x =? 0) <$> activity_cells))
                        "Some activities are zero; this may understate emissions" [] in
      (errors, warnings)
  | _, _ => (["Missing columns: " +:+ repr_list missing], [])
  end.

(** The two checks of one factor column. *)
Definition check_factor_column (errors : list string) (column : string * list float)
  : list string :=
  let errors := append_if (any (is_nan <$> column.2))
                  ("Column has null values: " +:+ column.1) errors in
  append_if (any ((λ x, x <? 0) <$> column.2))
    ("Column has negative factors: " +:+ column.1) errors.

Definition validate_factor_data (df : FactorFrame) : list string * list string :=
  let missing := (absent "sector" (ff_sector df) ++ absent "co2_factor" (ff_co2_factor df)
                  ++ absent "ch4_factor" (ff_ch4_factor df)
                  ++ absent "n2o_factor" (ff_n2o_factor df))%list in
  match ff_sector df, ff_co2_factor df, ff_ch4_factor df, ff_n2o_factor df with
  | Some sector_cells, Some co2_cells, Some ch4_cells, Some n2o_cells =>
      let errors :=
        fold_left check_factor_column
          [("co2_factor", co2_cells); ("ch4_factor", ch4_cells); ("n2o_factor", n2o_cells)]
          [] in
      let warnings := append_if (any (duplicated sector_cells))
                        "Duplicate sectors in factor table; first match will be used" [] in
      (errors, warnings)
  | _, _, _, _ => (["Missing columns: " +:+ repr_list missing], [])
  end.

Definition manual_input_to_activity
    (residential_energy transport_activity industrial_output waste_activity grid_energy : float)
  : list ActivityRow :=
  [ {| sector := "residential"; activity := residential_energy |};
    {| sector := "transport"; activity := transport_activity |};
    {| sector := "industry"; activity := industrial_output |};
    {| sector := "waste"; activity := waste_activity |};
    {| sector := "energy"; activity := grid_energy |} ].

(** The frames the validators are handed for tables the engine can read:
    every column present, every sector cell filled. *)
Definition activity_frame (rows : list ActivityRow) : ActivityFrame :=
  {| af_sector := Some ((λ r, Some (sector r)) <$> rows);
     af_activity := Some (activity <$> rows) |}.

Definition factor_frame (rows : list FactorRow) : FactorFrame :=
  {| ff_sector := Some ((λ f, Some (f_sector f)) <$> rows);
     ff_co2_factor := Some (co2_factor <$> rows);
     ff_ch4_factor := Some (ch4_factor <$> rows);
     ff_n2o_factor := Some (n2o_factor <$> rows) |}.
End io_handlers.
Export io_handlers.

(** ** modules/drivers.py *)

Record PopulationDriver : Type :=
  { initial_population : float; annual_growth_rate : float }.

Record EconomicDriver : Type :=
  { gdp_per_capita : float; gdp_growth_rate : float; energy_intensity : float }.

Record SectorActivity : Type :=
  { residential_energy : float; transport_activity : float; industrial_output : float;
    waste_activity : float; grid_energy : float }.

Record CityStatistics : Type :=
  { city_name : string;
    population_driver : PopulationDriver;
    economic_driver : EconomicDriver;
    sector_activity : SectorActivity }.

(** A row of the frame [to_projection_frame] returns. *)
Record ProjectionRow : Type :=
  { proj_year : Z; proj_population : float; proj_gdp_per_capita : float;
    proj_gdp : float; proj_energy_intensity : float }.

Module drivers.
#[local] Open Scope float_scope.

Definition to_activity_dataframe (self : SectorActivity) : list ActivityRow :=
  [ {| sector := "residential"; activity := residential_energy self |};
    {| sector := "transport"; activity := transport_activity self |};
    {| sector := "industry"; activity := industrial_output self |};
    {| sector := "waste"; activity := waste_activity self |};
    {| sector := "energy"; activity := grid_energy self |} ].

Section Drivers.
Variable float_pow : float → Z → result float.

Definition value_at (self : PopulationDriver) (years_from_base : Z) : result float :=
  p ← float_pow (1 + annual_growth_rate self) years_from_base;
  Ok (initial_population self * p).

Definition gdp_per_capita_at (self : EconomicDriver) (years_from_base : Z) : result float :=
  p ← float_pow (1 + gdp_growth_rate self) years_from_base;
  Ok (gdp_per_capita self * p).

Definition to_projection_frame (self : CityStatistics) (years : list Z) (base_year : Z)
  : result (list ProjectionRow) :=
  for_each (λ year,
    let dt := (year - base_year)%Z in
    pop ← value_at (population_driver self) dt;
    gdp_pc ← gdp_per_capita_at (economic_driver self) dt;
    Ok {| proj_year := year; proj_population := pop; proj_gdp_per_capita := gdp_pc;
          proj_gdp := pop * gdp_pc;
          proj_energy_intensity := energy_intensity (economic_driver self) |}) years.
End Drivers.
End drivers.
Export drivers.

(** ** More readings of rows *)

Module spec_more.
#[local] Open Scope float_scope.

(** The modifier a sector gets from the dict [calculate_urban_modifiers]
    returns, if any. *)
Definition urban_multiplier (transport building : float) (sector_name : string)
  : option float :=
  if String.eqb sector_name "transport" then Some transport
  else if String.eqb sector_name "residential" || String.eqb sector_name "energy"
  then Some building
  else None.

(** A number column without a NaN and without a value below zero. *)
Definition clean_cells (cells : list float) : Prop :=
  ∀ x, x ∈ cells → is_nan x = false ∧ (x <? 0) = false.

(** The (scenario, year) pairs of a forecast, scenario by scenario. *)
Definition forecast_cells (scenarios : list Scenario) (years : list Z)
  : list (string * Z) :=
  flat_map (λ scn, (λ y, (name scn, y)) <$> years) scenarios.

(** The records the inner loop leaves for one scenario: one per year, in
    order, each the outcome of that year's cell. *)
Definition records_of (cell_of : Scenario → Z → result ForecastRecord) (years : list Z)
    (scn : Scenario) (rs : list ForecastRecord) : Prop :=
  Forall2 (λ y r, cell_of scn y = Ok r) years rs.

(** The city whose drivers carry the growth arguments of a forecast. *)
Definition city_of (city : string) (population_base population_growth
    gdp_per_capita_base gdp_growth intensity : float) (activity : SectorActivity)
  : CityStatistics :=
  {| city_name := city;
     population_driver := {| initial_population := population_base;
                             annual_growth_rate := population_growth |};
     economic_driver := {| gdp_per_capita := gdp_per_capita_base;
                           gdp_growth_rate := gdp_growth;
                           energy_intensity := intensity |};
     sector_activity := activity |}.
End spec_more.
Export spec_more.

(** ** modules/emissions_engine.py: the column check *)

Module engine_checks.

Definition REQUIRED_ACTIVITY_COLUMNS : gset string := {[ "sector"; "activity" ]}.
Definition REQUIRED_FACTOR_COLUMNS : gset string :=
  {[ "sector"; "co2_factor"; "ch4_factor"; "n2o_factor" ]}.

(** [sorted(names)] on strings, by insertion. *)
Fixpoint insert_sorted (s : string) (names : list string) : list string :=
  match names with
  | [] => [s]
  | t :: rest => if String.leb s t then s :: t :: rest else t :: insert_sorted s rest
  end.

Definition sorted_names (names : list string) : list string :=
  foldr insert_sorted [] names.

(** [_check_required]; [Some message] stands for [ValueError(message)]. *)
Definition check_required (columns : list string) (required : gset string)
    (frame_name : string) : option string :=
  let missing := required ∖ list_to_set columns in
  if decide (missing = ∅) then None
  else Some (frame_name +:+ " missing columns: "
             +:+ repr_list (sorted_names (elements missing))).
End engine_checks.
Export engine_checks.

(** * Properties *)

(** ** Order facts about binary64 values *)

Module float_facts.
#[local] Open Scope float_scope.

Lemma SFcompare_antisym (x y : spec_float) :
  SFcompare y x = CompOpp <$> SFcompare x y.
Proof.
  destruct x as [sx| sx | |sx mx ex], y as [sy|sy| |sy my ey]; simpl;
    try reflexivity; try (destruct sx; reflexivity); try (destruct sy; reflexivity);
    try (destruct sx, sy; reflexivity).
  destruct sx, sy; simpl; try reflexivity;
    rewrite (Z.compare_antisym ey ex);
    destruct (ey ?= ex)%Z eqn:E; simpl; try reflexivity;
    rewrite (Pos.compare_cont_antisym mx my Eq); simpl;
    destruct (Pos.compare_cont Eq mx my); reflexivity.
Qed.

Lemma SFcompare_refl (x : spec_float) :
  x ≠ S754_nan → SFcompare x x = Some Eq.
Proof.
  destruct x as [s|s| |s m e]; simpl; intros Hx; try congruence.
  - destruct s; reflexivity.
  - rewrite Z.compare_refl, Pos.compare_cont_refl. destruct s; reflexivity.
Qed.

Lemma is_nan_spec (x : float) : is_nan x = false ↔ Prim2SF x ≠ S754_nan.
Proof.
  unfold is_nan. rewrite FloatAxioms.eqb_spec. unfold SFeqb. split.
  - intros H Hn. rewrite Hn in H. discriminate.
  - intros H. rewrite SFcompare_refl by assumption. reflexivity.
Qed.

Lemma ltb_leb (x y : float) : (x <? y) = true → (x <=? y) = true.
Proof.
  rewrite ltb_spec, leb_spec. unfold SFltb, SFleb.
  destruct (SFcompare _ _) as [[]|]; congruence.
Qed.

Lemma leb_not_nan (x y : float) :
  (x <=? y) = true → is_nan x = false ∧ is_nan y = false.
Proof.
  rewrite leb_spec, !is_nan_spec. unfold SFleb.
  destruct (Prim2SF x), (Prim2SF y); simpl; try discriminate; split; congruence.
Qed.

Lemma leb_refl (x : float) : is_nan x = false → (x <=? x) = true.
Proof.
  rewrite is_nan_spec, leb_spec. unfold SFleb. intros H.
  rewrite SFcompare_refl by assumption. reflexivity.
Qed.

Lemma leb_total (x y : float) :
  is_nan x = false → is_nan y = false → (x <=? y) = false → (y <=? x) = true.
Proof.
  rewrite !is_nan_spec, !leb_spec. unfold SFleb. intros Hx Hy.
  rewrite (SFcompare_antisym (Prim2SF x) (Prim2SF y)).
  destruct (Prim2SF x), (Prim2SF y); simpl; try congruence;
    repeat match goal with |- context [if ?b then _ else _] => destruct b end;
    simpl; try congruence;
    destruct (_ ?= _)%Z; simpl; try congruence;
    destruct (Pos.compare_cont _ _ _); simpl; congruence.
Qed.

(** [clamp] lands between its bounds whatever the value is, NaN included. *)
Lemma clamp_between (value minimum maximum : float) :
  (minimum <=? maximum) = true →
  (minimum <=? clamp value minimum maximum) = true ∧
  (clamp value minimum maximum <=? maximum) = true.
Proof.
  intros Hb. destruct (leb_not_nan _ _ Hb) as [Hlo Hhi].
  unfold clamp, py_max, py_min.
  destruct (value <? maximum) eqn:Hv.
  - destruct (minimum <? value) eqn:Hm.
    + split; apply ltb_leb; assumption.
    + split; [apply leb_refl|]; assumption.
  - destruct (minimum <? maximum) eqn:Hm.
    + split; [assumption | apply leb_refl; assumption].
    + split; [apply leb_refl|]; assumption.
Qed.

(** The three ways [clamp] can come out. *)
Lemma clamp_cases (value minimum maximum : float) :
  clamp value minimum maximum = value ∨
  clamp value minimum maximum = minimum ∨
  clamp value minimum maximum = maximum.
Proof.
  unfold clamp, py_max, py_min.
  destruct (value <? maximum); destruct (minimum <? _); auto.
Qed.
(** [clamp] holds its value between its bounds. *)
Lemma clamp_held_between (x lo hi : float) :
  (lo <? hi) = true → clamp x lo hi = held_between lo hi x.
Proof.
  intros H. unfold clamp, py_max, py_min, held_between.
  destruct (x <? hi); [reflexivity|]. rewrite H. reflexivity.
Qed.
End float_facts.

(** ** The reference sorts meet the sorting contract *)

Module sort_facts.
#[local] Open Scope float_scope.
Import float_facts.

Lemma key_before_total (x y : float) :
  key_before x y = false → key_before y x = true.
Proof.
  unfold key_before. intros H.
  apply orb_false_iff in H as [Hy H].
  destruct (is_nan x) eqn:Hx; [reflexivity|]. simpl in *.
  rewrite Hy. simpl. apply leb_total; assumption.
Qed.

Lemma omap_fmap {A B C : Type} (f : B → option C) (g : A → B) (l : list A) :
  omap f (g <$> l) = omap (λ x, f (g x)) l.
Proof.
  induction l as [|x l IH]; [reflexivity|].
  cbn [fmap list_fmap omap list_omap]. rewrite IH. reflexivity.
Qed.

Lemma omap_lookup_seq {A : Type} (l : list A) :
  omap (λ i, l !! i) (seq 0 (length l)) = l.
Proof.
  induction l as [|x l IH]; [reflexivity|].
  cbn [length seq]. rewrite <- fmap_S_seq. cbn [omap list_omap lookup list_lookup].
  f_equal. rewrite omap_fmap. exact IH.
Qed.

Section Insertion.
Variable goes_first : float → float → bool.
Hypothesis first_sound : ∀ x y, goes_first x y = true → key_before x y = true.
Hypothesis first_complete : ∀ x y, goes_first x y = false → key_before y x = true.

Lemma insert_pair_perm (p : nat * float) (l : list (nat * float)) :
  insert_pair goes_first p l ≡ₚ p :: l.
Proof.
  induction l as [|q l IH]; simpl; [reflexivity|].
  destruct (goes_first p.2 q.2); [reflexivity|].
  rewrite IH. apply perm_swap.
Qed.

Lemma insertion_perm (l : list (nat * float)) :
  foldr (insert_pair goes_first) [] l ≡ₚ l.
Proof.
  induction l as [|p l IH]; simpl; [reflexivity|].
  rewrite insert_pair_perm, IH. reflexivity.
Qed.

Lemma insert_pair_descending (p : nat * float) (l : list (nat * float)) :
  descending (l.*2) = true → descending ((insert_pair goes_first p l).*2) = true.
Proof.
  induction l as [|q l IH]; [reflexivity|].
  intros Hl. cbn [insert_pair].
  destruct (goes_first p.2 q.2) eqn:Hpq.
  - cbn [fmap list_fmap descending] in *. rewrite (first_sound _ _ Hpq). exact Hl.
  - destruct l as [|r l].
    + cbn. rewrite (first_complete _ _ Hpq). reflexivity.
    + cbn [fmap list_fmap descending] in Hl. apply andb_true_iff in Hl as [Hqr Hl].
      specialize (IH Hl). cbn [insert_pair] in *.
      destruct (goes_first p.2 r.2) eqn:Hpr; cbn [fmap list_fmap descending] in *.
      * rewrite (first_complete _ _ Hpq). exact IH.
      * rewrite Hqr. exact IH.
Qed.

Lemma insertion_descending (l : list (nat * float)) :
  descending ((foldr (insert_pair goes_first) [] l).*2) = true.
Proof.
  induction l as [|p l IH]; [reflexivity|].
  simpl. apply insert_pair_descending, IH.
Qed.

Lemma argsort_with_permutes : permutes (argsort_with goes_first).
Proof.
  intros keys. unfold argsort_with.
  rewrite insertion_perm. rewrite fst_zip; [reflexivity|].
  rewrite length_seq. lia.
Qed.

Lemma argsort_with_sorts : sorts_descending (argsort_with goes_first).
Proof.
  intros keys. unfold argsort_with.
  assert (Hall : Forall (λ p, keys !! p.1 = Some p.2)
                   (foldr (insert_pair goes_first) [] (zip (seq 0 (length keys)) keys))).
  { rewrite insertion_perm. apply Forall_forall. intros [i k] Hin.
    apply elem_of_lookup_zip_with in Hin as (j & i' & k' & Heq & Hi & Hk).
    injection Heq as -> ->. apply lookup_seq in Hi as [-> _]. exact Hk. }
  assert (Hkeys : ∀ l : list (nat * float),
             Forall (λ p, keys !! p.1 = Some p.2) l →
             omap (λ i, keys !! i) (l.*1) = l.*2).
  { induction 1 as [|p l Hp _ IH]; [reflexivity|].
    cbn [fmap list_fmap omap list_omap]. rewrite Hp, IH. reflexivity. }
  rewrite (Hkeys _ Hall). apply insertion_descending.
Qed.
End Insertion.

Lemma stable_argsort_permutes : permutes stable_argsort.
Proof. apply argsort_with_permutes. Qed.

Lemma stable_argsort_sorts : sorts_descending stable_argsort.
Proof.
  apply argsort_with_sorts; [auto | apply key_before_total].
Qed.

End sort_facts.

(** ** compute_sector_emissions *)

Module engine_facts.
#[local] Open Scope float_scope.
Import float_facts sort_facts.

Lemma sort_values_desc_perm {A : Type} sort_indexer (key : A → float) (rows : list A) :
  permutes sort_indexer → sort_values_desc sort_indexer key rows ≡ₚ rows.
Proof.
  intros Hperm. unfold sort_values_desc.
  rewrite (Hperm (key <$> rows)), length_fmap. rewrite omap_lookup_seq. reflexivity.
Qed.

Lemma sort_values_desc_keys {A : Type} sort_indexer (key : A → float) (rows : list A) :
  key <$> sort_values_desc sort_indexer key rows
  = omap (λ i, (key <$> rows) !! i) (sort_indexer (key <$> rows)).
Proof.
  unfold sort_values_desc. rewrite list_fmap_omap.
  apply list_omap_ext, Forall2_same_length_lookup. split; [reflexivity|].
  intros i x y Hx Hy. rewrite Hx in Hy. injection Hy as <-.
  rewrite list_lookup_fmap. reflexivity.
Qed.

Lemma lookup_gwp_values (gwp : option (gmap string float)) (gas : string) (d : float) :
  DEFAULT_GWP !! gas = Some d →
  getitem (default ∅ gwp ∪ DEFAULT_GWP) gas = Ok (effective_gwp gwp gas d).
Proof.
  intros Hd. unfold getitem, effective_gwp. rewrite lookup_union, Hd.
  destruct gwp as [overrides|]; simpl.
  - destruct (overrides !! gas); reflexivity.
  - rewrite lookup_empty. reflexivity.
Qed.

(** The outcome of the function once the join is known. *)
Lemma compute_sector_emissions_unfold sort_indexer activity_df factor_df gwp :
  compute_sector_emissions sort_indexer activity_df factor_df gwp =
  let merged := merge_left activity_df factor_df in
  if existsb any_factor_isna merged then
    Raise (ValueError (MissingEmissionFactors
      (m_sector <$> List.filter (λ m, is_nan (m_co2_factor m)) merged)))
  else
    Ok (sort_values_desc sort_indexer co2e
          (emission_row (effective_gwp gwp "CH4" 28.0)
                        (effective_gwp gwp "N2O" 265.0) <$> merged)).
Proof.
  unfold compute_sector_emissions. cbv zeta.
  destruct (existsb _ _); [reflexivity|].
  rewrite (lookup_gwp_values gwp "CH4" 28.0) by reflexivity.
  rewrite (lookup_gwp_values gwp "N2O" 265.0) by reflexivity.
  reflexivity.
Qed.

Lemma matches_spec (a : ActivityRow) (factor_df : list FactorRow) (f : FactorRow) :
  f ∈ matches a factor_df ↔ f ∈ factor_df ∧ f_sector f = sector a.
Proof.
  unfold matches. rewrite !list_elem_of_In, filter_In, String.eqb_eq. reflexivity.
Qed.

Lemma matches_nil (a : ActivityRow) (factor_df : list FactorRow) :
  matches a factor_df = [] ↔ ∀ f, f ∈ factor_df → f_sector f ≠ sector a.
Proof.
  split.
  - intros Hnil f Hf Heq.
    assert (Hin : f ∈ matches a factor_df) by (apply matches_spec; auto).
    rewrite Hnil in Hin. inversion Hin.
  - intros Hno. destruct (matches a factor_df) as [|f hits] eqn:E; [reflexivity|].
    assert (Hin : f ∈ matches a factor_df) by (rewrite E; left).
    apply matches_spec in Hin as [Hf Heq]. destruct (Hno f Hf Heq).
Qed.

Lemma matches_unique (a : ActivityRow) (factor_df : list FactorRow) (f : FactorRow) :
  NoDup (f_sector <$> factor_df) → f ∈ factor_df → f_sector f = sector a →
  matches a factor_df = [f].
Proof.
  unfold matches. induction factor_df as [|g factor_df IH]; intros Hnd Hin Heq.
  - inversion Hin.
  - cbn [fmap list_fmap] in Hnd. apply NoDup_cons in Hnd as [Hg Hnd].
    cbn [List.filter]. apply elem_of_cons in Hin as [<-|Hin].
    + rewrite Heq, String.eqb_refl. f_equal.
      apply (proj2 (matches_nil a factor_df)). intros h Hh Hhs.
      apply Hg. rewrite Heq, <- Hhs. apply list_elem_of_fmap_2. exact Hh.
    + destruct (String.eqb (f_sector g) (sector a)) eqn:Hga.
      * apply String.eqb_eq in Hga. exfalso. apply Hg.
        rewrite Hga, <- Heq. apply list_elem_of_fmap_2. exact Hin.
      * apply IH; assumption.
Qed.

Lemma merge_left_no_miss (activity_df : list ActivityRow) (factor_df : list FactorRow) :
  NoDup (f_sector <$> factor_df) →
  (∀ a, a ∈ activity_df → ∃ f, f ∈ factor_df ∧ f_sector f = sector a) →
  Forall2 (λ a m, ∃ f, f ∈ factor_df ∧ f_sector f = sector a ∧ m = joined a f)
          activity_df (merge_left activity_df factor_df).
Proof.
  intros Hnd. induction activity_df as [|a activity_df IH]; intros Hall.
  - constructor.
  - destruct (Hall a) as (f & Hf & Hs); [left|].
    unfold merge_left. cbn [flat_map].
    rewrite (matches_unique a factor_df f Hnd Hf Hs). cbn.
    constructor; [eauto|]. apply IH. intros b Hb. apply Hall. right. exact Hb.
Qed.

Lemma existsb_false {A : Type} (p : A → bool) (l : list A) :
  (∀ x, x ∈ l → p x = false) → existsb p l = false.
Proof.
  intros H. destruct (existsb p l) eqn:E; [|reflexivity].
  apply existsb_exists in E as (x & Hin & Hx).
  rewrite H in Hx; [discriminate|]. apply list_elem_of_In. exact Hin.
Qed.

Lemma filter_none {A : Type} (p : A → bool) (l : list A) :
  (∀ x, x ∈ l → p x = false) → List.filter p l = [].
Proof.
  induction l as [|x l IH]; intros H; [reflexivity|].
  cbn [List.filter]. rewrite H by left. apply IH. intros y Hy. apply H. right. exact Hy.
Qed.

Lemma elem_of_merge_left (activity_df : list ActivityRow) (factor_df : list FactorRow)
    (m : MergedRow) :
  m ∈ merge_left activity_df factor_df ↔
  ∃ a, a ∈ activity_df ∧
       ((matches a factor_df = [] ∧ m = unmatched a) ∨
        (∃ f, f ∈ matches a factor_df ∧ m = joined a f)).
Proof.
  unfold merge_left. rewrite list_elem_of_In, in_flat_map. split.
  - intros (a & Ha & Hm). exists a. split; [apply list_elem_of_In; exact Ha|].
    destruct (matches a factor_df) as [|f hits].
    + left. split; [reflexivity|]. destruct Hm as [<-|[]]. reflexivity.
    + right. apply list_elem_of_In, list_elem_of_fmap in Hm as (g & -> & Hg). eauto.
  - intros (a & Ha & Hm). exists a. split; [apply list_elem_of_In; exact Ha|].
    destruct Hm as [[Hnil ->]|(f & Hf & ->)].
    + rewrite Hnil. left. reflexivity.
    + destruct (matches a factor_df) as [|g hits] eqn:E; [inversion Hf|].
      apply list_elem_of_In, list_elem_of_fmap_2. exact Hf.
Qed.

Lemma existsb_matches (a : ActivityRow) (factor_df : list FactorRow) :
  existsb (λ f, String.eqb (f_sector f) (sector a)) factor_df = false ↔
  matches a factor_df = [].
Proof.
  unfold matches. induction factor_df as [|f factor_df IH]; [tauto|].
  cbn [existsb List.filter].
  destruct (String.eqb (f_sector f) (sector a)); simpl; [split; discriminate | exact IH].
Qed.

(** With no NaN among the CO2 factors, the sectors named by the error
    are those of the activity rows without a factor row, in order. *)
Lemma missing_sectors_exact (activity_df : list ActivityRow) (factor_df : list FactorRow) :
  (∀ f, f ∈ factor_df → is_nan (co2_factor f) = false) →
  m_sector <$> List.filter (λ m, is_nan (m_co2_factor m)) (merge_left activity_df factor_df)
  = sector <$> List.filter
      (λ a, negb (existsb (λ f, String.eqb (f_sector f) (sector a)) factor_df))
      activity_df.
Proof.
  intros Hreal. unfold merge_left.
  induction activity_df as [|a activity_df IH]; [reflexivity|].
  cbn [flat_map List.filter]. rewrite List.filter_app, fmap_app, IH.
  destruct (existsb _ factor_df) eqn:Hex; cbn [negb].
  - destruct (matches a factor_df) as [|f hits] eqn:E.
    + apply existsb_matches in E. congruence.
    + replace (List.filter _ (joined a <$> f :: hits)) with (@nil MergedRow); [reflexivity|].
      symmetry. apply filter_none.
      intros m Hm. apply list_elem_of_fmap in Hm as (g & -> & Hg).
      cbn. rewrite Hreal; [reflexivity|].
      assert (Hin : g ∈ matches a factor_df) by (rewrite E; exact Hg).
      apply matches_spec in Hin as [Hin _]. exact Hin.
  - apply existsb_matches in Hex. rewrite Hex. reflexivity.
Qed.
Lemma merge_left_single_rows (activity_df : list ActivityRow) (factor_df : list FactorRow) :
  (∀ a, a ∈ activity_df →
        ∃ f, factor_rows_of factor_df (sector a) = [f] ∧ factor_isna f = false) →
  Forall2 (λ a m, ∃ f, f ∈ factor_df ∧ f_sector f = sector a ∧
                       factor_isna f = false ∧ m = joined a f)
          activity_df (merge_left activity_df factor_df).
Proof.
  induction activity_df as [|a activity_df IH]; intros Hall.
  - constructor.
  - destruct (Hall a) as (f & Hrows & Hreal); [left|].
    unfold merge_left. cbn [flat_map].
    change (matches a factor_df) with (factor_rows_of factor_df (sector a)).
    rewrite Hrows. cbn [fmap list_fmap app].
    assert (Hin : f ∈ matches a factor_df).
    { change (matches a factor_df) with (factor_rows_of factor_df (sector a)).
      rewrite Hrows. left. }
    apply matches_spec in Hin as [Hin Hs].
    constructor; [eauto 6|]. apply IH. intros b Hb. apply Hall. right. exact Hb.
Qed.

(** The outcome on a join that is known and holds no NaN. *)
Lemma compute_on_join sort_indexer activity_df factor_df gwp (merged : list MergedRow) :
  merge_left activity_df factor_df = merged →
  existsb any_factor_isna merged = false →
  compute_sector_emissions sort_indexer activity_df factor_df gwp =
  Ok (sort_values_desc sort_indexer co2e
        (emission_row (effective_gwp gwp "CH4" 28.0)
                      (effective_gwp gwp "N2O" 265.0) <$> merged)).
Proof.
  intros Hm Hreal. rewrite compute_sector_emissions_unfold. cbv zeta.
  rewrite Hm, Hreal. reflexivity.
Qed.

Lemma sort_values_desc_single {A : Type} sort_indexer (key : A → float) (row : A) :
  permutes sort_indexer → sort_values_desc sort_indexer key [row] = [row].
Proof.
  intros Hperm. apply Permutation_singleton_r, sort_values_desc_perm, Hperm.
Qed.
End engine_facts.

(** ** The claims about compute_sector_emissions *)

(** Closing a decidable goal about concrete tables by evaluation. *)
Ltac by_evaluation := apply (bool_decide_unpack _); vm_compute; exact I.

(** Case analysis on the rows of a concrete table. *)
Ltac each_row H :=
  repeat (apply elem_of_cons in H as [->|H]); [..|apply elem_of_nil in H; destruct H].

Section EngineClaims.
#[local] Open Scope float_scope.
Import float_facts sort_facts engine_facts.

(** C1. Where every activity row has exactly one factor row of its sector
    and that row holds no NaN (a NaN factor is what the function takes for
    a join miss), [compute_sector_emissions] returns one row per activity
    row: in join order the rows satisfy co2 = activity × co2_factor,
    ch4 = activity × ch4_factor, n2o = activity × n2o_factor and
    co2e = co2 + ch4·GWP_CH4 + n2o·GWP_N2O with the GWP defaults 28.0 and
    265.0 overridden per key.  Activity 100 with factors (1, 0.1, 0.01)
    and the default GWP gives co2e = 645.0, also beside a factor row with
    a NaN that no activity row uses.  Where a sector has two factor rows
    the claim fails: the same activity row, with a second residential
    factor row (2, 0, 0), comes back twice, with co2e 645.0 and 200.0. *)
Theorem C1_sector_emissions_formula (sort_indexer : list float → list nat) :
  permutes sort_indexer →
  (∀ activity_df factor_df gwp,
     (∀ a, a ∈ activity_df →
           ∃ f, factor_rows_of factor_df (sector a) = [f] ∧ factor_isna f = false) →
     ∃ rows in_join_order,
       compute_sector_emissions sort_indexer activity_df factor_df gwp = Ok rows ∧
       rows ≡ₚ in_join_order ∧
       Forall2 (emission_formula gwp factor_df) activity_df in_join_order) ∧
  (∃ row,
     compute_sector_emissions sort_indexer [residential_100] [residential_factors] None
       = Ok [row] ∧
     co2e row = 645.0) ∧
  (∃ row,
     compute_sector_emissions sort_indexer [residential_100]
       [rail_factors_nan; residential_factors] None = Ok [row] ∧
     co2e row = 645.0) ∧
  (∃ rows,
     compute_sector_emissions sort_indexer [residential_100]
       [residential_factors; residential_factors_again] None = Ok rows ∧
     length rows = 2%nat ∧
     co2e <$> rows ≡ₚ [645.0; 200.0] ∧
     ¬ Forall2 (emission_formula None [residential_factors; residential_factors_again])
               [residential_100] rows).
Proof.
  intros Hperm. split; [|split; [|split]].
  - intros activity_df factor_df gwp Hall.
    pose proof (merge_left_single_rows activity_df factor_df Hall) as Hjoin.
    rewrite compute_sector_emissions_unfold. cbv zeta.
    rewrite existsb_false.
    + eexists _, _. split; [reflexivity|]. split.
      * apply sort_values_desc_perm, Hperm.
      * apply Forall2_fmap_r. eapply Forall2_impl; [exact Hjoin|].
        intros a m (f & Hf & Hs & _ & ->). exists f. cbn. repeat split; auto.
    + intros m Hm. apply list_elem_of_lookup in Hm as [i Hi].
      destruct (Forall2_lookup_r _ _ _ _ _ Hjoin Hi) as (a & _ & f & _ & _ & Hreal & ->).
      exact Hreal.
  - rewrite (compute_on_join _ _ _ _ [joined residential_100 residential_factors])
      by (vm_compute; reflexivity).
    cbn [fmap list_fmap]. rewrite sort_values_desc_single by exact Hperm.
    eexists. split; [reflexivity|]. vm_compute. reflexivity.
  - rewrite (compute_on_join _ _ _ _ [joined residential_100 residential_factors])
      by (vm_compute; reflexivity).
    cbn [fmap list_fmap]. rewrite sort_values_desc_single by exact Hperm.
    eexists. split; [reflexivity|]. vm_compute. reflexivity.
  - rewrite (compute_on_join _ _ _ _ [joined residential_100 residential_factors;
                                      joined residential_100 residential_factors_again])
      by (vm_compute; reflexivity).
    eexists. split; [reflexivity|].
    pose proof (sort_values_desc_perm sort_indexer co2e
      (emission_row (effective_gwp None "CH4" 28) (effective_gwp None "N2O" 265)
         <$> [joined residential_100 residential_factors;
              joined residential_100 residential_factors_again]) Hperm) as Hp.
    assert (Hlen : length (sort_values_desc sort_indexer co2e
      (emission_row (effective_gwp None "CH4" 28) (effective_gwp None "N2O" 265)
         <$> [joined residential_100 residential_factors;
              joined residential_100 residential_factors_again])) = 2%nat)
      by (rewrite Hp; reflexivity).
    split; [exact Hlen|]. split.
    + rewrite Hp. vm_compute. reflexivity.
    + intros Hrows. apply Forall2_length in Hrows. rewrite Hlen in Hrows. discriminate.
Qed.

Lemma C1_sector_emissions_formula_witness :
  compute_sector_emissions stable_argsort [residential_100; transport_50]
    [transport_factors; residential_factors; rail_factors_nan] (Some methane_30)
  = Ok [ {| e_sector := "transport"; e_activity := 50.0;
            co2 := 100.0; ch4 := 25.0; n2o := 5.0; co2e := 2175.0 |};
         {| e_sector := "residential"; e_activity := 100.0;
            co2 := 100.0; ch4 := 10.0; n2o := 1.0; co2e := 665.0 |} ] ∧
  ∃ rows in_join_order,
    compute_sector_emissions stable_argsort [residential_100; transport_50]
      [transport_factors; residential_factors; rail_factors_nan] (Some methane_30)
    = Ok rows ∧
    rows ≡ₚ in_join_order ∧
    Forall2 (emission_formula (Some methane_30)
               [transport_factors; residential_factors; rail_factors_nan])
            [residential_100; transport_50] in_join_order.
Proof.
  split; [vm_compute; reflexivity|].
  apply (proj1 (C1_sector_emissions_formula stable_argsort stable_argsort_permutes)).
  intros a Ha. each_row Ha; eexists; (split; [vm_compute; reflexivity | reflexivity]).
Defined.

(** C2. When some activity row's sector has no factor row,
    [compute_sector_emissions] raises the missing-factors [ValueError] and
    returns nothing; the error names every such sector, and exactly those,
    in activity order, when no CO2 factor of the factor table is NaN. *)
Theorem C2_join_miss_raises (sort_indexer : list float → list nat)
    (activity_df : list ActivityRow) (factor_df : list FactorRow)
    (gwp : option (gmap string float)) :
  (∃ a, a ∈ activity_df ∧ ∀ f, f ∈ factor_df → f_sector f ≠ sector a) →
  ∃ missing_sectors,
    compute_sector_emissions sort_indexer activity_df factor_df gwp
      = Raise (ValueError (MissingEmissionFactors missing_sectors)) ∧
    (∀ a, a ∈ activity_df → (∀ f, f ∈ factor_df → f_sector f ≠ sector a) →
          sector a ∈ missing_sectors) ∧
    ((∀ f, f ∈ factor_df → is_nan (co2_factor f) = false) →
     missing_sectors
     = sector <$> List.filter
         (λ a, negb (existsb (λ f, String.eqb (f_sector f) (sector a)) factor_df))
         activity_df).
Proof.
  intros (a & Ha & Hmiss).
  assert (Hin : ∀ b, b ∈ activity_df → (∀ f, f ∈ factor_df → f_sector f ≠ sector b) →
                unmatched b ∈ merge_left activity_df factor_df).
  { intros b Hb Hnone. apply elem_of_merge_left. exists b. split; [exact Hb|].
    left. split; [apply matches_nil; exact Hnone | reflexivity]. }
  rewrite compute_sector_emissions_unfold. cbv zeta.
  replace (existsb any_factor_isna (merge_left activity_df factor_df)) with true.
  - eexists. split; [reflexivity|]. split.
    + intros b Hb Hnone.
      change (sector b) with (m_sector (unmatched b)).
      apply list_elem_of_fmap_2, list_elem_of_In, filter_In.
      split; [apply list_elem_of_In, Hin; assumption | reflexivity].
    + apply missing_sectors_exact.
  - symmetry. apply existsb_exists. exists (unmatched a).
    split; [apply list_elem_of_In, Hin; assumption | reflexivity].
Qed.

Lemma C2_join_miss_raises_witness :
  ∃ missing_sectors,
    compute_sector_emissions stable_argsort
      (base_activity ++ [aviation_50]) base_factors None
      = Raise (ValueError (MissingEmissionFactors missing_sectors)) ∧
    "aviation" ∈ missing_sectors.
Proof.
  destruct (C2_join_miss_raises stable_argsort
              (base_activity ++ [aviation_50])
              base_factors None) as (missing & Hraise & Hall & _).
  - exists aviation_50. split.
    + repeat constructor.
    + intros f Hf. each_row Hf; discriminate.
  - exists missing. split; [exact Hraise|].
    apply (Hall aviation_50).
    + repeat constructor.
    + intros f Hf. each_row Hf; discriminate.
Defined.

(** C6 (as amended). The rows [compute_sector_emissions] returns are the
    joined rows in descending order of co2e, NaN last, whenever the sort
    routine returns every row once and orders its keys so; the order of
    rows with equal co2e is the routine's. *)
Theorem C6_rows_descending_by_co2e (sort_indexer : list float → list nat)
    (activity_df : list ActivityRow) (factor_df : list FactorRow)
    (gwp : option (gmap string float)) (rows : list EmissionRow) :
  permutes sort_indexer →
  sorts_descending sort_indexer →
  compute_sector_emissions sort_indexer activity_df factor_df gwp = Ok rows →
  rows ≡ₚ emission_row (effective_gwp gwp "CH4" 28.0) (effective_gwp gwp "N2O" 265.0)
            <$> merge_left activity_df factor_df ∧
  descending (co2e <$> rows) = true.
Proof.
  intros Hperm Hsort. rewrite compute_sector_emissions_unfold. cbv zeta.
  destruct (existsb _ _); [discriminate|].
  intros [= <-]. split.
  - apply sort_values_desc_perm, Hperm.
  - rewrite sort_values_desc_keys. apply Hsort.
Qed.

Lemma C6_rows_descending_by_co2e_witness :
  compute_sector_emissions stable_argsort base_activity base_factors None
  = Ok [ emission_of "transport" 2000.0; emission_of "residential" 1000.0;
         emission_of "energy" 800.0; emission_of "industry" 500.0;
         emission_of "waste" 200.0 ] ∧
  [ emission_of "transport" 2000.0; emission_of "residential" 1000.0;
    emission_of "energy" 800.0; emission_of "industry" 500.0;
    emission_of "waste" 200.0 ]
  ≡ₚ emission_row (effective_gwp None "CH4" 28.0) (effective_gwp None "N2O" 265.0)
       <$> merge_left base_activity base_factors ∧
  descending (co2e <$> [ emission_of "transport" 2000.0; emission_of "residential" 1000.0;
                         emission_of "energy" 800.0; emission_of "industry" 500.0;
                         emission_of "waste" 200.0 ]) = true.
Proof.
  split; [vm_compute; reflexivity|].
  apply (C6_rows_descending_by_co2e stable_argsort base_activity base_factors None _
           stable_argsort_permutes stable_argsort_sorts).
  vm_compute. reflexivity.
Defined.

(** C6 as stated fails on four rows tied in pairs, the smaller pair
    first: under the sort that [sort_values] runs by default, the rows of
    equal co2e come back in the reverse of their join order.  Two tied
    rows alone keep their order. *)
Lemma C6_ties_not_kept :
  emission_row 28.0 265.0 <$> merge_left paired_activity base_factors
    = [ emission_of "residential" 100.0; emission_of "transport" 100.0;
        emission_of "industry" 200.0; emission_of "energy" 200.0 ] ∧
  compute_sector_emissions nargsort_descending paired_activity base_factors None
    = Ok [ emission_of "energy" 200.0; emission_of "industry" 200.0;
           emission_of "transport" 100.0; emission_of "residential" 100.0 ] ∧
  compute_sector_emissions nargsort_descending tied_activity base_factors None
    = Ok [ emission_of "residential" 100.0; emission_of "transport" 100.0 ].
Proof.
  repeat split; vm_compute; reflexivity.
Qed.

(** C7. With two factor rows for one sector the join pairs the activity
    row with both, so one activity row yields two result rows, one per
    factor row. *)
Theorem C7_duplicate_factor_rows_both_join (sort_indexer : list float → list nat) :
  permutes sort_indexer →
  ∃ rows,
    compute_sector_emissions sort_indexer [residential_100]
      [residential_factors; residential_factors_again] None = Ok rows ∧
    length rows = 2%nat ∧
    rows ≡ₚ [ emission_row 28.0 265.0 (joined residential_100 residential_factors);
              emission_row 28.0 265.0 (joined residential_100 residential_factors_again) ].
Proof.
  intros Hperm. rewrite compute_sector_emissions_unfold. cbv zeta.
  change (merge_left [residential_100] [residential_factors; residential_factors_again])
    with [joined residential_100 residential_factors;
          joined residential_100 residential_factors_again].
  replace (existsb any_factor_isna _) with false by (vm_compute; reflexivity).
  eexists. split; [reflexivity|].
  pose proof (sort_values_desc_perm sort_indexer co2e
    (emission_row (effective_gwp None "CH4" 28) (effective_gwp None "N2O" 265)
       <$> [joined residential_100 residential_factors;
            joined residential_100 residential_factors_again]) Hperm) as Hp.
  split; [rewrite Hp; reflexivity | exact Hp].
Qed.

Lemma C7_duplicate_factor_rows_both_join_witness :
  ∃ rows,
    compute_sector_emissions stable_argsort [residential_100]
      [residential_factors; residential_factors_again] None = Ok rows ∧
    length rows = 2%nat ∧
    rows ≡ₚ [ emission_row 28.0 265.0 (joined residential_100 residential_factors);
              emission_row 28.0 265.0 (joined residential_100 residential_factors_again) ].
Proof.
  exact (C7_duplicate_factor_rows_both_join stable_argsort stable_argsort_permutes).
Defined.
End EngineClaims.

(** ** apply_scenario *)

Module scenario_facts.
#[local] Open Scope float_scope.

Lemma fmap_fixed {A : Type} (f : A → A) (l : list A) :
  (∀ x, x ∈ l → f x = x) → f <$> l = l.
Proof.
  intros H. induction l as [|x l IH]; [reflexivity|].
  cbn [fmap list_fmap]. rewrite H by left. f_equal.
  apply IH. intros y Hy. apply H. right. exact Hy.
Qed.

Lemma existsb_none {A : Type} (p : A → bool) (l : list A) (x : A) :
  existsb p l = false → x ∈ l → p x = false.
Proof.
  intros H Hx. destruct (p x) eqn:E; [|reflexivity].
  rewrite <- H. symmetry. apply existsb_exists. exists x.
  split; [apply list_elem_of_In; exact Hx | exact E].
Qed.

(** The guard [if mask.any()] changes nothing: without a matching row the
    masked assignment is already the identity. *)
Lemma scale_sector_always (df : list ActivityRow) (item : string * float) :
  scale_sector df item = scale_where (λ r, String.eqb (sector r) item.1) item.2 df.
Proof.
  unfold scale_sector. destruct (existsb _ df) eqn:E; [reflexivity|].
  unfold scale_where. symmetry. apply fmap_fixed. intros r Hr.
  rewrite (existsb_none _ _ _ E Hr). reflexivity.
Qed.

Lemma scale_where_row (mask : ActivityRow → bool) (mult : float) (df : list ActivityRow) :
  scale_where mask mult df
  = (λ r, with_multiplier (if mask r then Some mult else None) r) <$> df.
Proof.
  unfold scale_where. apply list_fmap_ext. intros _ r _. destruct (mask r); reflexivity.
Qed.

Lemma adjusted_activity_rows (scn : Scenario) (activity_df : list ActivityRow) :
  fold_left scale_sector
    [ ("residential", 1 - energy_efficiency scn);
      ("energy", 1 - energy_efficiency scn);
      ("transport", 1 - modal_shift scn);
      ("industry", 1 - industry_efficiency scn);
      ("waste", 1 - waste_reduction scn) ] activity_df
  = (λ r, with_multiplier (activity_multiplier scn (sector r)) r) <$> activity_df.
Proof.
  cbn [fold_left]. rewrite !scale_sector_always. unfold scale_where.
  rewrite <- !list_fmap_compose. apply list_fmap_ext. intros _ [s a] _.
  unfold activity_multiplier, with_multiplier. cbn.
  destruct (String.eqb_spec s "residential") as [->|_]; [reflexivity|]. cbn.
  destruct (String.eqb_spec s "energy") as [->|_]; [reflexivity|]. cbn.
  destruct (String.eqb_spec s "transport") as [->|_]; [reflexivity|]. cbn.
  destruct (String.eqb_spec s "industry") as [->|_]; [reflexivity|]. cbn.
  destruct (String.eqb s "waste"); reflexivity.
Qed.
(** Normalizing holds every intensity between 0 and 1. *)
Lemma normalized_in_unit_range (scn : Scenario) : normalized scn = in_unit_range scn.
Proof.
  unfold normalized, in_unit_range, clamp01.
  rewrite !float_facts.clamp_held_between by reflexivity. reflexivity.
Qed.

Lemma scale_factors_columns (m : float) (f : FactorRow) :
  scale_factors m f = with_factor_multiplier m f.
Proof. reflexivity. Qed.

(** Rows outside the five adjusted sectors get no multiplier. *)
Lemma activity_multiplier_elsewhere (scn : Scenario) (sector_name : string) :
  sector_name ∉ adjusted_sectors → activity_multiplier scn sector_name = None.
Proof.
  intros Hout. unfold activity_multiplier.
  repeat match goal with
  | |- context [String.eqb sector_name ?s] =>
      destruct (String.eqb_spec sector_name s) as [->|_];
      [exfalso; apply Hout; unfold adjusted_sectors; set_solver|]
  end.
  reflexivity.
Qed.
End scenario_facts.

Section ScenarioClaims.
#[local] Open Scope float_scope.
Import scenario_facts.

(** C5. [apply_scenario] first holds every intensity of the scenario
    between 0 and 1; it then multiplies the activity of residential and
    energy rows by (1 − energy_efficiency), of transport rows by
    (1 − modal_shift), of industry rows by (1 − industry_efficiency) and
    of waste rows by (1 − waste_reduction), leaving every other row as it
    is; it multiplies each of the three factors of energy rows by
    (1 − renewable_share) and leaves the other factor rows as they are; it
    never fails, and tables without those sectors come back unchanged.
    On the test tables, transport 2000 becomes 1600.0, residential 1000
    becomes 900.0 and the energy co2_factor 1 becomes 0.7; an
    energy_efficiency of 1.5 counts as 1 and a modal_shift of −0.5 as 0,
    and with renewable_share 0.5 the energy factors (1, 0.5, 0.25) become
    (0.5, 0.25, 0.125). *)
Theorem C5_apply_scenario_multipliers :
  (∀ activity_df factor_df scenario,
     apply_scenario activity_df factor_df scenario =
     ( (λ r, with_multiplier (activity_multiplier (in_unit_range scenario) (sector r)) r)
         <$> activity_df,
       (λ f, if String.eqb (f_sector f) "energy"
             then with_factor_multiplier (1 - renewable_share (in_unit_range scenario)) f
             else f) <$> factor_df )) ∧
  (∀ activity_df factor_df scenario,
     (∀ r, r ∈ activity_df → sector r ∉ adjusted_sectors) →
     (∀ f, f ∈ factor_df → f_sector f ≠ "energy") →
     apply_scenario activity_df factor_df scenario = (activity_df, factor_df)) ∧
  apply_scenario base_activity base_factors mitigation_example =
  ( [ {| sector := "residential"; activity := 900.0 |};
      {| sector := "transport"; activity := 1600.0 |};
      {| sector := "industry"; activity := 500.0 |};
      {| sector := "waste"; activity := 200.0 |};
      {| sector := "energy"; activity := 720.0 |} ],
    [ unit_co2_factors "residential"; unit_co2_factors "transport";
      unit_co2_factors "industry"; unit_co2_factors "waste";
      {| f_sector := "energy"; co2_factor := 0.7; ch4_factor := 0.0; n2o_factor := 0.0 |} ] ) ∧
  apply_scenario (base_activity ++ [aviation_50]) [energy_factors; transport_factors]
    out_of_range_example =
  ( [ {| sector := "residential"; activity := 0.0 |};
      {| sector := "transport"; activity := 2000.0 |};
      {| sector := "industry"; activity := 375.0 |};
      {| sector := "waste"; activity := 100.0 |};
      {| sector := "energy"; activity := 0.0 |};
      {| sector := "aviation"; activity := 50.0 |} ],
    [ {| f_sector := "energy"; co2_factor := 0.5; ch4_factor := 0.25;
         n2o_factor := 0.125 |};
      {| f_sector := "transport"; co2_factor := 2.0; ch4_factor := 0.5;
         n2o_factor := 0.1 |} ] ).
Proof.
  assert (Hrows : ∀ activity_df factor_df scenario,
     apply_scenario activity_df factor_df scenario =
     ( (λ r, with_multiplier (activity_multiplier (in_unit_range scenario) (sector r)) r)
         <$> activity_df,
       (λ f, if String.eqb (f_sector f) "energy"
             then with_factor_multiplier (1 - renewable_share (in_unit_range scenario)) f
             else f) <$> factor_df )).
  { intros activity_df factor_df scenario. unfold apply_scenario. cbv zeta.
    rewrite adjusted_activity_rows, normalized_in_unit_range. f_equal.
    destruct (existsb _ factor_df) eqn:E.
    - apply list_fmap_ext. intros _ f _. rewrite scale_factors_columns. reflexivity.
    - symmetry. apply fmap_fixed. intros f Hf.
      rewrite (existsb_none _ _ _ E Hf). reflexivity. }
  split; [exact Hrows|].
  split; [|split; vm_compute; reflexivity].
  intros activity_df factor_df scenario Hactivity Hfactors. rewrite Hrows. f_equal.
  - apply fmap_fixed. intros r Hr.
    rewrite activity_multiplier_elsewhere by (apply Hactivity; exact Hr). reflexivity.
  - apply fmap_fixed. intros f Hf.
    destruct (String.eqb_spec (f_sector f) "energy") as [He|_]; [|reflexivity].
    destruct (Hfactors f Hf He).
Qed.
End ScenarioClaims.

(** ** calculate_urban_modifiers *)

Module urban_facts.
#[local] Open Scope float_scope.
Import float_facts.

(** Rounding keeps the sign it is given. *)
Lemma binary_round_aux_sign (s : bool) (m e : Z) (l : location) :
  let r := binary_round_aux prec emax s m e l in
  r = S754_nan ∨ r = S754_zero s ∨ r = S754_infinity s ∨
  ∃ m' e', r = S754_finite s m' e'.
Proof.
  unfold binary_round_aux.
  destruct (shr_fexp prec emax m e l) as [mrs' e'].
  destruct (shr_fexp _ _ _ _ _) as [mrs'' e''].
  destruct (shr_m mrs'') as [|m'|m']; cbv zeta; [auto | | auto].
  destruct (e'' <=? emax - prec)%Z; eauto 6.
Qed.

(** The argument handed to [log1p] is never at or below -1. *)
Lemma log1p_argument_in_domain (density : float) :
  (py_max density 1.0 / 1000.0 <=? -1) = false.
Proof.
  unfold py_max. destruct (density <? 1.0) eqn:E; [vm_compute; reflexivity|].
  rewrite ltb_spec in E. rewrite leb_spec, div_spec.
  replace (Prim2SF 1.0) with (S754_finite false 4503599627370496 (-52)) in E
    by (vm_compute; reflexivity).
  replace (Prim2SF 1000.0) with (S754_finite false 8796093022208000 (-43))
    by (vm_compute; reflexivity).
  replace (Prim2SF (-1)) with (S754_finite true 4503599627370496 (-52))
    by (vm_compute; reflexivity).
  unfold SFltb in E. unfold SFleb, SF64div.
  destruct (Prim2SF density) as [s|s| |s m e]; cbn [SFdiv SFcompare] in *.
  - destruct s; discriminate.
  - destruct s; [discriminate | reflexivity].
  - reflexivity.
  - destruct s; [discriminate|].
    destruct (SFdiv_core_binary _ _ _ _ _ _) as [[mz ez] lz].
    destruct (binary_round_aux_sign (xorb false false) mz ez lz)
      as [-> | [-> | [-> | (m' & e' & ->)]]]; reflexivity.
Qed.
End urban_facts.

Section UrbanClaims.
#[local] Open Scope float_scope.
Import float_facts urban_facts.

(** C9. For every [UrbanFormParameters], [calculate_urban_modifiers]
    returns transport = density_effect · compactness_effect ·
    transit_effect held between 0.45 and 1.10, where density_effect is
    1 − 0.08·log1p(max(density, 1)/1000) held between 0.65 and 1.05,
    compactness_effect is 1 − 0.2·compactness held between 0.75 and 1.05
    and transit_effect is 1 − 0.25·transit held between 0.7 and 1.05, and
    residential = energy = 1 − 0.1·compactness held between 0.80 and
    1.05; the transport modifier lies in [0.45, 1.10] and the other two
    in [0.80, 1.05]. *)
Theorem C9_urban_modifiers_clamped (log1p : float → result float)
    (params : UrbanFormParameters) :
  log1p_defined log1p →
  ∃ l transport building,
    log1p (larger (density_per_km2 params) 1.0 / 1000.0) = Ok l ∧
    transport =
      held_between 0.45 1.10
        (held_between 0.65 1.05 (1.0 - 0.08 * l)
         * held_between 0.75 1.05 (1.0 - 0.2 * compactness_index params)
         * held_between 0.7 1.05 (1.0 - 0.25 * transit_access_index params)) ∧
    building = held_between 0.80 1.05 (1.0 - 0.1 * compactness_index params) ∧
    calculate_urban_modifiers log1p params
      = Ok [("transport", transport); ("residential", building); ("energy", building)] ∧
    (0.45 <=? transport) = true ∧ (transport <=? 1.10) = true ∧
    (0.80 <=? building) = true ∧ (building <=? 1.05) = true.
Proof.
  intros Hdef.
  destruct (Hdef _ (log1p_argument_in_domain (density_per_km2 params))) as [l Hl].
  exists l. eexists _, _. split; [exact Hl|]. split; [reflexivity|]. split; [reflexivity|].
  rewrite <- !clamp_held_between by reflexivity.
  split.
  - unfold calculate_urban_modifiers. rewrite Hl. reflexivity.
  - pose proof (clamp_between
      (clamp (1.0 - 0.08 * l) 0.65 1.05
       * clamp (1.0 - 0.2 * compactness_index params) 0.75 1.05
       * clamp (1.0 - 0.25 * transit_access_index params) 0.7 1.05) 0.45 1.10 eq_refl)
      as [Ht1 Ht2].
    pose proof (clamp_between (1.0 - 0.1 * compactness_index params) 0.80 1.05 eq_refl)
      as [Hb1 Hb2].
    auto.
Qed.

Lemma C9_urban_modifiers_clamped_witness :
  calculate_urban_modifiers log1p_series default_urban
    = Ok [("transport", 0.6861054115166517); ("residential", 0.95); ("energy", 0.95)] ∧
  calculate_urban_modifiers log1p_series compact_urban
    = Ok [("transport", 0.45); ("residential", 0.8); ("energy", 0.8)] ∧
  calculate_urban_modifiers log1p_series sparse_urban
    = Ok [("transport", 1.1); ("residential", 1.05); ("energy", 1.05)].
Proof.
  assert (Hdef : log1p_defined log1p_series).
  { intros x Hx. unfold log1p_series. rewrite Hx. eexists. reflexivity. }
  split; [|split].
  - destruct (C9_urban_modifiers_clamped log1p_series default_urban Hdef)
      as (l & transport & building & Hl & -> & -> & -> & _).
    vm_compute in Hl. injection Hl as <-. vm_compute. reflexivity.
  - destruct (C9_urban_modifiers_clamped log1p_series compact_urban Hdef)
      as (l & transport & building & Hl & -> & -> & -> & _).
    vm_compute in Hl. injection Hl as <-. vm_compute. reflexivity.
  - destruct (C9_urban_modifiers_clamped log1p_series sparse_urban Hdef)
      as (l & transport & building & Hl & -> & -> & -> & _).
    vm_compute in Hl. injection Hl as <-. vm_compute. reflexivity.
Defined.

(** The modifiers of the test parameters under the series for [log1p]. *)
Example urban_example_modifiers :
  calculate_urban_modifiers log1p_series urban_example
  = Ok [ ("transport", 0.56706475926341449);
         ("residential", 0.93000000000000005);
         ("energy", 0.93000000000000005) ].
Proof. vm_compute. reflexivity. Qed.
End UrbanClaims.

(** ** forecast_scenarios *)

Module forecast_facts.
#[local] Open Scope float_scope.
Import scenario_facts.

Lemma for_each_Ok {A B : Type} (f : A → result B) (xs : list A) (ys : list B) :
  for_each f xs = Ok ys ↔ Forall2 (λ x y, f x = Ok y) xs ys.
Proof.
  revert ys. induction xs as [|x xs IH]; intros ys; cbn [for_each].
  - split; [intros [= <-]; constructor | inversion 1; reflexivity].
  - split.
    + destruct (f x) as [y|e] eqn:Hx; cbn; [|discriminate].
      destruct (for_each f xs) as [ys'|e] eqn:Hxs; cbn; [|discriminate].
      intros [= <-]. constructor; [exact Hx | apply IH; reflexivity].
    + inversion 1 as [|? y ? ys' Hx Hxs]; subst. rewrite Hx. cbn.
      apply IH in Hxs. rewrite Hxs. reflexivity.
Qed.

Lemma year_range_Ok (start_year end_year : Z) (years : list Z) :
  year_range start_year end_year = Ok years →
  (start_year ≤ end_year)%Z ∧ years = py_range start_year (end_year + 1).
Proof.
  unfold year_range. destruct (Z.ltb_spec end_year start_year); [discriminate|].
  intros [= <-]. auto.
Qed.

Lemma elem_of_py_range (lo hi y : Z) : y ∈ py_range lo hi ↔ (lo ≤ y < hi)%Z.
Proof.
  unfold py_range. rewrite list_elem_of_fmap. split.
  - intros (i & -> & Hi). apply elem_of_seq in Hi. lia.
  - intros Hy. exists (Z.to_nat (y - lo)). split; [lia|]. apply elem_of_seq. lia.
Qed.

Lemma scale_for_growth_rows (pop_scale gdp_scale : float) (df : list ActivityRow) :
  scale_for_growth pop_scale gdp_scale df
  = (λ r, with_multiplier (growth_multiplier pop_scale gdp_scale (sector r)) r) <$> df.
Proof.
  unfold scale_for_growth, scale_where. rewrite <- list_fmap_compose.
  apply list_fmap_ext. intros _ [s a] _.
  unfold growth_multiplier, with_multiplier, isin. cbn.
  destruct (String.eqb_spec s "residential") as [->|_]; [reflexivity|]. cbn.
  destruct (String.eqb_spec s "transport") as [->|_]; [reflexivity|]. cbn.
  destruct (String.eqb_spec s "waste") as [->|_]; [reflexivity|]. cbn.
  destruct (String.eqb s "industry"); [reflexivity|]. cbn.
  destruct (String.eqb s "energy"); reflexivity.
Qed.

Section Forecast.
Variable sort_indexer : list float → list nat.
Variable series_sum : list float → float.
Variable float_pow : float → Z → result float.
Variables (base_activity_df : list ActivityRow) (factor_df : list FactorRow).
Variables (population_base population_growth gdp_per_capita_base gdp_growth : float).
Variables (start_year end_year : Z).
Variable urban_modifiers : option (list (string * float)).

#[local] Abbreviation the_cell :=
  (forecast_cell sort_indexer series_sum float_pow base_activity_df factor_df
     population_base population_growth gdp_per_capita_base gdp_growth start_year
     urban_modifiers).
#[local] Abbreviation the_records :=
  (forecast_records sort_indexer series_sum float_pow base_activity_df factor_df
     population_base population_growth gdp_per_capita_base gdp_growth start_year
     end_year).
#[local] Abbreviation the_forecast :=
  (forecast_scenarios sort_indexer series_sum float_pow base_activity_df factor_df
     population_base population_growth gdp_per_capita_base gdp_growth start_year
     end_year).

Lemma forecast_cell_Ok (scn : Scenario) (y : Z) (r : ForecastRecord) :
  the_cell scn y = Ok r →
  year r = y ∧ scenario r = name scn ∧
  ∃ pop_scale gdp_scale sector_rows,
    float_pow (1 + population_growth) (y - start_year) = Ok pop_scale ∧
    float_pow (1 + gdp_growth) (y - start_year) = Ok gdp_scale ∧
    population r = population_base * pop_scale ∧
    gdp r = population r * (gdp_per_capita_base * gdp_scale) ∧
    compute_sector_emissions sort_indexer
      (apply_scenario (cell_activity base_activity_df urban_modifiers pop_scale gdp_scale) factor_df scn).1
      (apply_scenario (cell_activity base_activity_df urban_modifiers pop_scale gdp_scale) factor_df scn).2 None
      = Ok sector_rows ∧
    rec_total_co2e r = series_sum (co2e <$> sector_rows).
Proof.
  unfold forecast_cell. cbv zeta.
  destruct (float_pow (1 + population_growth) _) as [pop_scale|] eqn:Hp;
    cbn [mbind result_bind]; [|discriminate].
  destruct (float_pow (1 + gdp_growth) _) as [gdp_scale|] eqn:Hg;
    cbn [mbind result_bind]; [|discriminate].
  rewrite scale_for_growth_rows.
  fold (cell_activity base_activity_df urban_modifiers pop_scale gdp_scale).
  destruct (apply_scenario _ _ _) as [adj_activity adj_factors] eqn:Happ.
  cbn [fst snd].
  destruct (compute_sector_emissions _ _ _ _) as [sector_rows|] eqn:Hc;
    cbn [mbind result_bind]; [|discriminate].
  intros [= <-]. split; [reflexivity|]. split; [reflexivity|].
  exists pop_scale, gdp_scale, sector_rows. rewrite Happ.
  repeat split; try reflexivity. exact Hc.
Qed.

Lemma forecast_records_Ok (scenarios : list Scenario) (records : list ForecastRecord) :
  the_records scenarios urban_modifiers = Ok records ↔
  ∃ per_scenario,
    records = concat per_scenario ∧
    Forall2 (λ scn rs, (start_year ≤ end_year)%Z ∧
               Forall2 (λ y r, the_cell scn y = Ok r)
                       (py_range start_year (end_year + 1)) rs)
            scenarios per_scenario.
Proof.
  unfold forecast_records. split.
  - destruct (for_each _ scenarios) as [per_scenario|] eqn:E; cbn; [|discriminate].
    intros [= <-]. exists per_scenario. split; [reflexivity|].
    apply for_each_Ok in E. eapply Forall2_impl; [exact E|]. cbn.
    intros scn rs H. destruct (year_range _ _) as [years|] eqn:Hy; cbn in H; [|discriminate].
    apply year_range_Ok in Hy as [Hle ->]. split; [exact Hle|].
    apply for_each_Ok. exact H.
  - intros (per_scenario & -> & H).
    replace (for_each _ scenarios) with (Ok per_scenario); [reflexivity|].
    symmetry. apply for_each_Ok. eapply Forall2_impl; [exact H|]. cbn.
    intros scn rs [Hle Hrs]. unfold year_range.
    destruct (Z.ltb_spec end_year start_year); [lia|]. cbn.
    apply for_each_Ok. exact Hrs.
Qed.

(** Every record belongs to a scenario and a year of the range, and every
    scenario has a record for every year that occurs. *)
Lemma records_of_scenario (scenarios : list Scenario) (records : list ForecastRecord)
    (r : ForecastRecord) :
  the_records scenarios urban_modifiers = Ok records → r ∈ records →
  ∃ scn, scn ∈ scenarios ∧ (start_year ≤ year r ≤ end_year)%Z ∧
         the_cell scn (year r) = Ok r.
Proof.
  intros H Hr. apply forecast_records_Ok in H as (per_scenario & -> & H).
  apply list_elem_of_In, in_concat in Hr as (rs & Hrs & Hr).
  apply list_elem_of_In, list_elem_of_lookup in Hrs as [i Hi].
  destruct (Forall2_lookup_r _ _ _ _ _ H Hi) as (scn & Hscn & Hle & Hcells).
  apply list_elem_of_In, list_elem_of_lookup in Hr as [j Hj].
  destruct (Forall2_lookup_r _ _ _ _ _ Hcells Hj) as (y & Hy & Hcell).
  pose proof (forecast_cell_Ok _ _ _ Hcell) as [Hyear _].
  exists scn. split; [eapply list_elem_of_lookup_2; exact Hscn|].
  apply list_elem_of_lookup_2, elem_of_py_range in Hy.
  rewrite Hyear. split; [lia | exact Hcell].
Qed.

Lemma record_for_every_scenario (scenarios : list Scenario) (records : list ForecastRecord)
    (scn : Scenario) (y : Z) :
  the_records scenarios urban_modifiers = Ok records → scn ∈ scenarios →
  (start_year ≤ y ≤ end_year)%Z →
  ∃ b, b ∈ records ∧ the_cell scn y = Ok b.
Proof.
  intros H Hscn Hy. apply forecast_records_Ok in H as (per_scenario & -> & H).
  apply list_elem_of_lookup in Hscn as [i Hi].
  destruct (Forall2_lookup_l _ _ _ _ _ H Hi) as (rs & Hrs & _ & Hcells).
  assert (Hin : y ∈ py_range start_year (end_year + 1)) by (apply elem_of_py_range; lia).
  apply list_elem_of_lookup in Hin as [j Hj].
  destruct (Forall2_lookup_l _ _ _ _ _ Hcells Hj) as (b & Hb & Hcell).
  exists b. split; [|exact Hcell].
  apply list_elem_of_In, in_concat. exists rs.
  split; apply list_elem_of_In; eapply list_elem_of_lookup_2; eassumption.
Qed.

Lemma forecast_scenarios_Ok (scenarios : list Scenario) (rows : list ForecastRow) :
  the_forecast scenarios urban_modifiers = Ok rows →
  ∃ records, the_records scenarios urban_modifiers = Ok records ∧
             records ≠ [] ∧ rows = join_baseline records.
Proof.
  unfold forecast_scenarios.
  destruct (forecast_records _ _ _ _ _ _ _ _ _ _ _ _ _) as [records|]; cbn; [|discriminate].
  destruct records as [|r records]; [discriminate|].
  intros [= <-]. exists (r :: records). auto.
Qed.
End Forecast.
End forecast_facts.

Module baseline_facts.
#[local] Open Scope float_scope.

Lemma elem_of_join_baseline (records : list ForecastRecord) (row : ForecastRow) :
  row ∈ join_baseline records ↔
  ∃ r, r ∈ records ∧
    let hits := List.filter (λ b, (year b =? year r)%Z)
                  (List.filter (λ b, is_baseline (scenario b)) records) in
    (hits = [] ∧ row = with_change r nan) ∨
    (∃ b, b ∈ hits ∧ row = with_change r (rec_total_co2e b)).
Proof.
  unfold join_baseline. cbv zeta. rewrite list_elem_of_In, in_flat_map. split.
  - intros (r & Hr & Hrow). exists r. split; [apply list_elem_of_In; exact Hr|].
    destruct (List.filter _ _) as [|b hits].
    + left. destruct Hrow as [<-|[]]. auto.
    + right. apply list_elem_of_In, list_elem_of_fmap in Hrow as (b' & -> & Hb'). eauto.
  - intros (r & Hr & Hrow). exists r. split; [apply list_elem_of_In; exact Hr|].
    destruct Hrow as [[-> ->]|(b & Hb & ->)]; [left; reflexivity|].
    destruct (List.filter _ _) as [|b' hits]; [inversion Hb|].
    apply list_elem_of_In. apply (list_elem_of_fmap_2 (λ b, with_change r (rec_total_co2e b))).
    exact Hb.
Qed.

Lemma elem_of_hits (records : list ForecastRecord) (r b : ForecastRecord) :
  b ∈ List.filter (λ b, (year b =? year r)%Z)
        (List.filter (λ b, is_baseline (scenario b)) records) ↔
  b ∈ records ∧ is_baseline (scenario b) = true ∧ year b = year r.
Proof.
  rewrite !list_elem_of_In, !filter_In, Z.eqb_eq, <- list_elem_of_In. tauto.
Qed.

(** Every record shows up in the joined frame. *)
Lemma record_has_row (records : list ForecastRecord) (r : ForecastRecord) :
  r ∈ records → ∃ row, row ∈ join_baseline records ∧ cell row = r.
Proof.
  intros Hr.
  destruct (List.filter (λ b, (year b =? year r)%Z)
              (List.filter (λ b, is_baseline (scenario b)) records)) as [|b hits] eqn:E.
  - exists (with_change r nan). split; [|reflexivity].
    apply elem_of_join_baseline. exists r. split; [exact Hr|]. left. auto.
  - exists (with_change r (rec_total_co2e b)). split; [|reflexivity].
    apply elem_of_join_baseline. exists r. split; [exact Hr|]. right.
    exists b. split; [|reflexivity]. cbv zeta. rewrite E. left.
Qed.

Lemma filter_all {A : Type} (p : A → bool) (l : list A) :
  (∀ x, x ∈ l → p x = true) → List.filter p l = l.
Proof.
  induction l as [|x l IH]; intros H; [reflexivity|].
  cbn [List.filter]. rewrite H by left. f_equal. apply IH.
  intros y Hy. apply H. right. exact Hy.
Qed.

(** With every record in the same year, each is joined to all the
    baseline records, or kept once when there is none. *)
Lemma length_join_baseline_one_year (records : list ForecastRecord) (y : Z) :
  (∀ r, r ∈ records → year r = y) →
  length (join_baseline records)
  = (length records
     * Nat.max 1 (length (List.filter (λ b, is_baseline (scenario b)) records)))%nat.
Proof.
  intros Hy. unfold join_baseline. cbv zeta.
  apply flat_map_constant_length. intros r Hr.
  rewrite filter_all.
  - destruct (List.filter _ records) as [|b hits]; [reflexivity|].
    rewrite length_fmap. cbn [length]. lia.
  - intros b Hb. apply list_elem_of_In, filter_In in Hb as [Hb _].
    apply Z.eqb_eq. rewrite (Hy b), (Hy r); [reflexivity| |];
      apply list_elem_of_In; assumption.
Qed.
End baseline_facts.

(** ** The claims about forecast_scenarios *)

Section ForecastClaims.
#[local] Open Scope float_scope.
Import sort_facts forecast_facts baseline_facts.

Variable sort_indexer : list float → list nat.
Variable series_sum : list float → float.
Variable float_pow : float → Z → result float.
Variables (base_activity_df : list ActivityRow) (factor_df : list FactorRow).
Variables (population_base population_growth gdp_per_capita_base gdp_growth : float).
Variables (start_year end_year : Z).
Variable scenarios : list Scenario.
Variable urban_modifiers : option (list (string * float)).

#[local] Abbreviation the_cell :=
  (forecast_cell sort_indexer series_sum float_pow base_activity_df factor_df
     population_base population_growth gdp_per_capita_base gdp_growth start_year
     urban_modifiers).
#[local] Abbreviation the_forecast :=
  (forecast_scenarios sort_indexer series_sum float_pow base_activity_df factor_df
     population_base population_growth gdp_per_capita_base gdp_growth start_year
     end_year scenarios urban_modifiers).

(** C3. Every row of a forecast belongs to a scenario and a year of the
    range; with t = year − start_year, pop_scale = (1+population_growth)^t
    and gdp_scale = (1+gdp_growth)^t, its population is
    population_base·pop_scale, its gdp is population ×
    gdp_per_capita_base·gdp_scale, and its total is that of the emissions
    computed from the base activity scaled by pop_scale (residential,
    transport, waste) or by the mean of pop_scale and gdp_scale (industry,
    energy), then put through the urban modifiers and the scenario. *)
Theorem C3_forecast_cell_growth (rows : list ForecastRow) (row : ForecastRow) :
  the_forecast = Ok rows → row ∈ rows →
  ∃ scn pop_scale gdp_scale sector_rows,
    scn ∈ scenarios ∧ scenario (cell row) = name scn ∧
    (start_year ≤ year (cell row) ≤ end_year)%Z ∧
    float_pow (1 + population_growth) (year (cell row) - start_year) = Ok pop_scale ∧
    float_pow (1 + gdp_growth) (year (cell row) - start_year) = Ok gdp_scale ∧
    population (cell row) = population_base * pop_scale ∧
    gdp (cell row) = population (cell row) * (gdp_per_capita_base * gdp_scale) ∧
    compute_sector_emissions sort_indexer
      (apply_scenario (cell_activity base_activity_df urban_modifiers pop_scale gdp_scale)
                      factor_df scn).1
      (apply_scenario (cell_activity base_activity_df urban_modifiers pop_scale gdp_scale)
                      factor_df scn).2 None
      = Ok sector_rows ∧
    rec_total_co2e (cell row) = series_sum (co2e <$> sector_rows).
Proof.
  intros Hf Hrow.
  apply forecast_scenarios_Ok in Hf as (records & Hrec & _ & ->).
  apply elem_of_join_baseline in Hrow as (r & Hr & Hrow).
  assert (Hcell : cell row = r) by (destruct Hrow as [[_ ->]|(b & _ & ->)]; reflexivity).
  rewrite Hcell.
  destruct (records_of_scenario _ _ _ _ _ _ _ _ _ _ _ _ _ _ _ Hrec Hr)
    as (scn & Hscn & Hyear & Hc).
  destruct (forecast_cell_Ok _ _ _ _ _ _ _ _ _ _ _ _ _ _ Hc)
    as (_ & Hname & pop_scale & gdp_scale & sector_rows & H).
  exists scn, pop_scale, gdp_scale, sector_rows. tauto.
Qed.

(** C4. In a forecast with a scenario named "baseline" (in any case), a
    row of a baseline scenario has change_vs_baseline_pct = 0.0, and any
    other row has (total_co2e − baseline_total)/baseline_total × 100,
    where baseline_total is the total_co2e of a baseline row of the same
    year. *)
Theorem C4_change_vs_baseline (rows : list ForecastRow) (row : ForecastRow) :
  the_forecast = Ok rows →
  (∃ scn, scn ∈ scenarios ∧ is_baseline (name scn) = true) →
  row ∈ rows →
  (is_baseline (scenario (cell row)) = true → change_vs_baseline_pct row = 0.0) ∧
  (is_baseline (scenario (cell row)) = false →
   ∃ b, b ∈ rows ∧ is_baseline (scenario (cell b)) = true ∧
        year (cell b) = year (cell row) ∧
        baseline_total row = rec_total_co2e (cell b) ∧
        change_vs_baseline_pct row
        = ((rec_total_co2e (cell row) - rec_total_co2e (cell b))
           / rec_total_co2e (cell b)) * 100).
Proof.
  intros Hf (scn & Hscn & Hbase) Hrow.
  apply forecast_scenarios_Ok in Hf as (records & Hrec & _ & ->).
  apply elem_of_join_baseline in Hrow as (r & Hr & Hrow). cbv zeta in Hrow.
  destruct Hrow as [[Hnone _]|(b & Hb & ->)].
  - exfalso.
    destruct (records_of_scenario _ _ _ _ _ _ _ _ _ _ _ _ _ _ _ Hrec Hr)
      as (_ & _ & Hyear & _).
    destruct (record_for_every_scenario _ _ _ _ _ _ _ _ _ _ _ _ _ _ _ (year r)
                Hrec Hscn Hyear) as (b & Hb & Hc).
    destruct (forecast_cell_Ok _ _ _ _ _ _ _ _ _ _ _ _ _ _ Hc) as (Hy & Hn & _).
    assert (Hin : b ∈ List.filter (λ b, (year b =? year r)%Z)
                        (List.filter (λ b, is_baseline (scenario b)) records)).
    { apply elem_of_hits. rewrite Hn. auto. }
    rewrite Hnone in Hin. inversion Hin.
  - apply elem_of_hits in Hb as (Hb & Hbb & Hby).
    unfold with_change. cbn. split; intros Hr'; rewrite Hr'; [reflexivity|].
    destruct (record_has_row records b Hb) as (brow & Hbrow & <-).
    exists brow. auto.
Qed.

Lemma records_one_year (records : list ForecastRecord) :
  start_year = end_year →
  forecast_records sort_indexer series_sum float_pow base_activity_df factor_df
    population_base population_growth gdp_per_capita_base gdp_growth start_year
    end_year scenarios urban_modifiers = Ok records ↔
  Forall2 (λ scn r, the_cell scn start_year = Ok r) scenarios records.
Proof.
  intros <-. rewrite forecast_records_Ok.
  assert (Hrange : py_range start_year (start_year + 1) = [start_year]).
  { unfold py_range. replace (start_year + 1 - start_year)%Z with 1%Z by lia.
    change (Z.to_nat 1) with 1%nat. cbn [seq fmap list_fmap].
    rewrite Z.add_0_r. reflexivity. }
  rewrite Hrange. split.
  - intros (per_scenario & -> & H). induction H as [|scn rs ? ? [_ Hrs] _ IH]; [constructor|].
    inversion Hrs as [|? r ? ? Hc Hnil]; subst. inversion Hnil; subst.
    cbn. constructor; assumption.
  - intros H. exists ((λ r, [r]) <$> records). split.
    + clear H. induction records as [|r records IH]; [reflexivity|].
      cbn. f_equal. exact IH.
    + apply Forall2_fmap_r. eapply Forall2_impl; [exact H|]. cbn.
      intros scn r Hc. split; [lia|]. repeat constructor. exact Hc.
Qed.

Lemma baseline_records_count (records : list ForecastRecord) :
  Forall2 (λ scn r, the_cell scn start_year = Ok r) scenarios records →
  length (List.filter (λ b, is_baseline (scenario b)) records) = baseline_count scenarios.
Proof.
  unfold baseline_count. induction 1 as [|scn r ? ? Hc _ IH]; [reflexivity|].
  destruct (forecast_cell_Ok _ _ _ _ _ _ _ _ _ _ _ _ _ _ Hc) as (_ & Hname & _).
  cbn [List.filter]. rewrite Hname.
  destruct (is_baseline (name scn)); cbn [length]; congruence.
Qed.

(** C8 (as amended). With at least one scenario, [forecast_scenarios]
    raises the year-range [ValueError] when end_year < start_year; when
    start_year = end_year and the cell of every scenario computes, it
    returns len(scenarios) × max(1, k) rows, k being the number of
    scenarios named "baseline": one row per scenario when k ≤ 1. *)
Theorem C8_year_order_and_row_count :
  scenarios ≠ [] →
  ((end_year < start_year)%Z → the_forecast = Raise (ValueError EndYearBeforeStart)) ∧
  (start_year = end_year →
   (∀ scn, scn ∈ scenarios → ∃ r, the_cell scn start_year = Ok r) →
   ∃ rows, the_forecast = Ok rows ∧
           length rows = (length scenarios * Nat.max 1 (baseline_count scenarios))%nat ∧
           ((baseline_count scenarios ≤ 1)%nat → length rows = length scenarios)).
Proof.
  intros Hne. split.
  - intros Hlt. unfold forecast_scenarios, forecast_records.
    destruct scenarios as [|scn rest]; [congruence|].
    cbn [for_each]. unfold year_range.
    destruct (Z.ltb_spec end_year start_year); [reflexivity | lia].
  - intros Heq Hcells.
    assert (Hrecs : ∃ records, Forall2 (λ scn r, the_cell scn start_year = Ok r)
                                       scenarios records).
    { clear Hne. induction scenarios as [|scn rest IH]; [exists []; constructor|].
      destruct (Hcells scn) as [r Hr]; [left|].
      destruct IH as [records Hrecords]; [intros s Hs; apply Hcells; right; exact Hs|].
      exists (r :: records). constructor; assumption. }
    destruct Hrecs as [records Hrecords].
    pose proof (proj2 (records_one_year records Heq) Hrecords) as Hok.
    assert (Hlen : length (join_baseline records)
                   = (length scenarios * Nat.max 1 (baseline_count scenarios))%nat).
    { rewrite (length_join_baseline_one_year records start_year).
      - rewrite (baseline_records_count records Hrecords).
        rewrite (Forall2_length _ _ _ Hrecords). reflexivity.
      - intros r Hr. apply list_elem_of_lookup in Hr as [i Hi].
        destruct (Forall2_lookup_r _ _ _ _ _ Hrecords Hi) as (scn & _ & Hc).
        destruct (forecast_cell_Ok _ _ _ _ _ _ _ _ _ _ _ _ _ _ Hc) as (Hy & _). exact Hy. }
    exists (join_baseline records). unfold forecast_scenarios. rewrite Hok.
    cbn [mbind result_bind].
    destruct records as [|r records].
    + inversion Hrecords; subst. congruence.
    + split; [reflexivity|]. split; [exact Hlen|]. intros Hk. rewrite Hlen. lia.
Qed.

(** C10. With no scenario, [forecast_scenarios] returns nothing at all:
    whatever the other arguments are it raises the [KeyError] of the
    lookup of the scenario column; so no frame is returned, and when
    end_year < start_year the year-range error is not the one raised. *)
Theorem C10_no_scenario_raises_key_error :
  forecast_scenarios sort_indexer series_sum float_pow base_activity_df factor_df
    population_base population_growth gdp_per_capita_base gdp_growth start_year
    end_year [] urban_modifiers = Raise (KeyError "scenario") ∧
  (∀ rows,
     forecast_scenarios sort_indexer series_sum float_pow base_activity_df factor_df
       population_base population_growth gdp_per_capita_base gdp_growth start_year
       end_year [] urban_modifiers ≠ Ok rows) ∧
  forecast_scenarios sort_indexer series_sum float_pow base_activity_df factor_df
    population_base population_growth gdp_per_capita_base gdp_growth start_year
    end_year [] urban_modifiers ≠ Raise (ValueError EndYearBeforeStart).
Proof.
  repeat split; cbn; discriminate.
Qed.
End ForecastClaims.

Section ForecastWitnesses.
#[local] Open Scope float_scope.

Lemma C3_forecast_cell_growth_witness :
  forecast_scenarios stable_argsort sum_skipna pow_repeated base_activity base_factors
    1000.0 1.0 100.0 0.5 2025 2026 [no_change "Baseline"; mitigation_20] None
  = Ok growth_forecast ∧
  cell_activity base_activity None 2.0 1.5
  = [ {| sector := "residential"; activity := 2000.0 |};
      {| sector := "transport"; activity := 4000.0 |};
      {| sector := "industry"; activity := 875.0 |};
      {| sector := "waste"; activity := 400.0 |};
      {| sector := "energy"; activity := 1400.0 |} ] ∧
  (∃ scn pop_scale gdp_scale sector_rows,
     scn ∈ [no_change "Baseline"; mitigation_20] ∧
     "Baseline" = name scn ∧
     (2025 ≤ 2026 ≤ 2026)%Z ∧
     pow_repeated (1 + 1.0) (2026 - 2025) = Ok pop_scale ∧
     pow_repeated (1 + 0.5) (2026 - 2025) = Ok gdp_scale ∧
     2000.0 = 1000.0 * pop_scale ∧
     300000.0 = 2000.0 * (100.0 * gdp_scale) ∧
     compute_sector_emissions stable_argsort
       (apply_scenario (cell_activity base_activity None pop_scale gdp_scale)
                       base_factors scn).1
       (apply_scenario (cell_activity base_activity None pop_scale gdp_scale)
                       base_factors scn).2 None
       = Ok sector_rows ∧
     8675.0 = sum_skipna (co2e <$> sector_rows)) ∧
  forecast_scenarios stable_argsort sum_skipna pow_repeated base_activity base_factors
    1000.0 1.0 100.0 0.5 2025 2026 [no_change "Baseline"; mitigation_20]
    (Some halved_transport)
  = Ok urban_growth_forecast ∧
  cell_activity base_activity (Some halved_transport) 2.0 1.5
  = [ {| sector := "residential"; activity := 1500.0 |};
      {| sector := "transport"; activity := 2000.0 |};
      {| sector := "industry"; activity := 875.0 |};
      {| sector := "waste"; activity := 400.0 |};
      {| sector := "energy"; activity := 1050.0 |} ] ∧
  (∃ scn pop_scale gdp_scale sector_rows,
     scn ∈ [no_change "Baseline"; mitigation_20] ∧
     "Mitigation" = name scn ∧
     (2025 ≤ 2026 ≤ 2026)%Z ∧
     pow_repeated (1 + 1.0) (2026 - 2025) = Ok pop_scale ∧
     pow_repeated (1 + 0.5) (2026 - 2025) = Ok gdp_scale ∧
     2000.0 = 1000.0 * pop_scale ∧
     300000.0 = 2000.0 * (100.0 * gdp_scale) ∧
     compute_sector_emissions stable_argsort
       (apply_scenario
          (cell_activity base_activity (Some halved_transport) pop_scale gdp_scale)
          base_factors scn).1
       (apply_scenario
          (cell_activity base_activity (Some halved_transport) pop_scale gdp_scale)
          base_factors scn).2 None
       = Ok sector_rows ∧
     5315.0 = sum_skipna (co2e <$> sector_rows)).
Proof.
  split; [vm_compute; reflexivity|].
  split; [vm_compute; reflexivity|].
  split.
  { apply (C3_forecast_cell_growth stable_argsort sum_skipna pow_repeated
             base_activity base_factors 1000.0 1.0 100.0 0.5 2025 2026
             [no_change "Baseline"; mitigation_20] None
             growth_forecast
             (growth_row 2026 "Baseline" 8675.0 4.3375 0.028916666666666667
                         2000.0 300000.0 8675.0 0.0)).
    - vm_compute. reflexivity.
    - repeat constructor. }
  split; [vm_compute; reflexivity|].
  split; [vm_compute; reflexivity|].
  apply (C3_forecast_cell_growth stable_argsort sum_skipna pow_repeated
           base_activity base_factors 1000.0 1.0 100.0 0.5 2025 2026
           [no_change "Baseline"; mitigation_20] (Some halved_transport)
           urban_growth_forecast
           (growth_row 2026 "Mitigation" 5315.0 2.6575 0.017716666666666665
                       2000.0 300000.0 5825.0 (-8.755364806866952))).
  - vm_compute. reflexivity.
  - repeat constructor.
Defined.

Lemma C4_change_vs_baseline_witness :
  (is_baseline "Mitigation" = true → -8.0 = 0.0) ∧
  (is_baseline "Mitigation" = false →
   ∃ b, b ∈ test_forecast ∧ is_baseline (scenario (cell b)) = true ∧
        year (cell b) = 2026%Z ∧
        4500.0 = rec_total_co2e (cell b) ∧
        -8.0 = ((4140.0 - rec_total_co2e (cell b)) / rec_total_co2e (cell b)) * 100).
Proof.
  apply (C4_change_vs_baseline stable_argsort sum_skipna pow_repeated
           base_activity base_factors 1000.0 0.0 100.0 0.0 2025 2026
           [no_change "Baseline"; mitigation_20] None
           test_forecast (forecast_row 2026 "Mitigation" 4140.0 (-8.0))).
  - vm_compute. reflexivity.
  - exists (no_change "Baseline"). split; [repeat constructor | vm_compute; reflexivity].
  - repeat constructor.
Defined.

Lemma C8_year_order_and_row_count_witness :
  (forecast_scenarios stable_argsort sum_skipna pow_repeated base_activity base_factors
     1000.0 0.0 100.0 0.0 2026 2025 [no_change "Baseline"; mitigation_20] None
   = Raise (ValueError EndYearBeforeStart)) ∧
  (∃ rows,
     forecast_scenarios stable_argsort sum_skipna pow_repeated base_activity base_factors
       1000.0 0.0 100.0 0.0 2025 2025 [no_change "Baseline"; mitigation_20] None
     = Ok rows ∧
     length rows = 2%nat).
Proof.
  split.
  - apply (C8_year_order_and_row_count stable_argsort sum_skipna pow_repeated
             base_activity base_factors 1000.0 0.0 100.0 0.0 2026 2025
             [no_change "Baseline"; mitigation_20] None); [discriminate | lia].
  - destruct (C8_year_order_and_row_count stable_argsort sum_skipna pow_repeated
                base_activity base_factors 1000.0 0.0 100.0 0.0 2025 2025
                [no_change "Baseline"; mitigation_20] None) as [_ H]; [discriminate|].
    destruct H as (rows & Hrows & _ & Hlen); [reflexivity | |].
    + intros scn Hscn. each_row Hscn; eexists; vm_compute; reflexivity.
    + exists rows. split; [exact Hrows|]. apply Hlen. vm_compute. lia.
Defined.

(** C8 as stated fails in three ways: with no scenario the error is the
    [KeyError] of the baseline step, whether end_year < start_year or
    not; two scenarios named "baseline" double the rows; a sector without
    factors makes the call raise. *)
Lemma C8_not_for_every_input :
  forecast_scenarios stable_argsort sum_skipna pow_repeated base_activity base_factors
    1000.0 0.0 100.0 0.0 2026 2025 [] None = Raise (KeyError "scenario") ∧
  forecast_scenarios stable_argsort sum_skipna pow_repeated base_activity base_factors
    1000.0 0.0 100.0 0.0 2025 2025 [] None = Raise (KeyError "scenario") ∧
  length <$> forecast_scenarios stable_argsort sum_skipna pow_repeated base_activity
    base_factors 1000.0 0.0 100.0 0.0 2025 2025
    [no_change "Baseline"; no_change "baseline"] None = Ok 4%nat ∧
  forecast_scenarios stable_argsort sum_skipna pow_repeated
    (base_activity ++ [aviation_50]) base_factors
    1000.0 0.0 100.0 0.0 2025 2025 [no_change "Baseline"; mitigation_20] None
  = Raise (ValueError (MissingEmissionFactors ["aviation"])).
Proof.
  repeat split; vm_compute; reflexivity.
Qed.
End ForecastWitnesses.

(** * Further properties of the code *)

(** ** clamp, Scenario.normalized, year_range, ensure_positive_fields *)

Module utils_facts.
#[local] Open Scope float_scope.
Import float_facts.

Lemma is_nan_true (v : float) : is_nan v = true → Prim2SF v = S754_nan.
Proof.
  intros H. destruct (Prim2SF v) eqn:E; try reflexivity;
    (assert (Hf : is_nan v = false) by (apply is_nan_spec; rewrite E; discriminate);
     congruence).
Qed.

Lemma ltb_nan_l (v y : float) : is_nan v = true → (v <? y) = false.
Proof.
  intros H. rewrite ltb_spec, (is_nan_true v H). reflexivity.
Qed.

Lemma clamp01_idempotent (x : float) : clamp01 (clamp01 x) = clamp01 x.
Proof.
  unfold clamp01, clamp, py_max, py_min.
  destruct (x <? 1.0) eqn:E1.
  - destruct (0.0 <? x) eqn:E2.
    + rewrite E1, E2. reflexivity.
    + vm_compute. reflexivity.
  - vm_compute. reflexivity.
Qed.

Lemma clamp01_between (x : float) :
  (0.0 <=? clamp01 x) = true ∧ (clamp01 x <=? 1.0) = true.
Proof. apply clamp_between. reflexivity. Qed.

Lemma check_field_app (values : gmap string (option float)) (errors : list string)
    (field : string) :
  check_field values errors field = (errors ++ field_errors values field)%list.
Proof.
  unfold field_errors, check_field. destruct (dict_get values field) as [val|].
  - destruct (val <? 0); [reflexivity | rewrite app_nil_r; reflexivity].
  - reflexivity.
Qed.

Lemma ensure_positive_fields_flat (values : gmap string (option float))
    (fields : list string) :
  ensure_positive_fields values fields = flat_map (field_errors values) fields.
Proof.
  unfold ensure_positive_fields.
  assert (H : ∀ errors, fold_left (check_field values) fields errors
                        = (errors ++ flat_map (field_errors values) fields)%list).
  { induction fields as [|field fields IH]; intros errors; cbn [fold_left flat_map].
    - rewrite app_nil_r. reflexivity.
    - rewrite IH, check_field_app, <- app_assoc. reflexivity. }
  apply (H []).
Qed.

Lemma field_errors_length (values : gmap string (option float)) (field : string) :
  (length (field_errors values field) ≤ 1)%nat.
Proof.
  unfold field_errors, check_field. destruct (dict_get values field) as [val|]; cbn; [|lia].
  destruct (val <? 0); cbn; lia.
Qed.

Lemma field_errors_nil (values : gmap string (option float)) (field : string) :
  field_errors values field = [] ↔
  ∃ val, dict_get values field = Some val ∧ (val <? 0) = false.
Proof.
  unfold field_errors, check_field. destruct (dict_get values field) as [val|]; cbn.
  - destruct (val <? 0) eqn:E; cbn.
    + split; [discriminate|]. intros (v & [= <-] & Hv). congruence.
    + split; [eauto | reflexivity].
  - split; [discriminate|]. intros (v & Hv & _). discriminate.
Qed.

Lemma normalized_idempotent (s : Scenario) : normalized (normalized s) = normalized s.
Proof.
  unfold normalized. cbn. rewrite !clamp01_idempotent. reflexivity.
Qed.

Lemma flat_map_nil {A B : Type} (f : A → list B) (l : list A) :
  flat_map f l = [] ↔ ∀ x, x ∈ l → f x = [].
Proof.
  induction l as [|x l IH]; cbn [flat_map].
  - split; [intros _ y Hy; inversion Hy | reflexivity].
  - split.
    + intros H. apply app_eq_nil in H as [Hx Hl]. intros y Hy.
      apply elem_of_cons in Hy as [->|Hy]; [exact Hx | apply IH; assumption].
    + intros H. rewrite (H x) by left. cbn. apply IH. intros y Hy. apply H. right. exact Hy.
Qed.

Lemma flat_map_length_le {A B : Type} (f : A → list B) (l : list A) :
  (∀ x, length (f x) ≤ 1)%nat → (length (flat_map f l) ≤ length l)%nat.
Proof.
  intros H. induction l as [|x l IH]; cbn [flat_map length]; [lia|].
  rewrite length_app. specialize (H x). lia.
Qed.
End utils_facts.

Section UtilsProperties.
#[local] Open Scope float_scope.
Import float_facts utils_facts scenario_facts.

(** X1. [clamp] sends NaN to its upper bound, so [Scenario.normalized]
    turns a NaN intensity into 1.0. *)
Theorem X1_clamp_of_nan_is_maximum (v : float) :
  is_nan v = true →
  (∀ minimum maximum, (minimum <? maximum) = true → clamp v minimum maximum = maximum) ∧
  clamp01 v = 1.0 ∧
  (∀ s, energy_efficiency s = v → energy_efficiency (normalized s) = 1.0).
Proof.
  intros Hnan.
  assert (Hclamp : ∀ minimum maximum, (minimum <? maximum) = true →
                   clamp v minimum maximum = maximum).
  { intros minimum maximum Hlt. unfold clamp, py_max, py_min.
    rewrite (ltb_nan_l v maximum Hnan), Hlt. reflexivity. }
  split; [exact Hclamp|].
  assert (H01 : clamp01 v = 1.0) by (apply Hclamp; reflexivity).
  split; [exact H01|]. intros s <-. exact H01.
Qed.

Lemma X1_clamp_of_nan_is_maximum_witness :
  (∀ minimum maximum, (minimum <? maximum) = true → clamp nan minimum maximum = maximum) ∧
  clamp01 nan = 1.0 ∧
  (∀ s, energy_efficiency s = nan → energy_efficiency (normalized s) = 1.0).
Proof.
  apply (X1_clamp_of_nan_is_maximum nan). reflexivity.
Defined.

(** X2. [Scenario.normalized] is idempotent, keeps the name, and leaves
    each of the five intensities between 0.0 and 1.0, whatever they were. *)
Theorem X2_normalized_idempotent_and_bounded (s : Scenario) :
  normalized (normalized s) = normalized s ∧
  name (normalized s) = name s ∧
  Forall (λ x, (0.0 <=? x) = true ∧ (x <=? 1.0) = true)
    [ energy_efficiency (normalized s); renewable_share (normalized s);
      modal_shift (normalized s); industry_efficiency (normalized s);
      waste_reduction (normalized s) ].
Proof.
  split; [apply normalized_idempotent|]. split; [reflexivity|].
  repeat constructor; apply clamp01_between.
Qed.

(** X3. [apply_scenario] gives the same tables for a scenario and for its
    normalized form, and keeps the sectors of both tables, row by row. *)
Theorem X3_apply_scenario_of_normalized (activity_df : list ActivityRow)
    (factor_df : list FactorRow) (s : Scenario) :
  apply_scenario activity_df factor_df (normalized s) = apply_scenario activity_df factor_df s ∧
  sector <$> (apply_scenario activity_df factor_df s).1 = sector <$> activity_df ∧
  f_sector <$> (apply_scenario activity_df factor_df s).2 = f_sector <$> factor_df.
Proof.
  split; [unfold apply_scenario; rewrite normalized_idempotent; reflexivity|].
  unfold apply_scenario. cbv zeta. cbn [fst snd]. split.
  - rewrite adjusted_activity_rows, <- list_fmap_compose.
    apply list_fmap_ext. intros _ r _. cbn.
    destruct (activity_multiplier _ _); reflexivity.
  - destruct (existsb _ factor_df); [|reflexivity].
    rewrite <- list_fmap_compose. apply list_fmap_ext. intros _ f _. cbn.
    destruct (String.eqb _ _); reflexivity.
Qed.

(** X4. [year_range] raises when end_year < start_year and otherwise
    returns the years start_year, start_year + 1, ..., end_year, each
    once, in ascending order. *)
Theorem X4_year_range_inclusive (start_year end_year : Z) :
  ((end_year < start_year)%Z →
   year_range start_year end_year = Raise (ValueError EndYearBeforeStart)) ∧
  ((start_year ≤ end_year)%Z →
   ∃ years, year_range start_year end_year = Ok years ∧
     length years = Z.to_nat (end_year - start_year + 1) ∧
     (∀ y, y ∈ years ↔ (start_year ≤ y ≤ end_year)%Z) ∧
     (∀ i y, years !! i = Some y → y = (start_year + Z.of_nat i)%Z)).
Proof.
  unfold year_range. split; intros H.
  - destruct (Z.ltb_spec end_year start_year); [reflexivity | lia].
  - destruct (Z.ltb_spec end_year start_year); [lia|].
    eexists. split; [reflexivity|]. unfold py_range. split; [|split].
    + rewrite length_fmap, length_seq. f_equal. lia.
    + intros y. rewrite list_elem_of_fmap. split.
      * intros (i & -> & Hi). apply elem_of_seq in Hi. lia.
      * intros Hy. exists (Z.to_nat (y - start_year)). split; [lia|].
        apply elem_of_seq. lia.
    + intros i y Hi. rewrite list_lookup_fmap in Hi.
      destruct (seq 0 _ !! i) as [j|] eqn:Hj; [|discriminate].
      apply lookup_seq in Hj as [-> _]. injection Hi as <-. reflexivity.
Qed.

(** X5. [ensure_positive_fields] returns no error exactly when every
    listed field is bound to a number that is not below zero (0.0 and NaN
    pass); it reports at most one error per field, and a missing or
    [None] field is reported as missing. *)
Theorem X5_ensure_positive_fields_errors (values : gmap string (option float))
    (fields : list string) :
  (ensure_positive_fields values fields = [] ↔
   ∀ field, field ∈ fields →
     ∃ val, dict_get values field = Some val ∧ (val <? 0) = false) ∧
  (length (ensure_positive_fields values fields) ≤ length fields)%nat ∧
  (∀ field, field ∈ fields → dict_get values field = None →
     ("Missing value: " +:+ field) ∈ ensure_positive_fields values fields).
Proof.
  rewrite ensure_positive_fields_flat. split; [|split].
  - rewrite flat_map_nil. split; intros H field Hf.
    + apply field_errors_nil, H, Hf.
    + apply field_errors_nil, H, Hf.
  - apply flat_map_length_le. intros field. apply field_errors_length.
  - intros field Hf Hnone. apply list_elem_of_In, in_flat_map.
    exists field. split; [apply list_elem_of_In; exact Hf|].
    unfold field_errors, check_field. rewrite Hnone. left. reflexivity.
Qed.
End UtilsProperties.

(** ** More on compute_sector_emissions and the urban modifiers *)

Module engine_more.
#[local] Open Scope float_scope.
Import float_facts sort_facts engine_facts scenario_facts.

Lemma existsb_true_elem {A : Type} (p : A → bool) (l : list A) :
  existsb p l = true ↔ ∃ x, x ∈ l ∧ p x = true.
Proof.
  rewrite existsb_exists. split; intros (x & Hx & Hp); exists x;
    (split; [apply list_elem_of_In; exact Hx | exact Hp]).
Qed.

(** The dict of modifiers acts row by row when its keys are distinct. *)
Lemma apply_urban_form_modifiers_rows (modifiers : list (string * float))
    (df : list ActivityRow) :
  NoDup modifiers.*1 →
  apply_urban_form_modifiers df modifiers
  = (λ r, with_multiplier ((list_to_map modifiers : gmap string float) !! sector r) r) <$> df.
Proof.
  unfold apply_urban_form_modifiers. revert df.
  induction modifiers as [|[key m] modifiers IH]; intros df Hnd.
  - cbn [fold_left]. symmetry. apply fmap_fixed. intros r _.
    cbn. rewrite lookup_empty. reflexivity.
  - cbn [fmap list_fmap fst] in Hnd. apply NoDup_cons in Hnd as [Hkey Hnd].
    cbn [fold_left]. rewrite (IH _ Hnd), scale_sector_always. unfold scale_where.
    rewrite <- list_fmap_compose. apply list_fmap_ext. intros _ r _.
    cbn [compose fst snd list_to_map foldr uncurry].
    destruct (String.eqb_spec (sector r) key) as [<-|Hne].
    + rewrite lookup_insert_eq. cbn.
      rewrite (not_elem_of_list_to_map_1 _ _ Hkey). reflexivity.
    + rewrite lookup_insert_ne by congruence. reflexivity.
Qed.
End engine_more.

Section EngineProperties.
#[local] Open Scope float_scope.
Import float_facts sort_facts engine_facts scenario_facts engine_more.

(** X6. When [compute_sector_emissions] returns, nothing was left out:
    every activity row has at least one factor row, no factor joined to
    it holds a NaN, and the result has one row per joined pair. *)
Theorem X6_result_means_complete_join (sort_indexer : list float → list nat)
    (activity_df : list ActivityRow) (factor_df : list FactorRow)
    (gwp : option (gmap string float)) (rows : list EmissionRow) :
  permutes sort_indexer →
  compute_sector_emissions sort_indexer activity_df factor_df gwp = Ok rows →
  (∀ a, a ∈ activity_df →
     matches a factor_df ≠ [] ∧
     ∀ f, f ∈ factor_df → f_sector f = sector a → factor_isna f = false) ∧
  length rows = length (merge_left activity_df factor_df) ∧
  e_sector <$> rows ≡ₚ m_sector <$> merge_left activity_df factor_df.
Proof.
  intros Hperm. rewrite compute_sector_emissions_unfold. cbv zeta.
  destruct (existsb any_factor_isna _) eqn:E; [discriminate|].
  intros [= <-].
  assert (Hp := sort_values_desc_perm sort_indexer co2e
    (emission_row (effective_gwp gwp "CH4" 28) (effective_gwp gwp "N2O" 265)
       <$> merge_left activity_df factor_df) Hperm).
  split; [|split].
  - intros a Ha. split.
    + intros Hnil.
      assert (Hin : unmatched a ∈ merge_left activity_df factor_df).
      { apply elem_of_merge_left. exists a. auto. }
      pose proof (existsb_none _ _ _ E Hin) as Hna. discriminate.
    + intros f Hf Hs.
      assert (Hin : joined a f ∈ merge_left activity_df factor_df).
      { apply elem_of_merge_left. exists a. split; [exact Ha|]. right.
        exists f. split; [apply matches_spec; auto | reflexivity]. }
      exact (existsb_none _ _ _ E Hin).
  - rewrite Hp, length_fmap. reflexivity.
  - rewrite Hp, <- list_fmap_compose. reflexivity.
Qed.

Lemma X6_result_means_complete_join_witness :
  (∀ a, a ∈ base_activity →
     matches a base_factors ≠ [] ∧
     ∀ f, f ∈ base_factors → f_sector f = sector a → factor_isna f = false) ∧
  length [ emission_of "transport" 2000.0; emission_of "residential" 1000.0;
           emission_of "energy" 800.0; emission_of "industry" 500.0;
           emission_of "waste" 200.0 ]
  = length (merge_left base_activity base_factors) ∧
  e_sector <$> [ emission_of "transport" 2000.0; emission_of "residential" 1000.0;
                 emission_of "energy" 800.0; emission_of "industry" 500.0;
                 emission_of "waste" 200.0 ]
  ≡ₚ m_sector <$> merge_left base_activity base_factors.
Proof.
  apply (X6_result_means_complete_join stable_argsort base_activity base_factors None _
           stable_argsort_permutes).
  vm_compute. reflexivity.
Defined.

(** X7. The error list is read off the CO2 column only: when every
    activity row has a factor row and no CO2 factor is NaN, but a joined
    factor row has a NaN CH4 or N2O factor, the call raises the
    missing-factors error with an empty list of sectors. *)
Theorem X7_nan_in_other_factor_raises_with_empty_list
    (sort_indexer : list float → list nat)
    (activity_df : list ActivityRow) (factor_df : list FactorRow)
    (gwp : option (gmap string float)) :
  (∀ a, a ∈ activity_df → ∃ f, f ∈ factor_df ∧ f_sector f = sector a) →
  (∀ f, f ∈ factor_df → is_nan (co2_factor f) = false) →
  (∃ a f, a ∈ activity_df ∧ f ∈ factor_df ∧ f_sector f = sector a ∧
          factor_isna f = true) →
  compute_sector_emissions sort_indexer activity_df factor_df gwp
  = Raise (ValueError (MissingEmissionFactors [])).
Proof.
  intros Hall Hco2 (a & f & Ha & Hf & Hs & Hna).
  rewrite compute_sector_emissions_unfold. cbv zeta.
  replace (existsb any_factor_isna (merge_left activity_df factor_df)) with true.
  - rewrite (missing_sectors_exact activity_df factor_df Hco2).
    rewrite filter_none; [reflexivity|].
    intros b Hb. apply negb_false_iff.
    destruct (Hall b Hb) as (g & Hg & Hgs).
    apply existsb_true_elem. exists g. split; [exact Hg|]. apply String.eqb_eq. exact Hgs.
  - symmetry. apply existsb_true_elem. exists (joined a f). split; [|exact Hna].
    apply elem_of_merge_left. exists a. split; [exact Ha|]. right.
    exists f. split; [apply matches_spec; auto | reflexivity].
Qed.

Lemma X7_nan_in_other_factor_raises_with_empty_list_witness :
  compute_sector_emissions stable_argsort [residential_100]
    [{| f_sector := "residential"; co2_factor := 1.0; ch4_factor := nan; n2o_factor := 0.0 |}]
    None
  = Raise (ValueError (MissingEmissionFactors [])).
Proof.
  apply (X7_nan_in_other_factor_raises_with_empty_list stable_argsort [residential_100]
           [{| f_sector := "residential"; co2_factor := 1.0; ch4_factor := nan;
               n2o_factor := 0.0 |}] None).
  - intros a Ha. each_row Ha. eexists. split; [left | reflexivity].
  - intros f Hf. each_row Hf. reflexivity.
  - eexists _, _. split; [left|]. split; [left|]. split; reflexivity.
Defined.

(** X8. With distinct keys, [apply_urban_form_modifiers] multiplies the
    activity of every row whose sector is a key by that key's modifier
    and leaves the other rows alone, whatever the order of the keys; the
    sectors and the number of rows are kept. *)
Theorem X8_urban_modifiers_row_by_row (modifiers : list (string * float))
    (df : list ActivityRow) :
  NoDup modifiers.*1 →
  apply_urban_form_modifiers df modifiers
  = (λ r, with_multiplier ((list_to_map modifiers : gmap string float) !! sector r) r) <$> df ∧
  sector <$> apply_urban_form_modifiers df modifiers = sector <$> df ∧
  (∀ other, other ≡ₚ modifiers →
     apply_urban_form_modifiers df other = apply_urban_form_modifiers df modifiers).
Proof.
  intros Hnd. pose proof (apply_urban_form_modifiers_rows modifiers df Hnd) as Hrows.
  split; [exact Hrows|]. split.
  - rewrite Hrows, <- list_fmap_compose. apply list_fmap_ext. intros _ r _. cbn.
    destruct (_ !! _); reflexivity.
  - intros other Hperm. rewrite Hrows, apply_urban_form_modifiers_rows.
    + rewrite (list_to_map_proper (M := gmap string) other modifiers); [reflexivity| |exact Hperm].
      rewrite Hperm. exact Hnd.
    + rewrite Hperm. exact Hnd.
Qed.

Lemma X8_urban_modifiers_row_by_row_witness :
  apply_urban_form_modifiers
    [ {| sector := "transport"; activity := 100.0 |};
      {| sector := "residential"; activity := 200.0 |} ]
    [("transport", 0.8); ("residential", 0.9)]
  = [ {| sector := "transport"; activity := 80.0 |};
      {| sector := "residential"; activity := 180.0 |} ].
Proof.
  destruct (X8_urban_modifiers_row_by_row [("transport", 0.8); ("residential", 0.9)]
              [ {| sector := "transport"; activity := 100.0 |};
                {| sector := "residential"; activity := 200.0 |} ]) as [Hrows _].
  - by_evaluation.
  - rewrite Hrows. vm_compute. reflexivity.
Defined.
End EngineProperties.

Section UrbanComposition.
#[local] Open Scope float_scope.
Import float_facts urban_facts scenario_facts engine_more.

(** X9. The modifiers [calculate_urban_modifiers] returns, applied with
    [apply_urban_form_modifiers], scale transport rows by a factor in
    [0.45, 1.10] and residential and energy rows by one factor in
    [0.80, 1.05], and leave every other row as it is. *)
Theorem X9_computed_modifiers_applied (log1p : float → result float)
    (params : UrbanFormParameters) (df : list ActivityRow) :
  log1p_defined log1p →
  ∃ modifiers transport building,
    calculate_urban_modifiers log1p params = Ok modifiers ∧
    (0.45 <=? transport) = true ∧ (transport <=? 1.10) = true ∧
    (0.80 <=? building) = true ∧ (building <=? 1.05) = true ∧
    apply_urban_form_modifiers df modifiers
    = (λ r, with_multiplier (urban_multiplier transport building (sector r)) r) <$> df.
Proof.
  intros Hdef.
  destruct (Hdef _ (log1p_argument_in_domain (density_per_km2 params))) as [l Hl].
  unfold calculate_urban_modifiers. rewrite Hl. cbn [mbind result_bind].
  eexists _, _, _. split; [reflexivity|].
  pose proof (clamp_between
    (clamp (1.0 - 0.08 * l) 0.65 1.05
     * clamp (1.0 - 0.2 * compactness_index params) 0.75 1.05
     * clamp (1.0 - 0.25 * transit_access_index params) 0.7 1.05) 0.45 1.10 eq_refl)
    as [Ht1 Ht2].
  pose proof (clamp_between (1.0 - 0.1 * compactness_index params) 0.80 1.05 eq_refl)
    as [Hb1 Hb2].
  repeat (split; [eassumption|]).
  rewrite apply_urban_form_modifiers_rows by by_evaluation.
  apply list_fmap_ext. intros _ r _. f_equal.
  unfold urban_multiplier. cbn [list_to_map foldr uncurry fst snd].
  destruct (String.eqb_spec (sector r) "transport") as [->|Ht].
  - rewrite lookup_insert_eq. reflexivity.
  - rewrite lookup_insert_ne by congruence.
    destruct (String.eqb_spec (sector r) "residential") as [->|Hr]; cbn [orb].
    + rewrite lookup_insert_eq. reflexivity.
    + rewrite lookup_insert_ne by congruence.
      destruct (String.eqb_spec (sector r) "energy") as [->|He].
      * rewrite lookup_insert_eq. reflexivity.
      * rewrite lookup_insert_ne by congruence. apply lookup_empty.
Qed.

Lemma X9_computed_modifiers_applied_witness :
  ∃ modifiers transport building,
    calculate_urban_modifiers log1p_series urban_example = Ok modifiers ∧
    (0.45 <=? transport) = true ∧ (transport <=? 1.10) = true ∧
    (0.80 <=? building) = true ∧ (building <=? 1.05) = true ∧
    apply_urban_form_modifiers base_activity modifiers
    = (λ r, with_multiplier (urban_multiplier transport building (sector r)) r)
        <$> base_activity.
Proof.
  apply (X9_computed_modifiers_applied log1p_series urban_example base_activity).
  intros x Hx. unfold log1p_series. rewrite Hx. eexists. reflexivity.
Defined.
End UrbanComposition.

(** ** More on forecast_scenarios *)

Module forecast_more.
#[local] Open Scope float_scope.
Import float_facts utils_facts forecast_facts baseline_facts engine_facts.

Lemma NoDup_py_range (lo hi : Z) : NoDup (py_range lo hi).
Proof.
  unfold py_range. apply NoDup_fmap_2; [|apply NoDup_seq].
  intros i j H. lia.
Qed.

Lemma length_py_range (lo hi : Z) : length (py_range lo hi) = Z.to_nat (hi - lo).
Proof. unfold py_range. rewrite length_fmap, length_seq. reflexivity. Qed.

(** Among records whose years are all different, one has a given year. *)
Lemma one_record_per_year (rs : list ForecastRecord) (y : Z) :
  NoDup (year <$> rs) → y ∈ year <$> rs →
  length (List.filter (λ b, (year b =? y)%Z) rs) = 1%nat.
Proof.
  induction rs as [|r rs IH]; intros Hnd Hy; [inversion Hy|].
  cbn [fmap list_fmap] in Hnd, Hy. apply NoDup_cons in Hnd as [Hr Hnd].
  cbn [List.filter]. destruct (Z.eqb_spec (year r) y) as [Heq|Hne].
  - cbn [length]. f_equal. rewrite filter_none; [reflexivity|].
    intros b Hb. apply Z.eqb_neq. intros Hby. apply Hr. rewrite Heq, <- Hby.
    apply list_elem_of_fmap_2. exact Hb.
  - apply IH; [exact Hnd|]. apply elem_of_cons in Hy as [Hy|Hy]; [congruence | exact Hy].
Qed.

Lemma nan_propagates (total : float) :
  is_nan (((total - nan) / nan) * 100) = true.
Proof.
  assert (H : Prim2SF (((total - nan) / nan) * 100) = S754_nan).
  { rewrite mul_spec, div_spec, sub_spec.
    replace (Prim2SF nan) with S754_nan by reflexivity.
    destruct (Prim2SF total); reflexivity. }
  destruct (is_nan _) eqn:E; [reflexivity|].
  apply is_nan_spec in E. congruence.
Qed.

Section Records.
Variable sort_indexer : list float → list nat.
Variable series_sum : list float → float.
Variable float_pow : float → Z → result float.
Variables (base_activity_df : list ActivityRow) (factor_df : list FactorRow).
Variables (population_base population_growth gdp_per_capita_base gdp_growth : float).
Variables (start_year end_year : Z).
Variable urban_modifiers : option (list (string * float)).

#[local] Abbreviation the_cell :=
  (forecast_cell sort_indexer series_sum float_pow base_activity_df factor_df
     population_base population_growth gdp_per_capita_base gdp_growth start_year
     urban_modifiers).
#[local] Abbreviation years := (py_range start_year (end_year + 1)).

#[local] Abbreviation scenario_records := (records_of the_cell years).

Lemma scenario_records_years (scn : Scenario) (rs : list ForecastRecord) :
  scenario_records scn rs →
  year <$> rs = years ∧ Forall (λ r, scenario r = name scn) rs.
Proof.
  unfold records_of. induction 1 as [|y r ys rs Hc _ [IHy IHs]].
  - split; [reflexivity | constructor].
  - destruct (forecast_cell_Ok _ _ _ _ _ _ _ _ _ _ _ _ _ _ Hc) as (Hy & Hn & _).
    split; [cbn; congruence | constructor; assumption].
Qed.

Lemma baseline_records_of_scenario (scn : Scenario) (rs : list ForecastRecord) :
  Forall (λ r, scenario r = name scn) rs →
  List.filter (λ b, is_baseline (scenario b)) rs
  = if is_baseline (name scn) then rs else [].
Proof.
  intros H. destruct (is_baseline (name scn)) eqn:E.
  - apply filter_all. intros r Hr. rewrite Forall_forall in H. rewrite (H r Hr). exact E.
  - apply filter_none. intros r Hr. rewrite Forall_forall in H. rewrite (H r Hr). exact E.
Qed.

(** Every year of the range has one record per baseline scenario. *)
Lemma baseline_hits (scenarios : list Scenario) (per_scenario : list (list ForecastRecord))
    (y : Z) :
  Forall2 scenario_records scenarios per_scenario → y ∈ years →
  length (List.filter (λ b, (year b =? y)%Z)
            (List.filter (λ b, is_baseline (scenario b)) (concat per_scenario)))
  = baseline_count scenarios.
Proof.
  intros H Hy. unfold baseline_count.
  induction H as [|scn rs scenarios per_scenario Hrs _ IH]; [reflexivity|].
  destruct (scenario_records_years scn rs Hrs) as [Hyears Hnames].
  cbn [concat List.filter]. rewrite !List.filter_app, length_app, IH.
  rewrite (baseline_records_of_scenario scn rs Hnames).
  destruct (is_baseline (name scn)); cbn [length List.filter]; [|reflexivity].
  rewrite one_record_per_year; [reflexivity| |]; rewrite Hyears;
    [apply NoDup_py_range | exact Hy].
Qed.

Lemma length_records (scenarios : list Scenario) (per_scenario : list (list ForecastRecord)) :
  Forall2 scenario_records scenarios per_scenario →
  length (concat per_scenario) = (length scenarios * length years)%nat.
Proof.
  induction 1 as [|scn rs scenarios per_scenario Hrs _ IH]; [reflexivity|].
  cbn [concat length]. rewrite length_app, IH.
  unfold records_of in Hrs. rewrite <- (Forall2_length _ _ _ Hrs). lia.
Qed.

Lemma cells_of_records (scenarios : list Scenario) (per_scenario : list (list ForecastRecord)) :
  Forall2 scenario_records scenarios per_scenario →
  (λ r, (scenario r, year r)) <$> concat per_scenario = forecast_cells scenarios years.
Proof.
  unfold forecast_cells.
  induction 1 as [|scn rs scenarios per_scenario Hrs _ IH]; [reflexivity|].
  cbn [concat flat_map]. rewrite fmap_app, IH. f_equal.
  destruct (scenario_records_years scn rs Hrs) as [Hyears Hnames].
  rewrite <- Hyears, <- list_fmap_compose. apply list_fmap_ext. intros i r Hr. cbn.
  rewrite Forall_forall in Hnames. rewrite (Hnames r); [reflexivity|].
  eapply list_elem_of_lookup_2. exact Hr.
Qed.

(** What a returned forecast was built from. *)
Lemma forecast_scenarios_shape (scenarios : list Scenario) (rows : list ForecastRow) :
  forecast_scenarios sort_indexer series_sum float_pow base_activity_df factor_df
    population_base population_growth gdp_per_capita_base gdp_growth start_year
    end_year scenarios urban_modifiers = Ok rows →
  ∃ per_scenario,
    rows = join_baseline (concat per_scenario) ∧
    Forall2 scenario_records scenarios per_scenario ∧
    scenarios ≠ [] ∧ (start_year ≤ end_year)%Z.
Proof.
  intros H. apply forecast_scenarios_Ok in H as (records & Hrec & Hne & ->).
  apply forecast_records_Ok in Hrec as (per_scenario & -> & H).
  exists per_scenario. split; [reflexivity|].
  assert (Hs : scenarios ≠ []).
  { intros ->. inversion H; subst. apply Hne. reflexivity. }
  split; [|split; [exact Hs|]].
  - eapply Forall2_impl; [exact H|]. intros scn rs [_ Hrs]. exact Hrs.
  - destruct H as [|scn rs ? ? [Hle _] _]; [congruence | exact Hle].
Qed.

Lemma record_year_in_range (scenarios : list Scenario)
    (per_scenario : list (list ForecastRecord)) (r : ForecastRecord) :
  Forall2 scenario_records scenarios per_scenario → r ∈ concat per_scenario →
  year r ∈ years.
Proof.
  intros H Hr. apply list_elem_of_In, in_concat in Hr as (rs & Hrs & Hr).
  apply list_elem_of_In, list_elem_of_lookup in Hrs as [i Hi].
  destruct (Forall2_lookup_r _ _ _ _ _ H Hi) as (scn & _ & Hcells).
  destruct (scenario_records_years scn rs Hcells) as [<- _].
  apply list_elem_of_fmap_2, list_elem_of_In. exact Hr.
Qed.
End Records.

(** A record joined to at most one baseline record gives one row. *)
Lemma cells_of_join_baseline (records : list ForecastRecord) :
  (∀ r, r ∈ records →
     (length (List.filter (λ b, (year b =? year r)%Z)
                (List.filter (λ b, is_baseline (scenario b)) records)) ≤ 1)%nat) →
  cell <$> join_baseline records = records.
Proof.
  unfold join_baseline. cbv zeta.
  generalize (List.filter (λ b, is_baseline (scenario b)) records) as baseline.
  intros baseline H. induction records as [|r records IH]; [reflexivity|].
  cbn [flat_map]. rewrite fmap_app, IH by (intros b Hb; apply H; right; exact Hb).
  specialize (H r ltac:(left)).
  destruct (List.filter _ baseline) as [|b [|b' hits]]; cbn in H |- *; try reflexivity. lia.
Qed.
End forecast_more.

Section ForecastProperties.
#[local] Open Scope float_scope.
Import float_facts utils_facts forecast_facts baseline_facts engine_facts forecast_more.

Variable sort_indexer : list float → list nat.
Variable series_sum : list float → float.
Variable float_pow : float → Z → result float.
Variables (base_activity_df : list ActivityRow) (factor_df : list FactorRow).
Variables (population_base population_growth gdp_per_capita_base gdp_growth : float).
Variables (start_year end_year : Z).
Variable scenarios : list Scenario.
Variable urban_modifiers : option (list (string * float)).

#[local] Abbreviation the_cell :=
  (forecast_cell sort_indexer series_sum float_pow base_activity_df factor_df
     population_base population_growth gdp_per_capita_base gdp_growth start_year
     urban_modifiers).
#[local] Abbreviation the_forecast :=
  (forecast_scenarios sort_indexer series_sum float_pow base_activity_df factor_df
     population_base population_growth gdp_per_capita_base gdp_growth start_year
     end_year scenarios urban_modifiers).
#[local] Abbreviation years := (py_range start_year (end_year + 1)).

(** X10. A forecast that returns has len(scenarios) × (end_year −
    start_year + 1) × max(1, k) rows, k being the number of scenarios named
    "baseline" in any case: every row is repeated once per baseline
    scenario by the join on year. *)
Theorem X10_forecast_row_count (rows : list ForecastRow) :
  the_forecast = Ok rows →
  length rows
  = (length scenarios * Z.to_nat (end_year - start_year + 1)
     * Nat.max 1 (baseline_count scenarios))%nat.
Proof.
  intros H.
  destruct (forecast_scenarios_shape _ _ _ _ _ _ _ _ _ _ _ _ _ _ H)
    as (per_scenario & -> & Hrec & _ & _).
  unfold join_baseline. cbv zeta.
  rewrite (flat_map_constant_length (c := Nat.max 1 (baseline_count scenarios))).
  - rewrite (length_records _ _ _ _ _ _ _ _ _ _ _ _ _ _ Hrec), length_py_range.
    replace (end_year + 1 - start_year)%Z with (end_year - start_year + 1)%Z by lia.
    reflexivity.
  - intros r Hr. apply list_elem_of_In in Hr.
    pose proof (record_year_in_range _ _ _ _ _ _ _ _ _ _ _ _ _ _ _ Hrec Hr) as Hy.
    pose proof (baseline_hits _ _ _ _ _ _ _ _ _ _ _ _ _ _ (year r) Hrec Hy) as Hk.
    destruct (List.filter _ (List.filter _ _)) as [|b hits].
    + cbn in Hk. rewrite <- Hk. reflexivity.
    + rewrite length_fmap, Hk. cbn [length] in Hk. lia.
Qed.

(** X11. When at most one scenario is named "baseline", the rows of a
    forecast come scenario by scenario in input order and, within a
    scenario, year by year in ascending order. *)
Theorem X11_forecast_row_order (rows : list ForecastRow) :
  the_forecast = Ok rows →
  (baseline_count scenarios ≤ 1)%nat →
  (λ row, (scenario (cell row), year (cell row))) <$> rows
  = forecast_cells scenarios years.
Proof.
  intros H Hk.
  destruct (forecast_scenarios_shape _ _ _ _ _ _ _ _ _ _ _ _ _ _ H)
    as (per_scenario & -> & Hrec & _ & _).
  rewrite <- (cells_of_records _ _ _ _ _ _ _ _ _ _ _ _ _ _ Hrec).
  rewrite (list_fmap_compose cell (λ r, (scenario r, year r))).
  rewrite cells_of_join_baseline; [reflexivity|].
  intros r Hr.
  pose proof (record_year_in_range _ _ _ _ _ _ _ _ _ _ _ _ _ _ _ Hrec Hr) as Hy.
  rewrite (baseline_hits _ _ _ _ _ _ _ _ _ _ _ _ _ _ (year r) Hrec Hy). exact Hk.
Qed.

(** X12. When no scenario is named "baseline", every row of a forecast
    has NaN as baseline_total and as change_vs_baseline_pct. *)
Theorem X12_no_baseline_gives_nan (rows : list ForecastRow) (row : ForecastRow) :
  the_forecast = Ok rows →
  baseline_count scenarios = 0%nat →
  row ∈ rows →
  is_nan (baseline_total row) = true ∧ is_nan (change_vs_baseline_pct row) = true.
Proof.
  intros H Hk Hrow.
  assert (Hnone : ∀ scn, scn ∈ scenarios → is_baseline (name scn) = false).
  { unfold baseline_count in Hk. apply length_zero_iff_nil in Hk.
    intros scn Hscn. destruct (is_baseline (name scn)) eqn:E; [|reflexivity].
    assert (Hin : In scn (List.filter (λ scn, is_baseline (name scn)) scenarios)).
    { apply filter_In. split; [apply list_elem_of_In; exact Hscn | exact E]. }
    rewrite Hk in Hin. destruct Hin. }
  apply forecast_scenarios_Ok in H as (records & Hrec & _ & ->).
  apply elem_of_join_baseline in Hrow as (r & Hr & Hrow). cbv zeta in Hrow.
  destruct (records_of_scenario _ _ _ _ _ _ _ _ _ _ _ _ _ _ _ Hrec Hr)
    as (scn & Hscn & _ & Hc).
  destruct (forecast_cell_Ok _ _ _ _ _ _ _ _ _ _ _ _ _ _ Hc) as (_ & Hname & _).
  destruct Hrow as [[_ ->]|(b & Hb & _)].
  - unfold with_change. cbn. rewrite Hname, (Hnone scn Hscn).
    split; [reflexivity | apply nan_propagates].
  - exfalso. apply elem_of_hits in Hb as (Hb & Hbb & _).
    destruct (records_of_scenario _ _ _ _ _ _ _ _ _ _ _ _ _ _ _ Hrec Hb)
      as (scn' & Hscn' & _ & Hc').
    destruct (forecast_cell_Ok _ _ _ _ _ _ _ _ _ _ _ _ _ _ Hc') as (_ & Hname' & _).
    rewrite Hname', (Hnone scn' Hscn') in Hbb. discriminate.
Qed.

(** X13. A forecast returns only for a non-empty list of scenarios and
    start_year ≤ end_year, and then it has a row for every scenario and
    every year of the range: no cell is left out. *)
Theorem X13_forecast_covers_every_cell (rows : list ForecastRow) :
  the_forecast = Ok rows →
  scenarios ≠ [] ∧ (start_year ≤ end_year)%Z ∧
  ∀ scn y, scn ∈ scenarios → (start_year ≤ y ≤ end_year)%Z →
    ∃ row, row ∈ rows ∧ scenario (cell row) = name scn ∧ year (cell row) = y.
Proof.
  intros H.
  destruct (forecast_scenarios_shape _ _ _ _ _ _ _ _ _ _ _ _ _ _ H)
    as (_ & _ & _ & Hne & Hle).
  split; [exact Hne|]. split; [exact Hle|].
  apply forecast_scenarios_Ok in H as (records & Hrec & _ & ->).
  intros scn y Hscn Hy.
  destruct (record_for_every_scenario _ _ _ _ _ _ _ _ _ _ _ _ _ _ _ y Hrec Hscn Hy)
    as (b & Hb & Hc).
  destruct (forecast_cell_Ok _ _ _ _ _ _ _ _ _ _ _ _ _ _ Hc) as (Hyear & Hname & _).
  destruct (record_has_row records b Hb) as (row & Hrow & Hcell).
  exists row. rewrite Hcell. auto.
Qed.

(** X14. The projection of [CityStatistics.to_projection_frame] over the
    forecast years, for a city with the same base values and growth rates,
    succeeds whenever the forecast does, has one row per year in order,
    and shows for each year the population and gdp of the forecast rows of
    that year. *)
Theorem X14_projection_agrees_with_forecast (rows : list ForecastRow)
    (city : string) (intensity : float) (activity : SectorActivity) :
  the_forecast = Ok rows →
  ∃ projection,
    to_projection_frame float_pow
      (city_of city population_base population_growth gdp_per_capita_base gdp_growth
               intensity activity) years start_year = Ok projection ∧
    proj_year <$> projection = years ∧
    ∀ row, row ∈ rows →
      ∃ p, p ∈ projection ∧ proj_year p = year (cell row) ∧
           proj_population p = population (cell row) ∧
           proj_gdp p = gdp (cell row).
Proof.
  intros H.
  destruct (forecast_scenarios_shape _ _ _ _ _ _ _ _ _ _ _ _ _ _ H)
    as (per_scenario & _ & Hshape & Hne & _).
  apply forecast_scenarios_Ok in H as (records & Hrec & _ & ->).
  destruct Hshape as [|scn rs rest per_rest Hrs _]; [congruence|].
  unfold records_of in Hrs.
  set (project := λ r : ForecastRecord,
         {| proj_year := year r; proj_population := population r;
            proj_gdp_per_capita := gdp_per_capita_base
              * match float_pow (1 + gdp_growth) (year r - start_year) with
                | Ok g => g
                | Raise _ => nan
                end;
            proj_gdp := gdp r;
            proj_energy_intensity := intensity |}).
  assert (Hproj : ∀ s y r, the_cell s y = Ok r →
            (pop ← value_at float_pow {| initial_population := population_base;
                                        annual_growth_rate := population_growth |}
                     (y - start_year);
             gdp_pc ← gdp_per_capita_at float_pow
                        {| gdp_per_capita := gdp_per_capita_base;
                           gdp_growth_rate := gdp_growth;
                           energy_intensity := intensity |} (y - start_year);
             Ok {| proj_year := y; proj_population := pop; proj_gdp_per_capita := gdp_pc;
                   proj_gdp := pop * gdp_pc; proj_energy_intensity := intensity |})
            = Ok (project r)).
  { intros s y r Hc.
    destruct (forecast_cell_Ok _ _ _ _ _ _ _ _ _ _ _ _ _ _ Hc)
      as (Hy & _ & pop_scale & gdp_scale & _ & Hp & Hg & Hpop & Hgdp & _).
    unfold value_at, gdp_per_capita_at, project. cbn. rewrite Hp, Hg. cbn.
    rewrite Hy, Hg, Hgdp, Hpop. reflexivity. }
  exists (project <$> rs). split; [|split].
  - unfold to_projection_frame. apply for_each_Ok. apply Forall2_fmap_r.
    eapply Forall2_impl; [exact Hrs|]. intros y r Hc. cbn. exact (Hproj scn y r Hc).
  - rewrite <- list_fmap_compose.
    transitivity (year <$> rs); [reflexivity|].
    clear -Hrs. induction Hrs as [|y r ys rs Hc _ IH]; [reflexivity|].
    destruct (forecast_cell_Ok _ _ _ _ _ _ _ _ _ _ _ _ _ _ Hc) as (Hy & _).
    cbn. congruence.
  - intros row Hrow.
    apply elem_of_join_baseline in Hrow as (r & Hr & Hrow).
    assert (Hcell : cell row = r) by (destruct Hrow as [[_ ->]|(b & _ & ->)]; reflexivity).
    rewrite Hcell.
    destruct (records_of_scenario _ _ _ _ _ _ _ _ _ _ _ _ _ _ _ Hrec Hr)
      as (s & _ & Hyear & Hc).
    assert (Hin : year r ∈ years) by (apply elem_of_py_range; lia).
    apply list_elem_of_lookup in Hin as [i Hi].
    destruct (Forall2_lookup_l _ _ _ _ _ Hrs Hi) as (r0 & Hr0 & Hc0).
    exists (project r0). split.
    + apply list_elem_of_fmap_2. eapply list_elem_of_lookup_2. exact Hr0.
    + pose proof (Hproj _ _ _ Hc) as H1. pose proof (Hproj _ _ _ Hc0) as H2.
      assert (Heq : project r0 = project r) by congruence.
      rewrite Heq. auto.
Qed.
End ForecastProperties.

Section ForecastPropertyWitnesses.
#[local] Open Scope float_scope.

Lemma X10_forecast_row_count_witness :
  length test_forecast
  = (length [no_change "Baseline"; mitigation_20] * Z.to_nat (2026 - 2025 + 1)
     * Nat.max 1 (baseline_count [no_change "Baseline"; mitigation_20]))%nat.
Proof.
  apply (X10_forecast_row_count stable_argsort sum_skipna pow_repeated
           base_activity base_factors 1000.0 0.0 100.0 0.0 2025 2026
           [no_change "Baseline"; mitigation_20] None test_forecast).
  vm_compute. reflexivity.
Defined.

Lemma X11_forecast_row_order_witness :
  (λ row, (scenario (cell row), year (cell row))) <$> test_forecast
  = forecast_cells [no_change "Baseline"; mitigation_20] (py_range 2025 (2026 + 1)).
Proof.
  apply (X11_forecast_row_order stable_argsort sum_skipna pow_repeated
           base_activity base_factors 1000.0 0.0 100.0 0.0 2025 2026
           [no_change "Baseline"; mitigation_20] None test_forecast).
  - vm_compute. reflexivity.
  - vm_compute. lia.
Defined.

Lemma X12_no_baseline_gives_nan_witness :
  is_nan (baseline_total
            {| cell := cell (forecast_row 2025 "Mitigation" 4140.0 0.0);
               baseline_total := nan; change_vs_baseline_pct := nan |}) = true ∧
  is_nan (change_vs_baseline_pct
            {| cell := cell (forecast_row 2025 "Mitigation" 4140.0 0.0);
               baseline_total := nan; change_vs_baseline_pct := nan |}) = true.
Proof.
  eapply (X12_no_baseline_gives_nan stable_argsort sum_skipna pow_repeated
            base_activity base_factors 1000.0 0.0 100.0 0.0 2025 2026
            [mitigation_20] None).
  - vm_compute. reflexivity.
  - reflexivity.
  - repeat constructor.
Defined.

Lemma X13_forecast_covers_every_cell_witness :
  [no_change "Baseline"; mitigation_20] ≠ [] ∧ (2025 ≤ 2026)%Z ∧
  ∀ scn y, scn ∈ [no_change "Baseline"; mitigation_20] → (2025 ≤ y ≤ 2026)%Z →
    ∃ row, row ∈ test_forecast ∧ scenario (cell row) = name scn ∧ year (cell row) = y.
Proof.
  apply (X13_forecast_covers_every_cell stable_argsort sum_skipna pow_repeated
           base_activity base_factors 1000.0 0.0 100.0 0.0 2025 2026
           [no_change "Baseline"; mitigation_20] None test_forecast).
  vm_compute. reflexivity.
Defined.

Lemma X14_projection_agrees_with_forecast_witness :
  ∃ projection,
    to_projection_frame pow_repeated
      (city_of "demo" 1000.0 0.0 100.0 0.0 0.5
         {| residential_energy := 1000.0; transport_activity := 2000.0;
            industrial_output := 500.0; waste_activity := 200.0; grid_energy := 800.0 |})
      (py_range 2025 (2026 + 1)) 2025 = Ok projection ∧
    proj_year <$> projection = py_range 2025 (2026 + 1) ∧
    ∀ row, row ∈ test_forecast →
      ∃ p, p ∈ projection ∧ proj_year p = year (cell row) ∧
           proj_population p = population (cell row) ∧
           proj_gdp p = gdp (cell row).
Proof.
  apply (X14_projection_agrees_with_forecast stable_argsort sum_skipna pow_repeated
           base_activity base_factors 1000.0 0.0 100.0 0.0 2025 2026
           [no_change "Baseline"; mitigation_20] None test_forecast).
  vm_compute. reflexivity.
Defined.
End ForecastPropertyWitnesses.

(** ** The validators of modules/io_handlers.py *)

Module validation_facts.
#[local] Open Scope float_scope.
Import engine_facts scenario_facts engine_more.

Lemma any_false {A : Type} (p : A → bool) (cells : list A) :
  any (p <$> cells) = false ↔ ∀ x, x ∈ cells → p x = false.
Proof.
  unfold any. induction cells as [|x cells IH]; cbn.
  - split; [intros _ y Hy; inversion Hy | reflexivity].
  - rewrite orb_false_iff, IH. unfold id. split.
    + intros [Hx H] y Hy. apply elem_of_cons in Hy as [->|Hy]; auto.
    + intros H. split; [apply H; left | intros y Hy; apply H; right; exact Hy].
Qed.

Lemma append_if_nil (condition : bool) (message : string) (messages : list string) :
  append_if condition message messages = [] ↔ condition = false ∧ messages = [].
Proof.
  unfold append_if. destruct condition.
  - split; [intros H; apply app_eq_nil in H as [_ H]; discriminate | intros [H _]; discriminate].
  - tauto.
Qed.

Lemma duplicated_after_none (seen cells : list (option string)) :
  any (duplicated_after seen cells) = false ↔
  NoDup cells ∧ ∀ c, c ∈ cells → c ∉ seen.
Proof.
  unfold any. revert seen. induction cells as [|c cells IH]; intros seen; cbn.
  - split; [intros _; split; [constructor | intros c Hc; inversion Hc] | reflexivity].
  - rewrite orb_false_iff, IH, NoDup_cons. unfold id. rewrite bool_decide_eq_false. split.
    + intros (Hc & Hnd & Hseen). split; [split; [|exact Hnd]|].
      * intros Hin. apply (Hseen c Hin). left.
      * intros d Hd. apply elem_of_cons in Hd as [->|Hd]; [exact Hc|].
        intros Hds. apply (Hseen d Hd). right. exact Hds.
    + intros ((Hc & Hnd) & Hseen). split; [apply Hseen; left|]. split; [exact Hnd|].
      intros d Hd Hds. apply elem_of_cons in Hds as [->|Hds]; [contradiction|].
      apply (Hseen d); [right; exact Hd | exact Hds].
Qed.

Lemma duplicated_none (cells : list (option string)) :
  any (duplicated cells) = false ↔ NoDup cells.
Proof.
  unfold duplicated. rewrite duplicated_after_none. split; [tauto|].
  intros H. split; [exact H|]. intros c _ Hc. inversion Hc.
Qed.

Lemma clean_cells_checks (cells : list float) :
  any (is_nan <$> cells) = false ∧ any ((λ x, x <? 0) <$> cells) = false ↔
  clean_cells cells.
Proof.
  rewrite !any_false. unfold clean_cells. split.
  - intros [H1 H2] x Hx. auto.
  - intros H. split; intros x Hx; apply H; exact Hx.
Qed.

Lemma factor_errors_nil (sector_cells : list (option string)) (co2 ch4 n2o : list float) :
  (validate_factor_data {| ff_sector := Some sector_cells; ff_co2_factor := Some co2;
                           ff_ch4_factor := Some ch4; ff_n2o_factor := Some n2o |}).1 = []
  ↔ clean_cells co2 ∧ clean_cells ch4 ∧ clean_cells n2o.
Proof.
  unfold validate_factor_data. cbn [ff_sector ff_co2_factor ff_ch4_factor ff_n2o_factor fst].
  cbn [fold_left]. unfold check_factor_column. cbn [fst snd].
  rewrite !append_if_nil, <- !clean_cells_checks. tauto.
Qed.

Lemma factor_warnings_nil (sector_cells : list (option string)) (co2 ch4 n2o : list float) :
  (validate_factor_data {| ff_sector := Some sector_cells; ff_co2_factor := Some co2;
                           ff_ch4_factor := Some ch4; ff_n2o_factor := Some n2o |}).2 = []
  ↔ NoDup sector_cells.
Proof.
  unfold validate_factor_data. cbn [ff_sector ff_co2_factor ff_ch4_factor ff_n2o_factor snd].
  rewrite append_if_nil, duplicated_none. tauto.
Qed.

Lemma activity_errors_nil (sector_cells : list (option string)) (activity_cells : list float) :
  (validate_activity_data {| af_sector := Some sector_cells;
                             af_activity := Some activity_cells |}).1 = []
  ↔ (∀ c, c ∈ sector_cells → c ≠ None) ∧ clean_cells activity_cells.
Proof.
  unfold validate_activity_data. cbn [af_sector af_activity fst]. cbv zeta.
  rewrite !append_if_nil, <- clean_cells_checks, !any_false. split.
  - intros (H3 & H2 & H1 & _). split; [|tauto].
    intros c Hc ->. specialize (H1 None Hc). discriminate.
  - intros (Hs & H2 & H3). repeat split; try assumption.
    intros [c|] Hc; [reflexivity|]. destruct (Hs None Hc). reflexivity.
Qed.
End validation_facts.

Section ValidationProperties.
#[local] Open Scope float_scope.
Import sort_facts engine_facts scenario_facts engine_more validation_facts.

(** X15. For a factor frame with its four columns, [validate_factor_data]
    reports no error exactly when no factor cell is NaN or below zero, and
    gives its one warning exactly when two sector cells are equal. *)
Theorem X15_validate_factor_data_verdict (sector_cells : list (option string))
    (co2 ch4 n2o : list float) :
  ((validate_factor_data {| ff_sector := Some sector_cells; ff_co2_factor := Some co2;
                            ff_ch4_factor := Some ch4; ff_n2o_factor := Some n2o |}).1 = []
   ↔ clean_cells co2 ∧ clean_cells ch4 ∧ clean_cells n2o) ∧
  ((validate_factor_data {| ff_sector := Some sector_cells; ff_co2_factor := Some co2;
                            ff_ch4_factor := Some ch4; ff_n2o_factor := Some n2o |}).2 = []
   ↔ NoDup sector_cells) ∧
  (¬ NoDup sector_cells →
   (validate_factor_data {| ff_sector := Some sector_cells; ff_co2_factor := Some co2;
                            ff_ch4_factor := Some ch4; ff_n2o_factor := Some n2o |}).2
   = ["Duplicate sectors in factor table; first match will be used"]).
Proof.
  split; [apply factor_errors_nil|]. split; [apply factor_warnings_nil|].
  intros Hdup. unfold validate_factor_data.
  cbn [ff_sector ff_co2_factor ff_ch4_factor ff_n2o_factor snd].
  destruct (any (duplicated sector_cells)) eqn:E; [reflexivity|].
  apply duplicated_none in E. contradiction.
Qed.

(** X16. For an activity frame with its two columns,
    [validate_activity_data] reports no error exactly when no sector cell
    is missing and no activity cell is NaN or below zero, and no warning
    exactly when no activity cell equals zero. *)
Theorem X16_validate_activity_data_verdict (sector_cells : list (option string))
    (activity_cells : list float) :
  ((validate_activity_data {| af_sector := Some sector_cells;
                              af_activity := Some activity_cells |}).1 = []
   ↔ (∀ c, c ∈ sector_cells → c ≠ None) ∧ clean_cells activity_cells) ∧
  ((validate_activity_data {| af_sector := Some sector_cells;
                              af_activity := Some activity_cells |}).2 = []
   ↔ ∀ x, x ∈ activity_cells → (x =? 0) = false).
Proof.
  split; [apply activity_errors_nil|].
  unfold validate_activity_data. cbn [af_sector af_activity snd]. cbv zeta.
  rewrite !append_if_nil, !any_false. tauto.
Qed.

(** X17. When a required column is absent, each validator returns one
    error that names the absent columns in the order of the required
    list, and no warning; the cells are not looked at. *)
Theorem X17_absent_column_is_the_only_error :
  (∀ df, af_sector df = None ∨ af_activity df = None →
     validate_activity_data df
     = (["Missing columns: "
         +:+ repr_list (absent "sector" (af_sector df)
                        ++ absent "activity" (af_activity df))%list], [])) ∧
  (∀ df, ff_sector df = None ∨ ff_co2_factor df = None ∨ ff_ch4_factor df = None
         ∨ ff_n2o_factor df = None →
     validate_factor_data df
     = (["Missing columns: "
         +:+ repr_list (absent "sector" (ff_sector df)
                        ++ absent "co2_factor" (ff_co2_factor df)
                        ++ absent "ch4_factor" (ff_ch4_factor df)
                        ++ absent "n2o_factor" (ff_n2o_factor df))%list], [])) ∧
  validate_factor_data {| ff_sector := Some [Some "transport"];
                          ff_co2_factor := Some [-1.0];
                          ff_ch4_factor := None; ff_n2o_factor := None |}
  = (["Missing columns: ['ch4_factor', 'n2o_factor']"], []).
Proof.
  split; [|split; [|reflexivity]].
  - intros [[s|] [a|]] H; cbn in H; try reflexivity. destruct H; discriminate.
  - intros [[s|] [c1|] [c2|] [c3|]] H; cbn in H; try reflexivity.
    destruct H as [H|[H|[H|H]]]; discriminate.
Qed.

(** X18. When [validate_factor_data] finds neither an error nor a
    duplicate in a factor table and every activity sector occurs in it,
    [compute_sector_emissions] does not raise: it returns one row per
    activity row, for the same sectors. *)
Theorem X18_validated_tables_compute (sort_indexer : list float → list nat)
    (activity_df : list ActivityRow) (factor_df : list FactorRow)
    (gwp : option (gmap string float)) :
  permutes sort_indexer →
  validate_factor_data (factor_frame factor_df) = ([], []) →
  (∀ a, a ∈ activity_df → ∃ f, f ∈ factor_df ∧ f_sector f = sector a) →
  ∃ rows,
    compute_sector_emissions sort_indexer activity_df factor_df gwp = Ok rows ∧
    length rows = length activity_df ∧
    e_sector <$> rows ≡ₚ sector <$> activity_df.
Proof.
  intros Hperm Hvalid Hall.
  assert (Herr := f_equal fst Hvalid). assert (Hwarn := f_equal snd Hvalid).
  unfold factor_frame in Herr, Hwarn.
  apply factor_errors_nil in Herr as (Hco2 & Hch4 & Hn2o).
  apply factor_warnings_nil in Hwarn.
  assert (Hnd : NoDup (f_sector <$> factor_df)).
  { apply (NoDup_fmap_1 Some). rewrite <- list_fmap_compose. exact Hwarn. }
  pose proof (merge_left_no_miss activity_df factor_df Hnd Hall) as Hjoin.
  rewrite compute_sector_emissions_unfold. cbv zeta.
  rewrite existsb_false.
  - eexists. split; [reflexivity|].
    pose proof (sort_values_desc_perm sort_indexer co2e
      (emission_row (effective_gwp gwp "CH4" 28) (effective_gwp gwp "N2O" 265)
         <$> merge_left activity_df factor_df) Hperm) as Hp.
    assert (Hsectors : m_sector <$> merge_left activity_df factor_df = sector <$> activity_df).
    { clear -Hjoin. induction Hjoin as [|a m ? ? (f & _ & _ & ->) _ IH]; [reflexivity|].
      cbn. f_equal. exact IH. }
    split.
    + rewrite Hp, length_fmap. symmetry. apply (Forall2_length _ _ _ Hjoin).
    + rewrite Hp, <- list_fmap_compose, <- Hsectors. reflexivity.
  - intros m Hm. apply list_elem_of_lookup in Hm as [i Hi].
    destruct (Forall2_lookup_r _ _ _ _ _ Hjoin Hi) as (a & _ & f & Hf & _ & ->).
    unfold any_factor_isna. cbn.
    destruct (Hco2 (co2_factor f)) as [-> _]; [apply list_elem_of_fmap_2; exact Hf|].
    destruct (Hch4 (ch4_factor f)) as [-> _]; [apply list_elem_of_fmap_2; exact Hf|].
    destruct (Hn2o (n2o_factor f)) as [-> _]; [apply list_elem_of_fmap_2; exact Hf|].
    reflexivity.
Qed.

Lemma X18_validated_tables_compute_witness :
  ∃ rows,
    compute_sector_emissions stable_argsort base_activity base_factors None = Ok rows ∧
    length rows = length base_activity ∧
    e_sector <$> rows ≡ₚ sector <$> base_activity.
Proof.
  apply (X18_validated_tables_compute stable_argsort base_activity base_factors None).
  - apply stable_argsort_permutes.
  - vm_compute. reflexivity.
  - intros a Ha. exists (unit_co2_factors (sector a)).
    each_row Ha; (split; [repeat constructor | reflexivity]).
Defined.

(** X19. The table of the manual input panel is the one
    [SectorActivity.to_activity_dataframe] builds: five rows with distinct
    sectors, each of which has a scenario adjustment and a growth
    multiplier; it passes [validate_activity_data] without error exactly
    when none of the five numbers is NaN or below zero. *)
Theorem X19_manual_input_table (residential transport industry waste energy : float) :
  manual_input_to_activity residential transport industry waste energy
  = to_activity_dataframe
      {| residential_energy := residential; transport_activity := transport;
         industrial_output := industry; waste_activity := waste; grid_energy := energy |} ∧
  NoDup (sector <$> manual_input_to_activity residential transport industry waste energy) ∧
  (∀ r scn pop_scale gdp_scale,
     r ∈ manual_input_to_activity residential transport industry waste energy →
     is_Some (activity_multiplier scn (sector r)) ∧
     is_Some (growth_multiplier pop_scale gdp_scale (sector r))) ∧
  ((validate_activity_data
      (activity_frame
         (manual_input_to_activity residential transport industry waste energy))).1 = []
   ↔ clean_cells [residential; transport; industry; waste; energy]).
Proof.
  split; [reflexivity|]. split; [by_evaluation|]. split.
  - intros r scn pop_scale gdp_scale Hr. each_row Hr; split; cbn; eauto.
  - unfold activity_frame. rewrite activity_errors_nil. cbn. split.
    + intros [_ H]. exact H.
    + intros H. split; [|exact H]. intros c Hc. each_row Hc; discriminate.
Qed.
End ValidationProperties.

(** ** safe_divide, the ratios of a forecast row, and the column check *)

Module ratio_facts.
#[local] Open Scope float_scope.
Import float_facts.

Lemma eqb_zero (d : float) : (d =? 0) = true ↔ d = 0 ∨ d = -0.
Proof.
  rewrite FloatAxioms.eqb_spec. unfold SFeqb.
  replace (Prim2SF 0) with (S754_zero false) by reflexivity. split.
  - intros H. rewrite <- (SF2Prim_Prim2SF d).
    destruct (Prim2SF d) as [[]|[]| |[] ? ?]; cbn in H; try discriminate; auto.
  - intros [->| ->]; reflexivity.
Qed.

Lemma insert_sorted_perm (s : string) (names : list string) :
  insert_sorted s names ≡ₚ s :: names.
Proof.
  induction names as [|t names IH]; cbn; [reflexivity|].
  destruct (String.leb s t); [reflexivity|]. rewrite IH. apply perm_swap.
Qed.

Lemma sorted_names_perm (names : list string) : sorted_names names ≡ₚ names.
Proof.
  induction names as [|s names IH]; cbn; [reflexivity|].
  rewrite insert_sorted_perm, IH. reflexivity.
Qed.

Lemma string_leb_total (s t : string) : String.leb s t = false → String.leb t s = true.
Proof.
  unfold String.leb. rewrite (String.compare_antisym t s).
  destruct (s ?= t)%string; cbn; congruence.
Qed.

Lemma insert_sorted_sorted (s : string) (names : list string) :
  Sorted (λ a b, String.leb a b = true) names →
  Sorted (λ a b, String.leb a b = true) (insert_sorted s names).
Proof.
  induction names as [|t names IH]; intros Hs; cbn.
  - repeat constructor.
  - destruct (String.leb s t) eqn:E.
    + constructor; [exact Hs | constructor; exact E].
    + inversion Hs as [|? ? Hrest Hhd]; subst. constructor; [apply IH; exact Hrest|].
      destruct names as [|u names]; cbn.
      * constructor. apply string_leb_total. exact E.
      * destruct (String.leb s u); constructor;
          [apply string_leb_total; exact E | inversion Hhd; assumption].
Qed.

Lemma sorted_names_sorted (names : list string) :
  Sorted (λ a b, String.leb a b = true) (sorted_names names).
Proof.
  induction names as [|s names IH]; cbn; [constructor|].
  apply insert_sorted_sorted, IH.
Qed.

Section Cell.
Variable sort_indexer : list float → list nat.
Variable series_sum : list float → float.
Variable float_pow : float → Z → result float.

Lemma forecast_cell_ratios (base_activity_df : list ActivityRow) (factor_df : list FactorRow)
    (population_base population_growth gdp_per_capita_base gdp_growth : float)
    (start_year : Z) (urban_modifiers : option (list (string * float)))
    (scn : Scenario) (y : Z) (r : ForecastRecord) :
  forecast_cell sort_indexer series_sum float_pow base_activity_df factor_df
    population_base population_growth gdp_per_capita_base gdp_growth start_year
    urban_modifiers scn y = Ok r →
  rec_per_capita_co2e r = safe_divide (rec_total_co2e r) (population r) ∧
  rec_per_gdp_co2e r = safe_divide (rec_total_co2e r) (gdp r).
Proof.
  unfold forecast_cell. cbv zeta.
  destruct (float_pow (1 + population_growth) _) as [pop_scale|];
    cbn [mbind result_bind]; [|discriminate].
  destruct (float_pow (1 + gdp_growth) _) as [gdp_scale|];
    cbn [mbind result_bind]; [|discriminate].
  destruct (apply_scenario _ _ _) as [adj_activity adj_factors].
  destruct (compute_sector_emissions _ _ _ _) as [sector_rows|];
    cbn [mbind result_bind]; [|discriminate].
  intros [= <-]. split; reflexivity.
Qed.
End Cell.
End ratio_facts.

Section RatioProperties.
#[local] Open Scope float_scope.
Import float_facts forecast_facts baseline_facts ratio_facts.

(** X20. [safe_divide] returns 0.0 when the denominator is 0.0 or −0.0 and
    the quotient for every other denominator, so [aggregate_emissions]
    gives per_capita_co2e = 0.0 for a zero population and
    per_gdp_co2e = 0.0 for a zero gdp, whatever the total is. *)
Theorem X20_safe_divide_zero_denominator (series_sum : list float → float)
    (sector_emissions : list EmissionRow) (numerator denominator : float) :
  (denominator = 0 ∨ denominator = -0 → safe_divide numerator denominator = 0) ∧
  (denominator ≠ 0 → denominator ≠ -0 →
   safe_divide numerator denominator = numerator / denominator) ∧
  (denominator = 0 ∨ denominator = -0 →
   per_capita_co2e (aggregate_emissions series_sum sector_emissions denominator numerator) = 0 ∧
   per_gdp_co2e (aggregate_emissions series_sum sector_emissions numerator denominator) = 0).
Proof.
  assert (Hzero : ∀ n, denominator = 0 ∨ denominator = -0 → safe_divide n denominator = 0).
  { intros n H. unfold safe_divide. rewrite (proj2 (eqb_zero denominator) H). reflexivity. }
  split; [apply Hzero|]. split.
  - intros H1 H2. unfold safe_divide.
    destruct (denominator =? 0) eqn:E; [|reflexivity].
    apply eqb_zero in E as [E|E]; contradiction.
  - intros H. unfold aggregate_emissions. cbn. split; apply Hzero; exact H.
Qed.

(** X21. In every row of a forecast, per_capita_co2e and per_gdp_co2e are
    [safe_divide] of the row's total by its population and by its gdp; a
    row whose population is zero has per_capita_co2e = 0.0. *)
Theorem X21_forecast_row_ratios (sort_indexer : list float → list nat)
    (series_sum : list float → float) (float_pow : float → Z → result float)
    (base_activity_df : list ActivityRow) (factor_df : list FactorRow)
    (population_base population_growth gdp_per_capita_base gdp_growth : float)
    (start_year end_year : Z) (scenarios : list Scenario)
    (urban_modifiers : option (list (string * float)))
    (rows : list ForecastRow) (row : ForecastRow) :
  forecast_scenarios sort_indexer series_sum float_pow base_activity_df factor_df
    population_base population_growth gdp_per_capita_base gdp_growth start_year
    end_year scenarios urban_modifiers = Ok rows →
  row ∈ rows →
  rec_per_capita_co2e (cell row)
  = safe_divide (rec_total_co2e (cell row)) (population (cell row)) ∧
  rec_per_gdp_co2e (cell row)
  = safe_divide (rec_total_co2e (cell row)) (gdp (cell row)) ∧
  (population (cell row) = 0 → rec_per_capita_co2e (cell row) = 0).
Proof.
  intros H Hrow.
  apply forecast_scenarios_Ok in H as (records & Hrec & _ & ->).
  apply elem_of_join_baseline in Hrow as (r & Hr & Hrow).
  assert (Hcell : cell row = r) by (destruct Hrow as [[_ ->]|(b & _ & ->)]; reflexivity).
  rewrite Hcell.
  destruct (records_of_scenario _ _ _ _ _ _ _ _ _ _ _ _ _ _ _ Hrec Hr)
    as (scn & _ & _ & Hc).
  destruct (forecast_cell_ratios _ _ _ _ _ _ _ _ _ _ _ _ _ _ Hc) as [Hpc Hpg].
  split; [exact Hpc|]. split; [exact Hpg|].
  intros Hzero. rewrite Hpc, Hzero. reflexivity.
Qed.

(** X22. [_check_required] lets a frame pass exactly when every required
    column is among its columns; otherwise its error message names the
    frame and lists the absent required columns, each once, in
    alphabetical order. *)
Theorem X22_check_required_message (columns : list string) (required : gset string)
    (frame_name : string) :
  (check_required columns required frame_name = None ↔
   ∀ c, c ∈ required → c ∈ columns) ∧
  (∀ message, check_required columns required frame_name = Some message →
     ∃ missing,
       message = frame_name +:+ " missing columns: " +:+ repr_list missing ∧
       missing ≠ [] ∧ NoDup missing ∧
       Sorted (λ a b, String.leb a b = true) missing ∧
       ∀ c, c ∈ missing ↔ c ∈ required ∧ c ∉ columns) ∧
  check_required ["sector"; "co2_factor"] REQUIRED_FACTOR_COLUMNS "factor_df"
  = Some "factor_df missing columns: ['ch4_factor', 'n2o_factor']".
Proof.
  split; [|split; [|vm_compute; reflexivity]].
  - unfold check_required. cbv zeta. destruct (decide _) as [He|Hne].
    + split; [intros _ c Hc | reflexivity].
      destruct (decide (c ∈ columns)) as [Hin|Hnot]; [exact Hin|].
      assert (Hc' : c ∈ required ∖ list_to_set (C := gset string) columns).
      { apply elem_of_difference. split; [exact Hc|]. rewrite elem_of_list_to_set. exact Hnot. }
      rewrite He in Hc'. apply not_elem_of_empty in Hc'. destruct Hc'.
    + split; [discriminate|]. intros Hall. exfalso. apply Hne.
      apply set_eq. intros c. rewrite elem_of_difference, elem_of_list_to_set.
      split; [intros [Hc Hn]; destruct (Hn (Hall c Hc)) | intros Hc; apply not_elem_of_empty in Hc; destruct Hc].
  - intros message. unfold check_required. cbv zeta.
    destruct (decide _) as [He|Hne]; [discriminate|]. intros [= <-].
    eexists. split; [reflexivity|].
    pose proof (sorted_names_perm (elements (required ∖ list_to_set (C := gset string) columns)))
      as Hp.
    split; [|split; [|split]].
    + intros Hnil. rewrite Hnil in Hp. apply Permutation_nil in Hp.
      apply elements_empty_inv in Hp. apply Hne. apply leibniz_equiv. exact Hp.
    + rewrite Hp. apply NoDup_elements.
    + apply sorted_names_sorted.
    + intros c. rewrite Hp, elem_of_elements, elem_of_difference, elem_of_list_to_set.
      reflexivity.
Qed.
End RatioProperties.

Section RatioWitnesses.
#[local] Open Scope float_scope.

Lemma X21_forecast_row_ratios_witness :
  rec_per_capita_co2e (cell (forecast_row 2026 "Mitigation" 4140.0 (-8.0)))
  = safe_divide (rec_total_co2e (cell (forecast_row 2026 "Mitigation" 4140.0 (-8.0))))
                (population (cell (forecast_row 2026 "Mitigation" 4140.0 (-8.0)))) ∧
  rec_per_gdp_co2e (cell (forecast_row 2026 "Mitigation" 4140.0 (-8.0)))
  = safe_divide (rec_total_co2e (cell (forecast_row 2026 "Mitigation" 4140.0 (-8.0))))
                (gdp (cell (forecast_row 2026 "Mitigation" 4140.0 (-8.0)))) ∧
  (population (cell (forecast_row 2026 "Mitigation" 4140.0 (-8.0))) = 0 →
   rec_per_capita_co2e (cell (forecast_row 2026 "Mitigation" 4140.0 (-8.0))) = 0).
Proof.
  apply (X21_forecast_row_ratios stable_argsort sum_skipna pow_repeated
           base_activity base_factors 1000.0 0.0 100.0 0.0 2025 2026
           [no_change "Baseline"; mitigation_20] None test_forecast).
  - vm_compute. reflexivity.
  - repeat constructor.
Defined.
End RatioWitnesses.

(** ** A join miss in the base tables, and the projection frame *)

Module miss_facts.
#[local] Open Scope float_scope.
Import engine_facts scenario_facts engine_more.

Lemma scale_where_sectors (mask : ActivityRow → bool) (mult : float) (df : list ActivityRow) :
  sector <$> scale_where mask mult df = sector <$> df.
Proof.
  unfold scale_where. rewrite <- list_fmap_compose. apply list_fmap_ext.
  intros _ r _. cbn. destruct (mask r); reflexivity.
Qed.

Lemma scale_sectors_sectors (items : list (string * float)) (df : list ActivityRow) :
  sector <$> fold_left scale_sector items df = sector <$> df.
Proof.
  revert df. induction items as [|item items IH]; intros df; [reflexivity|].
  cbn [fold_left]. rewrite IH, scale_sector_always. apply scale_where_sectors.
Qed.

Lemma apply_scenario_sectors (activity_df : list ActivityRow) (factor_df : list FactorRow)
    (scn : Scenario) :
  sector <$> (apply_scenario activity_df factor_df scn).1 = sector <$> activity_df ∧
  f_sector <$> (apply_scenario activity_df factor_df scn).2 = f_sector <$> factor_df.
Proof.
  unfold apply_scenario. cbv zeta. cbn [fst snd]. split.
  - apply scale_sectors_sectors.
  - destruct (existsb _ factor_df); [|reflexivity].
    rewrite <- list_fmap_compose. apply list_fmap_ext. intros _ f _. cbn.
    destruct (String.eqb _ _); reflexivity.
Qed.

(** A sector without a factor row makes the computation raise, and the
    error names it; only the sector columns matter. *)
Lemma unmatched_sector_raises (sort_indexer : list float → list nat)
    (activity_df : list ActivityRow) (factor_df : list FactorRow)
    (gwp : option (gmap string float)) (s : string) :
  s ∈ sector <$> activity_df → s ∉ f_sector <$> factor_df →
  ∃ missing,
    compute_sector_emissions sort_indexer activity_df factor_df gwp
    = Raise (ValueError (MissingEmissionFactors missing)) ∧ s ∈ missing.
Proof.
  intros Hs Hno. apply list_elem_of_fmap in Hs as (a & -> & Ha).
  assert (Hnil : matches a factor_df = []).
  { apply matches_nil. intros f Hf Heq. apply Hno. rewrite <- Heq.
    apply list_elem_of_fmap_2. exact Hf. }
  assert (Hin : unmatched a ∈ merge_left activity_df factor_df).
  { apply elem_of_merge_left. exists a. auto. }
  rewrite compute_sector_emissions_unfold. cbv zeta.
  replace (existsb any_factor_isna (merge_left activity_df factor_df)) with true.
  - eexists. split; [reflexivity|].
    change (sector a) with (m_sector (unmatched a)).
    apply list_elem_of_fmap_2, list_elem_of_In, filter_In.
    split; [apply list_elem_of_In; exact Hin | reflexivity].
  - symmetry. apply existsb_true_elem. exists (unmatched a). auto.
Qed.
End miss_facts.

Section MissProperties.
#[local] Open Scope float_scope.
Import forecast_facts miss_facts.

(** X23. A sector of the base activity table without a factor row makes
    the whole forecast fail: with at least one scenario, start_year ≤
    end_year and the powers of the first year defined, [forecast_scenarios]
    raises the missing-factors error, which names that sector; growth
    scaling, urban modifiers and the scenario never repair a join miss. *)
Theorem X23_forecast_fails_on_base_join_miss (sort_indexer : list float → list nat)
    (series_sum : list float → float) (float_pow : float → Z → result float)
    (base_activity_df : list ActivityRow) (factor_df : list FactorRow)
    (population_base population_growth gdp_per_capita_base gdp_growth : float)
    (start_year end_year : Z) (scn : Scenario) (rest : list Scenario)
    (urban_modifiers : option (list (string * float)))
    (a : ActivityRow) (pop_scale gdp_scale : float) :
  (start_year ≤ end_year)%Z →
  a ∈ base_activity_df →
  (∀ f, f ∈ factor_df → f_sector f ≠ sector a) →
  float_pow (1 + population_growth) 0%Z = Ok pop_scale →
  float_pow (1 + gdp_growth) 0%Z = Ok gdp_scale →
  ∃ missing,
    forecast_scenarios sort_indexer series_sum float_pow base_activity_df factor_df
      population_base population_growth gdp_per_capita_base gdp_growth start_year
      end_year (scn :: rest) urban_modifiers
    = Raise (ValueError (MissingEmissionFactors missing)) ∧
    sector a ∈ missing.
Proof.
  intros Hle Ha Hmiss Hp Hg.
  assert (Hrange : ∃ later, py_range start_year (end_year + 1) = start_year :: later).
  { unfold py_range.
    replace (Z.to_nat (end_year + 1 - start_year))
      with (S (Z.to_nat (end_year - start_year))) by lia.
    cbn [seq fmap list_fmap]. rewrite Z.add_0_r. eexists. reflexivity. }
  destruct Hrange as [later Hrange].
  assert (Hcell : ∃ missing,
    forecast_cell sort_indexer series_sum float_pow base_activity_df factor_df
      population_base population_growth gdp_per_capita_base gdp_growth start_year
      urban_modifiers scn start_year
    = Raise (ValueError (MissingEmissionFactors missing)) ∧ sector a ∈ missing).
  { unfold forecast_cell. cbv zeta. rewrite Z.sub_diag, Hp, Hg. cbn [mbind result_bind].
    set (scaled := match urban_modifiers with
                   | Some ((_ :: _) as modifiers) => _
                   | _ => _
                   end).
    assert (Hscaled : sector <$> scaled = sector <$> base_activity_df).
    { subst scaled. unfold scale_for_growth.
      destruct urban_modifiers as [[|item modifiers]|];
        [| unfold apply_urban_form_modifiers; rewrite scale_sectors_sectors |];
        rewrite !scale_where_sectors; reflexivity. }
    destruct (apply_scenario_sectors scaled factor_df scn) as [Hact Hfac].
    destruct (apply_scenario scaled factor_df scn) as [adj_activity adj_factors].
    cbn [fst snd] in Hact, Hfac.
    destruct (unmatched_sector_raises sort_indexer adj_activity adj_factors None (sector a))
      as (missing & Hraise & Hin).
    - rewrite Hact, Hscaled. apply list_elem_of_fmap_2. exact Ha.
    - rewrite Hfac. intros Hin. apply list_elem_of_fmap in Hin as (f & Heq & Hf).
      apply (Hmiss f Hf). congruence.
    - exists missing. rewrite Hraise. auto. }
  destruct Hcell as (missing & Hcell & Hin). exists missing. split; [|exact Hin].
  unfold forecast_scenarios, forecast_records. cbn [for_each]. unfold year_range.
  destruct (Z.ltb_spec end_year start_year); [lia|]. cbn [mbind result_bind].
  rewrite Hrange. cbn [for_each]. rewrite Hcell. reflexivity.
Qed.

Lemma X23_forecast_fails_on_base_join_miss_witness :
  ∃ missing,
    forecast_scenarios stable_argsort sum_skipna pow_repeated
      (base_activity ++ [aviation_50]) base_factors 1000.0 0.0 100.0 0.0 2025 2026
      [no_change "Baseline"; mitigation_20] None
    = Raise (ValueError (MissingEmissionFactors missing)) ∧
    sector aviation_50 ∈ missing.
Proof.
  apply (X23_forecast_fails_on_base_join_miss stable_argsort sum_skipna pow_repeated
           (base_activity ++ [aviation_50]) base_factors 1000.0 0.0 100.0 0.0 2025 2026
           (no_change "Baseline") [mitigation_20] None aviation_50 1.0 1.0).
  - lia.
  - repeat constructor.
  - intros f Hf. each_row Hf; discriminate.
  - reflexivity.
  - reflexivity.
Defined.

(** X24. [CityStatistics.to_projection_frame] returns a frame exactly
    when both powers are defined for every listed year; the frame has one
    row per listed year, in the order given, holding the year, the
    population initial_population·(1 + annual_growth_rate)^(year −
    base_year), the gdp per capita gdp_per_capita·(1 + gdp_growth_rate)^
    (year − base_year), their product as gdp, and the city's energy
    intensity. *)
Theorem X24_projection_frame_rows (float_pow : float → Z → result float)
    (self : CityStatistics) (years : list Z) (base_year : Z)
    (rows : list ProjectionRow) :
  to_projection_frame float_pow self years base_year = Ok rows ↔
  Forall2 (λ y p, ∃ pop_scale gdp_scale,
    float_pow (1 + annual_growth_rate (population_driver self)) (y - base_year)%Z
      = Ok pop_scale ∧
    float_pow (1 + gdp_growth_rate (economic_driver self)) (y - base_year)%Z
      = Ok gdp_scale ∧
    p = {| proj_year := y;
           proj_population := initial_population (population_driver self) * pop_scale;
           proj_gdp_per_capita := gdp_per_capita (economic_driver self) * gdp_scale;
           proj_gdp := initial_population (population_driver self) * pop_scale
                       * (gdp_per_capita (economic_driver self) * gdp_scale);
           proj_energy_intensity := energy_intensity (economic_driver self) |})
    years rows.
Proof.
  unfold to_projection_frame. rewrite for_each_Ok. cbv zeta.
  unfold value_at, gdp_per_capita_at.
  split; intros H; (eapply Forall2_impl; [exact H|]); cbv beta; intros y p.
  - destruct (float_pow (1 + annual_growth_rate _) _) as [pop_scale|];
      cbn [mbind result_bind]; [|discriminate].
    destruct (float_pow (1 + gdp_growth_rate _) _) as [gdp_scale|];
      cbn [mbind result_bind]; [|discriminate].
    intros [= <-]. eauto.
  - intros (pop_scale & gdp_scale & -> & -> & ->). reflexivity.
Qed.

Lemma X24_projection_frame_rows_witness :
  to_projection_frame pow_repeated
    (city_of "demo" 1000.0 0.5 100.0 0.25 0.5
       {| residential_energy := 1000.0; transport_activity := 2000.0;
          industrial_output := 500.0; waste_activity := 200.0;
          grid_energy := 800.0 |}) [2025%Z; 2027%Z; 2026%Z] 2024
  = Ok [ {| proj_year := 2025; proj_population := 1500.0;
            proj_gdp_per_capita := 125.0; proj_gdp := 187500.0;
            proj_energy_intensity := 0.5 |};
         {| proj_year := 2027; proj_population := 3375.0;
            proj_gdp_per_capita := 195.3125; proj_gdp := 659179.6875;
            proj_energy_intensity := 0.5 |};
         {| proj_year := 2026; proj_population := 2250.0;
            proj_gdp_per_capita := 156.25; proj_gdp := 351562.5;
            proj_energy_intensity := 0.5 |} ].
Proof.
  apply (proj2 (X24_projection_frame_rows pow_repeated _ _ _ _)).
  repeat constructor.
  - exists 1.5, 1.25. repeat split; vm_compute; reflexivity.
  - exists 3.375, 1.953125. repeat split; vm_compute; reflexivity.
  - exists 2.25, 1.5625. repeat split; vm_compute; reflexivity.
Defined.
End MissProperties.
